(** * 4-hole ocarina helper: fingering table, notation parser, layout, export names

    A shallow embedding of the core of the web application:
    - [src/types/validation.ts]   (error and warning records, SUPPORTED_NOTES)
    - [src/core/FingeringEngine]  (FINGERING_PATTERNS, getPattern, validateNotes)
    - [src/core/NoteParser.ts]    (validateInput, parseSong, convertNotes)
    - [src/renderer/...Renderer]  (calculateLayout, renderChart, hasContent,
                                   generateFilename)
    - [src/ui/PreviewController]  (the pattern map of updatePreview)
    - [src/ui/ExportManager]      (generateFilename, validateFilename)

    Strings.  A TypeScript string is modelled by [string]; its characters
    are code units below 256.  In that range the white space removed by
    [trim] and matched by [\s] is TAB, LF, VT, FF, CR, SPACE and NO-BREAK
    SPACE (code unit 160), and [\w] is [A-Za-z0-9_].  [toUpperCase] and
    [toLowerCase] change the ASCII letters and keep every other code
    unit: the code only compares their results with the note names and
    with [b], and no code unit from 128 to 255 has an upper-case or
    lower-case form that contains a letter of those.

    Numbers.  Array lengths and indices are [nat].  The numbers of the
    chart configuration and of the layout (radius, spacing, widths,
    coordinates) are IEEE 754 doubles, with the arithmetic of the Standard
    Library's [SpecFloat]; the limits of the parser configuration and the
    file-name length are integers.

    Effects.  [this.config] is passed as an argument; the clock read by
    [new Date()] is passed as a [Date] argument; a thrown exception is a
    value of the right summand of the result. *)

From Stdlib Require Import Bool Arith NArith ZArith Lia List Ascii String DecimalString FunInd.
From Stdlib Require Import SpecFloat.
Import ListNotations.

Open Scope list_scope.
Open Scope string_scope.

(* ================================================================== *)
(** * String primitives of the host language                           *)
(* ================================================================== *)

Module JS.

(** Code of a character. *)
Definition code (c : ascii) : nat := nat_of_ascii c.

(** The members below 256 of the ECMAScript WhiteSpace and LineTerminator
    productions: TAB, LF, VT, FF, CR, SPACE and NO-BREAK SPACE.  This is
    the set removed by [String.prototype.trim] and matched by [\s]. *)
Definition isWhiteSpace (c : ascii) : bool :=
  let n := code c in
  (((9 <=? n) && (n <=? 13)) || (n =? 32) || (n =? 160))%nat.

(** The class [\w]: [A-Za-z0-9_]. *)
Definition isWordChar (c : ascii) : bool :=
  let n := code c in
  (((65 <=? n) && (n <=? 90)) || ((97 <=? n) && (n <=? 122))
   || ((48 <=? n) && (n <=? 57)) || (n =? 95))%nat.

Definition isLower (c : ascii) : bool :=
  let n := code c in ((97 <=? n) && (n <=? 122))%nat.

Definition isUpper (c : ascii) : bool :=
  let n := code c in ((65 <=? n) && (n <=? 90))%nat.

Definition upperChar (c : ascii) : ascii :=
  if isLower c then ascii_of_nat (code c - 32) else c.

Definition lowerChar (c : ascii) : ascii :=
  if isUpper c then ascii_of_nat (code c + 32) else c.

Fixpoint mapString (f : ascii -> ascii) (s : string) : string :=
  match s with
  | EmptyString => EmptyString
  | String c r => String (f c) (mapString f r)
  end.

Fixpoint filterString (p : ascii -> bool) (s : string) : string :=
  match s with
  | EmptyString => EmptyString
  | String c r => if p c then String c (filterString p r) else filterString p r
  end.

Fixpoint allString (p : ascii -> bool) (s : string) : bool :=
  match s with
  | EmptyString => true
  | String c r => p c && allString p r
  end.

(** [s.toUpperCase()] and [s.toLowerCase()]. *)
Definition toUpperCase (s : string) : string := mapString upperChar s.
Definition toLowerCase (s : string) : string := mapString lowerChar s.

(** [s.length === 0]. *)
Definition isEmpty (s : string) : bool :=
  match s with EmptyString => true | String _ _ => false end.

(** [s.trim()], as [trimStart] followed by [trimEnd]. *)
Fixpoint trimStart (s : string) : string :=
  match s with
  | EmptyString => EmptyString
  | String c r => if isWhiteSpace c then trimStart r else s
  end.

Fixpoint trimEnd (s : string) : string :=
  match s with
  | EmptyString => EmptyString
  | String c r =>
      let r' := trimEnd r in
      if isWhiteSpace c && isEmpty r' then EmptyString else String c r'
  end.

Definition trim (s : string) : string := trimEnd (trimStart s).

(** [s.charAt(0)] and [s.slice(1)]. *)
Definition charAt0 (s : string) : string :=
  match s with EmptyString => EmptyString | String c _ => String c EmptyString end.

Definition slice1 (s : string) : string :=
  match s with EmptyString => EmptyString | String _ r => r end.

(** [s.substring(0, n)] and [s.slice(0, n)] for [n >= 0]. *)
Fixpoint take (n : nat) (s : string) : string :=
  match n, s with
  | S k, String c r => String c (take k r)
  | _, _ => EmptyString
  end.

(** [xs.join(sep)]. *)
Fixpoint join (sep : string) (xs : list string) : string :=
  match xs with
  | [] => EmptyString
  | [x] => x
  | x :: rest => x ++ sep ++ join sep rest
  end.

(** [xs.includes(x)] on an array of strings. *)
Definition includes (xs : list string) (x : string) : bool :=
  existsb (String.eqb x) xs.

(** Template-literal rendering of a non-negative integer and of an integer. *)
Definition showNat (n : nat) : string := NilEmpty.string_of_uint (Nat.to_uint n).
Definition showZ (z : Z) : string := NilEmpty.string_of_int (Z.to_int z).

(** Prepend a character to the first piece of a split. *)
Definition consHead (c : ascii) (pieces : list string) : list string :=
  match pieces with
  | [] => [String c EmptyString]
  | h :: t => String c h :: t
  end.

Definition isLF (c : ascii) : bool := (code c =? 10)%nat.
Definition isCR (c : ascii) : bool := (code c =? 13)%nat.

(** [s.split(/\r?\n/)]: a line feed, with the carriage return just before
    it when there is one, ends a piece.  The empty string splits into one
    empty piece. *)
Fixpoint splitLines (s : string) : list string :=
  match s with
  | EmptyString => [EmptyString]
  | String c r =>
      if isLF c then EmptyString :: splitLines r
      else
        match r with
        | String d r' =>
            if isCR c && isLF d then EmptyString :: splitLines r'
            else consHead c (splitLines r)
        | EmptyString => consHead c (splitLines r)
        end
  end.

(** [s.split(re)] for a regular expression [re = [...]+] matching a
    non-empty run of characters of the class [sep]: every maximal run ends
    a piece (a leading run leaves an empty first piece, a trailing run an
    empty last one). *)
Definition startsWith (p : ascii -> bool) (s : string) : bool :=
  match s with EmptyString => false | String c _ => p c end.

Fixpoint splitRuns (sep : ascii -> bool) (s : string) : list string :=
  match s with
  | EmptyString => [EmptyString]
  | String c r =>
      if sep c then
        if startsWith sep r then splitRuns sep r
        else EmptyString :: splitRuns sep r
      else consHead c (splitRuns sep r)
  end.

(** [s.replace(re, rep)] with the global flag, for [re = [...]+]: every
    maximal run of characters of the class is replaced by [rep]. *)
Fixpoint replaceRuns (cls : ascii -> bool) (rep : string) (s : string) : string :=
  match s with
  | EmptyString => EmptyString
  | String c r =>
      if cls c then
        if startsWith cls r then replaceRuns cls rep r
        else rep ++ replaceRuns cls rep r
      else String c (replaceRuns cls rep r)
  end.

End JS.

(* ================================================================== *)
(** * Numbers of the host language                                     *)
(* ================================================================== *)

(** A number is an IEEE 754 double: a value of [spec_float], with the
    operations of [SpecFloat] at precision 53 and exponent bound 1024,
    which round to nearest, ties to even. *)
Module Num.

Definition number : Type := spec_float.

(** [x + y], [x * y] and [x / y]. *)
Definition add (x y : number) : number := SFadd 53 1024 x y.
Definition mul (x y : number) : number := SFmul 53 1024 x y.
Definition div (x y : number) : number := SFdiv 53 1024 x y.

(** [x < y]: false when either side is NaN, and for the two zeros. *)
Definition ltb (x y : number) : bool := SFltb x y.

(** The double nearest to [m * 2^e]: [dyadic 3 (-1)] is the literal [1.5]. *)
Definition dyadic (m e : Z) : number := binary_normalize 53 1024 m e false.

(** An integer literal, an array length or an index, as a number. *)
Definition ofZ (z : Z) : number := dyadic z 0.
Definition ofNat (n : nat) : number := ofZ (Z.of_nat n).

(** The value is a double: a finite one has its mantissa and exponent in
    the canonical form of the format. *)
Definition isDouble (x : number) : bool := valid_binary 53 1024 x.

(** Neither an infinity nor NaN. *)
Definition isFinite (x : number) : bool :=
  match x with
  | S754_zero _ | S754_finite _ _ _ => true
  | S754_infinity _ | S754_nan => false
  end.

End Num.

(* ================================================================== *)
(** * Shared types ([src/types/validation.ts], [src/types/core.ts])    *)
(* ================================================================== *)

Inductive ErrorType :=
| INVALID_FILE_TYPE | UNSUPPORTED_NOTE | EMPTY_INPUT
| PARSING_ERROR | RENDERING_ERROR | EXPORT_ERROR.

Inductive WarningType :=
| NOTE_CONVERSION | EMPTY_LINE | PERFORMANCE_WARNING.

Definition ErrorType_eqb (a b : ErrorType) : bool :=
  match a, b with
  | INVALID_FILE_TYPE, INVALID_FILE_TYPE | UNSUPPORTED_NOTE, UNSUPPORTED_NOTE
  | EMPTY_INPUT, EMPTY_INPUT | PARSING_ERROR, PARSING_ERROR
  | RENDERING_ERROR, RENDERING_ERROR | EXPORT_ERROR, EXPORT_ERROR => true
  | _, _ => false
  end.

Definition WarningType_eqb (a b : WarningType) : bool :=
  match a, b with
  | NOTE_CONVERSION, NOTE_CONVERSION | EMPTY_LINE, EMPTY_LINE
  | PERFORMANCE_WARNING, PERFORMANCE_WARNING => true
  | _, _ => false
  end.

(** Optional fields ([line?], [position?], [suggestions?]) are options. *)
Record ValidationError := mkError {
  e_type : ErrorType;
  e_message : string;
  e_line : option nat;
  e_position : option nat;
  e_suggestions : option (list string)
}.

Record ValidationWarning := mkWarning {
  w_type : WarningType;
  w_message : string;
  w_line : option nat;
  w_position : option nat
}.

Record ValidationResult := mkResult {
  isValid : bool;
  errors : list ValidationError;
  warnings : list ValidationWarning
}.

(** [SUPPORTED_NOTES = ['F', 'G', 'A', 'Bb', 'C', 'D', 'E'] as const]. *)
Definition SUPPORTED_NOTES : list string := ["F"; "G"; "A"; "Bb"; "C"; "D"; "E"].

(** [FingeringPattern]: the note and the array
    [top-left, top-right, bottom-left, bottom-right], [true] = covered. *)
Record FingeringPattern := mkPattern {
  note : string;
  holes : list bool
}.

(** What a call does: it returns a value or throws. *)
Inductive Exception :=
| TypeError
| Error (message : string).

Inductive Outcome (A : Type) :=
| Returned (a : A)
| Thrown (e : Exception).
Arguments Returned {A} a.
Arguments Thrown {A} e.

Definition optNat_eqb (a : option nat) (n : nat) : bool :=
  match a with Some m => Nat.eqb m n | None => false end.

(** The double-quote character, used in messages. *)
Definition dquote : string := String (ascii_of_nat 34) EmptyString.

(* ================================================================== *)
(** * Fingering engine                                                 *)
(* ================================================================== *)

Module FingeringEngine.

(** [FINGERING_PATTERNS], a record keyed by note name, as the association
    list of its own properties in source order. *)
Definition FINGERING_PATTERNS : list (string * FingeringPattern) :=
  [ ("F",  mkPattern "F"  [true; true; true; true]);
    ("G",  mkPattern "G"  [true; false; true; true]);
    ("A",  mkPattern "A"  [true; true; true; false]);
    ("Bb", mkPattern "Bb" [true; false; true; false]);
    ("C",  mkPattern "C"  [false; false; true; true]);
    ("D",  mkPattern "D"  [false; false; true; false]);
    ("E",  mkPattern "E"  [false; true; false; false]) ].

Fixpoint lookup {A : Type} (k : string) (m : list (string * A)) : option A :=
  match m with
  | [] => None
  | (k', v) :: rest => if String.eqb k k' then Some v else lookup k rest
  end.

(** [normalizeNote(note) = note.trim()]. *)
Definition normalizeNote (note : string) : string := JS.trim note.

(** [isSupported(note)]. *)
Definition isSupported (note : string) : bool :=
  let normalizedNote := normalizeNote note in
  JS.includes SUPPORTED_NOTES normalizedNote.

(** [getPattern(note)]; [null] is [None].  The table is read only after the
    membership test, so the read always finds an own property. *)
Definition getPattern (note : string) : option FingeringPattern :=
  let normalizedNote := normalizeNote note in
  if negb (isSupported normalizedNote) then None
  else lookup normalizedNote FINGERING_PATTERNS.

Definition getPatterns (notes : list string) : list (option FingeringPattern) :=
  map getPattern notes.

Definition getSupportedNotes : list string := SUPPORTED_NOTES.

(** The local object literal [noteMap] of [getSuggestions]: own properties. *)
Definition noteMap : list (string * list string) :=
  [ ("B",  ["Bb"; "A"; "C"]);
    ("Db", ["D"; "C"]);
    ("Eb", ["E"; "D"]);
    ("Gb", ["G"; "F"]);
    ("Ab", ["A"; "G"]) ].

(** [noteMap] is an ordinary object, so [noteMap[note]] also finds the
    members it inherits from [Object.prototype].  Each of them is a
    function or an object: truthy, and not iterable. *)
Definition objectPrototypeMembers : list string :=
  [ "constructor"; "hasOwnProperty"; "isPrototypeOf"; "propertyIsEnumerable";
    "toLocaleString"; "toString"; "valueOf"; "__proto__";
    "__defineGetter__"; "__defineSetter__"; "__lookupGetter__"; "__lookupSetter__" ].

Inductive PropertyRead :=
| OwnArray (xs : list string)
| InheritedMember
| Undefined.

Definition readNoteMap (key : string) : PropertyRead :=
  match lookup key noteMap with
  | Some xs => OwnArray xs
  | None => if JS.includes objectPrototypeMembers key then InheritedMember else Undefined
  end.

(** [getSuggestions(note)].  The three steps push onto one array; the spread
    [...noteMap[note]] of a value that is not iterable throws a [TypeError]
    (the build targets ES2022, so the spread is the native one). *)
Definition getSuggestions (note : string) : Outcome (list string) :=
  let s0 : list string := [] in
  let s1 := if String.eqb (JS.toLowerCase note) "b" then (s0 ++ ["Bb"])%list else s0 in
  match readNoteMap note with
  | InheritedMember => Thrown TypeError
  | r =>
      let s2 := match r with OwnArray xs => (s1 ++ xs)%list | _ => s1 end in
      let s3 := match s2 with [] => (s2 ++ SUPPORTED_NOTES)%list | _ => s2 end in
      Returned s3
  end.

Definition unsupportedMessage (note : string) : string :=
  "Note " ++ dquote ++ note ++ dquote ++ " is not supported by 4-hole ocarina".

(** The [for] loop of [validateNotes], from index [i] on. *)
Fixpoint validateNotesFrom (i : nat) (notes : list string)
  : Outcome (list ValidationError) :=
  match notes with
  | [] => Returned []
  | note :: rest =>
      let normalizedNote := normalizeNote note in
      if negb (isSupported normalizedNote) then
        match getSuggestions normalizedNote with
        | Thrown e => Thrown e
        | Returned sg =>
            match validateNotesFrom (S i) rest with
            | Thrown e => Thrown e
            | Returned es =>
                Returned (mkError UNSUPPORTED_NOTE (unsupportedMessage note)
                                  None (Some i) (Some sg) :: es)
            end
        end
      else validateNotesFrom (S i) rest
  end.

(** [validateNotes(notes)]. *)
Definition validateNotes (notes : list string) : Outcome ValidationResult :=
  match validateNotesFrom 0 notes with
  | Thrown e => Thrown e
  | Returned es => Returned (mkResult (Nat.eqb (List.length es) 0) es [])
  end.

(** The suggestion rule in the words of the specification: [Bb] for a token
    that is [B] up to case; otherwise the adjacency table; otherwise the
    seven supported names. *)
Definition stated_suggestions (token : string) : list string :=
  if String.eqb (JS.toLowerCase token) "b" then ["Bb"]
  else match lookup token noteMap with
       | Some xs => xs
       | None => SUPPORTED_NOTES
       end.

(** The suggestions the loop produces for a trimmed token that is not an
    inherited member name. *)
Definition suggestionsFor (token : string) : list string :=
  if String.eqb token "B" then ["Bb"; "Bb"; "A"; "C"]
  else if String.eqb token "b" then ["Bb"]
  else if String.eqb token "Db" then ["D"; "C"]
  else if String.eqb token "Eb" then ["E"; "D"]
  else if String.eqb token "Gb" then ["G"; "F"]
  else if String.eqb token "Ab" then ["A"; "G"]
  else SUPPORTED_NOTES.

Definition notInherited (token : string) : Prop :=
  JS.includes objectPrototypeMembers (normalizeNote token) = false.

(** The error reported for the unsupported note [n] found at index [i]. *)
Definition unsupportedAt (n : string) (i : nat) : ValidationError :=
  mkError UNSUPPORTED_NOTE (unsupportedMessage n) None (Some i)
          (Some (suggestionsFor (normalizeNote n))).

Definition atPosition (i : nat) (e : ValidationError) : bool :=
  optNat_eqb (e_position e) i.

End FingeringEngine.

(* ================================================================== *)
(** * Core types ([src/types/core.ts])                                 *)
(* ================================================================== *)

(** A reading of the clock, by its UTC fields. *)
Record Date := mkDate {
  utcFullYear : Z;
  utcMonth : N;          (* 1 .. 12, as printed *)
  utcDate : N;           (* 1 .. 31 *)
  utcHours : N;          (* 0 .. 23 *)
  utcMinutes : N;        (* 0 .. 59 *)
  utcSeconds : N;        (* 0 .. 59 *)
  utcMilliseconds : N    (* 0 .. 999 *)
}.

Record Metadata := mkMetadata {
  originalInput : string;
  parseTimestamp : Date;
  noteCount : nat
}.

Record Song := mkSong {
  title : string;
  lines : list (list string);
  metadata : option Metadata
}.

Record Colors := mkColors {
  background : string;
  holeFilled : string;
  holeEmpty : string;
  text : string
}.

Record ChartConfig := mkChartConfig {
  canvasWidth : Num.number;
  canvasHeight : Num.number;
  holeRadius : Num.number;
  spacing : Num.number;
  colors : Colors
}.

Record Margins := mkMargins {
  top : Num.number;
  right : Num.number;
  bottom : Num.number;
  left : Num.number
}.

Record LayoutInfo := mkLayout {
  totalWidth : Num.number;
  totalHeight : Num.number;
  lineHeight : Num.number;
  patternWidth : Num.number;
  patternHeight : Num.number;
  margins : Margins
}.

(* ================================================================== *)
(** * Note parser ([src/core/NoteParser.ts])                           *)
(* ================================================================== *)

Module NoteParser.

Record ParseConfig := mkParseConfig {
  autoConvertB : bool;
  strictValidation : bool;
  maxLines : Z;
  maxNotesPerLine : Z
}.

Definition DEFAULT_CONFIG : ParseConfig :=
  mkParseConfig true true 100 50.

Definition DEFAULT_TITLE : string := "Untitled Song".

(** The class [[\s,|\-]]: white space, comma, pipe, hyphen. *)
Definition isSeparator (c : ascii) : bool :=
  JS.isWhiteSpace c
  || (JS.code c =? 44)%nat || (JS.code c =? 124)%nat || (JS.code c =? 45)%nat.

(** [preprocessInput]: [input.split(/\r?\n/).map(line => line.trim())]. *)
Definition preprocessInput (input : string) : list string :=
  map JS.trim (JS.splitLines input).

(** [convertNotes]: the converted notes and one warning per converted [B]. *)
Definition conversionWarning : ValidationWarning :=
  mkWarning NOTE_CONVERSION
    "Converted 'B' to 'Bb' (4-hole ocarinas use Bb instead of B)" None None.

Fixpoint convertNotes (cfg : ParseConfig) (notes : list string)
  : list string * list ValidationWarning :=
  match notes with
  | [] => ([], [])
  | n :: rest =>
      let (ns, ws) := convertNotes cfg rest in
      if String.eqb (JS.toUpperCase n) "B" && autoConvertB cfg
      then ("Bb" :: ns, conversionWarning :: ws)
      else (n :: ns, ws)
  end.

(** One turn of the loop of [convertNotes]: the note pushed for [n]. *)
Definition convertedNote (cfg : ParseConfig) (n : string) : string :=
  if String.eqb (JS.toUpperCase n) "B" && autoConvertB cfg then "Bb" else n.

(** The raw tokens of [parseNotesFromLine]:
    [line.split(/[\s,|\-]+/).map(note => note.trim()).filter(note => note.length > 0)]. *)
Definition rawNotesOfParse (line : string) : list string :=
  filter (fun n => negb (JS.isEmpty n))
         (map JS.trim (JS.splitRuns isSeparator line)).

(** The raw tokens of [validateNoteLine], written a second time in the
    source with the same regular expression. *)
Definition rawNotesOfValidate (line : string) : list string :=
  filter (fun n => negb (JS.isEmpty n))
         (map JS.trim (JS.splitRuns isSeparator line)).

(** The case normalisation at the end of [parseNotesFromLine]. *)
Definition normalizeCase (n : string) : string :=
  let upperNote := JS.toUpperCase n in
  if String.eqb upperNote "BB" then "Bb"
  else if JS.includes SUPPORTED_NOTES upperNote then upperNote
  else n.

Definition parseNotesFromLine (cfg : ParseConfig) (line : string) : list string :=
  let rawNotes := rawNotesOfParse line in
  let notes := fst (convertNotes cfg rawNotes) in
  map normalizeCase notes.

(** [parseNoteLines]: blank lines and lines without a token are skipped. *)
Fixpoint parseNoteLines (cfg : ParseConfig) (ls : list string) : list (list string) :=
  match ls with
  | [] => []
  | line :: rest =>
      if JS.isEmpty (JS.trim line) then parseNoteLines cfg rest
      else
        let notes := parseNotesFromLine cfg line in
        if (0 <? List.length notes)%nat then notes :: parseNoteLines cfg rest
        else parseNoteLines cfg rest
  end.

(** The regular expression [/^(title|song|name):\s*/i] of [extractTitle]. *)
Fixpoint stripPrefixCI (p s : string) : option string :=
  match p with
  | EmptyString => Some s
  | String a p' =>
      match s with
      | EmptyString => None
      | String b s' =>
          if Ascii.eqb (JS.upperChar a) (JS.upperChar b) then stripPrefixCI p' s'
          else None
      end
  end.

Definition removeTitlePrefix (s : string) : string :=
  match stripPrefixCI "title:" s with
  | Some r => JS.trimStart r
  | None =>
      match stripPrefixCI "song:" s with
      | Some r => JS.trimStart r
      | None =>
          match stripPrefixCI "name:" s with
          | Some r => JS.trimStart r
          | None => s
          end
      end
  end.

(** [extractTitle(lines)]. *)
Definition extractTitle (ls : list string) : string :=
  match ls with
  | [] => DEFAULT_TITLE
  | first :: _ =>
      let titleLine := JS.trim first in
      if JS.isEmpty titleLine then DEFAULT_TITLE
      else
        let cleanTitle := JS.trim (removeTitlePrefix titleLine) in
        if JS.isEmpty cleanTitle then DEFAULT_TITLE else cleanTitle
  end.

Definition willConvertMessage : string := "Note 'B' will be converted to 'Bb'".

Definition unsupportedNoteMessage (n : string) (lineNumber position : nat) : string :=
  "Unsupported note '" ++ n ++ "' at line " ++ JS.showNat lineNumber
  ++ ", position " ++ JS.showNat position.

(** [validateNote(note, lineNumber, position)]. *)
Definition validateNote (cfg : ParseConfig) (n : string) (lineNumber position : nat)
  : ValidationResult :=
  let normalizedNote := JS.toUpperCase (JS.charAt0 n) ++ JS.toLowerCase (JS.slice1 n) in
  let '(es, ws) :=
    if negb (JS.includes SUPPORTED_NOTES normalizedNote) then
      if String.eqb (JS.toUpperCase n) "B" then
        if autoConvertB cfg then
          ([], [mkWarning NOTE_CONVERSION willConvertMessage
                          (Some lineNumber) (Some position)])
        else
          ([mkError UNSUPPORTED_NOTE (unsupportedNoteMessage n lineNumber position)
                    (Some lineNumber) (Some position)
                    (Some ("Use Bb instead of B for 4-hole ocarinas" :: SUPPORTED_NOTES))],
           [])
      else
        ([mkError UNSUPPORTED_NOTE (unsupportedNoteMessage n lineNumber position)
                  (Some lineNumber) (Some position)
                  (Some ["Supported notes: " ++ JS.join ", " SUPPORTED_NOTES])],
         [])
    else ([], []) in
  mkResult (Nat.eqb (List.length es) 0) es ws.

(** The first loop of [validateNoteLine]: a warning for every raw token
    that is [B] up to case, at its 1-based position.  [i] is the 0-based
    index of the head of [raw]. *)
Fixpoint conversionWarningsFrom (cfg : ParseConfig) (lineNumber i : nat)
         (raw : list string) : list ValidationWarning :=
  match raw with
  | [] => []
  | r :: rest =>
      let ws := conversionWarningsFrom cfg lineNumber (S i) rest in
      if String.eqb (JS.toUpperCase r) "B" && autoConvertB cfg
      then mkWarning NOTE_CONVERSION willConvertMessage
                     (Some lineNumber) (Some (i + 1)) :: ws
      else ws
  end.

(** The second loop of [validateNoteLine]: every parsed note is validated;
    conversion warnings of [validateNote] are dropped. *)
Fixpoint validateNotesFrom (cfg : ParseConfig) (lineNumber i : nat) (notes : list string)
  : list ValidationError * list ValidationWarning :=
  match notes with
  | [] => ([], [])
  | n :: rest =>
      let noteValidation := validateNote cfg n lineNumber (i + 1) in
      let (es, ws) := validateNotesFrom cfg lineNumber (S i) rest in
      ((errors noteValidation ++ es)%list,
       (filter (fun w => negb (WarningType_eqb (w_type w) NOTE_CONVERSION))
               (warnings noteValidation) ++ ws)%list)
  end.

Definition tooManyNotesMessage (cfg : ParseConfig) (lineNumber count : nat) : string :=
  "Too many notes on line " ++ JS.showNat lineNumber ++ " (" ++ JS.showNat count
  ++ "). Maximum: " ++ JS.showZ (maxNotesPerLine cfg).

(** [validateNoteLine(line, lineNumber)]. *)
Definition validateNoteLine (cfg : ParseConfig) (line : string) (lineNumber : nat)
  : ValidationResult :=
  if JS.isEmpty (JS.trim line) then
    mkResult true []
      [mkWarning EMPTY_LINE ("Line " ++ JS.showNat lineNumber ++ " is empty")
                 (Some lineNumber) None]
  else
    let rawNotes := rawNotesOfValidate line in
    let ws1 := conversionWarningsFrom cfg lineNumber 0 rawNotes in
    let notes := parseNotesFromLine cfg line in
    let es1 :=
      if (Z.of_nat (List.length notes) >? maxNotesPerLine cfg)%Z then
        [mkError PARSING_ERROR (tooManyNotesMessage cfg lineNumber (List.length notes))
                 (Some lineNumber) None
                 (Some ["Split long lines into multiple shorter lines"])]
      else [] in
    let (es2, ws2) := validateNotesFrom cfg lineNumber 0 notes in
    let es := (es1 ++ es2)%list in
    mkResult (Nat.eqb (List.length es) 0) es (ws1 ++ ws2)%list.

(** The loop of [validateInput] over the note lines; [i] is the 0-based
    index of the head of [ls] in the preprocessed lines, reported as line
    [i + 1]. *)
Fixpoint validateLinesFrom (cfg : ParseConfig) (i : nat) (ls : list string)
  : list ValidationError * list ValidationWarning :=
  match ls with
  | [] => ([], [])
  | line :: rest =>
      let lineValidation := validateNoteLine cfg line (i + 1) in
      let (es, ws) := validateLinesFrom cfg (S i) rest in
      ((errors lineValidation ++ es)%list, (warnings lineValidation ++ ws)%list)
  end.

Definition emptyInputError : ValidationError :=
  mkError EMPTY_INPUT "Input cannot be empty" None None
          (Some ["Enter song notation or load an example song"]).

Definition missingNotesError : ValidationError :=
  mkError PARSING_ERROR "Input must contain a title and at least one line of notes"
          None None
          (Some ["Add a title on the first line and notes on subsequent lines"]).

Definition tooManyLinesError (cfg : ParseConfig) (count : nat) : ValidationError :=
  mkError PARSING_ERROR
          ("Too many lines (" ++ JS.showNat count ++ "). Maximum allowed: "
           ++ JS.showZ (maxLines cfg))
          None None
          (Some ["Split large songs into smaller sections"]).

(** [validateInput(input)]. *)
Definition validateInput (cfg : ParseConfig) (input : string) : ValidationResult :=
  if JS.isEmpty input || Nat.eqb (String.length (JS.trim input)) 0 then
    mkResult false [emptyInputError] []
  else
    let ls := preprocessInput input in
    let es1 := if (List.length ls <? 2)%nat then [missingNotesError] else [] in
    let es2 :=
      if (Z.of_nat (List.length ls) >? maxLines cfg)%Z
      then [tooManyLinesError cfg (List.length ls)] else [] in
    let (es3, ws) := validateLinesFrom cfg 1 (List.tl ls) in
    let es := (es1 ++ es2 ++ es3)%list in
    mkResult (Nat.eqb (List.length es) 0) es ws.

(** A blank line, as [parseNoteLines] and [validateNoteLine] test it, and
    an array of notes with at least one note. *)
Definition isBlank (line : string) : bool := JS.isEmpty (JS.trim line).
Definition hasNotes (notes : list string) : bool := (0 <? List.length notes)%nat.

(** Selection of the diagnostics of one kind at one line and position. *)
Definition warningAt (ty : WarningType) (lineNumber position : nat)
           (w : ValidationWarning) : bool :=
  WarningType_eqb (w_type w) ty
  && optNat_eqb (w_line w) lineNumber && optNat_eqb (w_position w) position.

Definition errorAt (ty : ErrorType) (lineNumber position : nat)
           (e : ValidationError) : bool :=
  ErrorType_eqb (e_type e) ty
  && optNat_eqb (e_line e) lineNumber && optNat_eqb (e_position e) position.

Definition isConversion (w : ValidationWarning) : bool :=
  WarningType_eqb (w_type w) NOTE_CONVERSION.

(** [parseSong(input)]; [now] is the value of [new Date()]. *)
Definition parseSong (cfg : ParseConfig) (now : Date) (input : string) : Outcome Song :=
  let validation := validateInput cfg input in
  if negb (isValid validation) then
    Thrown (Error ("Parsing failed: "
                   ++ JS.join ", " (map e_message (errors validation))))
  else
    let ls := preprocessInput input in
    let title := extractTitle ls in
    let noteLines := parseNoteLines cfg (List.tl ls) in
    Returned (mkSong title noteLines
                (Some (mkMetadata input now (List.length (List.concat noteLines))))).

End NoteParser.

(* ================================================================== *)
(** * Export file names                                                *)
(* ================================================================== *)

Module FileName.

Definition isHyphen (c : ascii) : bool := (JS.code c =? 45)%nat.
Definition isColonOrHyphen (c : ascii) : bool :=
  (JS.code c =? 58)%nat || (JS.code c =? 45)%nat.

(** The characters kept by [.replace(/[^\w\s-]/g, '')]. *)
Definition keptInTitle (c : ascii) : bool :=
  JS.isWordChar c || JS.isWhiteSpace c || isHyphen c.

(** [.replace(/^-|-$/g, '')]: one hyphen at the start and one at the end. *)
Definition dropLeadingHyphen (s : string) : string :=
  match s with
  | String c r => if isHyphen c then r else s
  | EmptyString => EmptyString
  end.

Fixpoint dropTrailingHyphen (s : string) : string :=
  match s with
  | EmptyString => EmptyString
  | String c EmptyString => if isHyphen c then EmptyString else s
  | String c r => String c (dropTrailingHyphen r)
  end.

(** The chain of replacements both [generateFilename] methods apply to the
    title, up to the final [substring(0, maxLength)]. *)
Definition cleanTitle (maxLength : nat) (songTitle : string) : string :=
  let s1 := JS.trim songTitle in
  let s2 := JS.filterString keptInTitle s1 in
  let s3 := JS.replaceRuns JS.isWhiteSpace "-" s2 in
  let s4 := JS.replaceRuns isHyphen "-" s3 in
  let s5 := dropTrailingHyphen (dropLeadingHyphen s4) in
  let s6 := JS.toLowerCase s5 in
  JS.take maxLength s6.

(** Decimal digits of fixed width, as [toISOString] prints them. *)
Definition digit (n : N) : ascii := ascii_of_N (48 + n mod 10).
Arguments digit : simpl never.
Definition digits2 (n : N) : string :=
  String (digit (n / 10)) (String (digit n) EmptyString).
Definition digits3 (n : N) : string := String (digit (n / 100)) (digits2 n).
Definition digits4 (n : N) : string := String (digit (n / 1000)) (digits3 n).
Definition digits6 (n : N) : string :=
  String (digit (n / 100000)) (String (digit (n / 10000)) (digits4 n)).

(** [Date.prototype.toISOString]: [YYYY-MM-DDTHH:mm:ss.sssZ], with a sign
    and six digits for a year outside 0 .. 9999. *)
Definition isoYear (y : Z) : string :=
  if ((0 <=? y) && (y <=? 9999))%Z then digits4 (Z.to_N y)
  else (if (y <? 0)%Z then "-" else "+") ++ digits6 (Z.to_N (Z.abs y)).

Definition toISOString (d : Date) : string :=
  isoYear (utcFullYear d) ++ "-" ++ digits2 (utcMonth d) ++ "-" ++ digits2 (utcDate d)
  ++ "T" ++ digits2 (utcHours d) ++ ":" ++ digits2 (utcMinutes d) ++ ":"
  ++ digits2 (utcSeconds d) ++ "." ++ digits3 (utcMilliseconds d) ++ "Z".

(** [new Date().toISOString().slice(0, 19).replace(/[:-]/g, '').toLowerCase()]. *)
Definition keptInStamp (c : ascii) : bool := negb (isColonOrHyphen c).

Definition timestamp (now : Date) : string :=
  JS.toLowerCase
    (JS.filterString keptInStamp (JS.take 19 (toISOString now))).

(** A date the clock can return, with a four-digit year. *)
Definition plainDate (d : Date) : Prop :=
  (0 <= utcFullYear d <= 9999)%Z
  /\ (1 <= utcMonth d <= 12)%N /\ (1 <= utcDate d <= 31)%N
  /\ (utcHours d <= 23)%N /\ (utcMinutes d <= 59)%N /\ (utcSeconds d <= 59)%N
  /\ (utcMilliseconds d <= 999)%N.

(** The stamp as the specification words it: [YYYYMMDDHHMMSS], all digits. *)
Definition isDigit (c : ascii) : bool :=
  ((48 <=? JS.code c) && (JS.code c <=? 57))%nat.

Fixpoint stripPrefix (p s : string) : option string :=
  match p with
  | EmptyString => Some s
  | String a p' =>
      match s with
      | EmptyString => None
      | String b s' => if Ascii.eqb a b then stripPrefix p' s' else None
      end
  end.

Fixpoint drop (n : nat) (s : string) : string :=
  match n, s with
  | S k, String _ r => drop k r
  | _, _ => s
  end.

(** [name] reads [<slug>-<14 digits>.png]. *)
Definition hasNumericStamp (slug name : string) : bool :=
  match stripPrefix (slug ++ "-") name with
  | None => false
  | Some rest =>
      Nat.eqb (String.length (JS.take 14 rest)) 14
      && JS.allString isDigit (JS.take 14 rest)
      && String.eqb (drop 14 rest) ".png"
  end.

(** The stamp the code produces: eight digits, [t], six digits. *)
Definition stampOf (d : Date) : string :=
  digits4 (Z.to_N (utcFullYear d)) ++ digits2 (utcMonth d) ++ digits2 (utcDate d)
  ++ "t" ++ digits2 (utcHours d) ++ digits2 (utcMinutes d) ++ digits2 (utcSeconds d).

(** A title made of special characters only: none is a word character, a
    white space or a hyphen. *)
Definition onlySpecial (s : string) : bool :=
  JS.allString (fun c => negb (keptInTitle c)) s.

End FileName.

(* ================================================================== *)
(** * Chart renderer ([src/renderer/ChartRenderer.ts])                 *)
(* ================================================================== *)

Module ChartRenderer.

(** [Math.max(x, ...rest)]. *)
Fixpoint mathMax (x : Z) (rest : list Z) : Z :=
  match rest with
  | [] => x
  | y :: r => mathMax (Z.max x y) r
  end.

(** [song.lines.length > 0 ? Math.max(...song.lines.map(l => l.length)) : 1].
    The arguments are array lengths, so the maximum is an integer. *)
Definition maxNotesPerLine (song : Song) : Z :=
  match map (fun line => Z.of_nat (List.length line)) (lines song) with
  | [] => 1
  | x :: rest => mathMax x rest
  end.

(** [calculateLayout(song)], reading [this.config].  The literals [2] and
    [3] and the two integers are converted by [Num.ofZ]. *)
Definition calculateLayout (config : ChartConfig) (song : Song) : LayoutInfo :=
  let spacing := spacing config in
  let holeRadius := holeRadius config in
  let patternWidth :=
    Num.add (Num.mul (Num.mul holeRadius (Num.ofZ 2)) (Num.ofZ 2)) spacing in
  let patternHeight :=
    Num.add (Num.mul (Num.mul holeRadius (Num.ofZ 2)) (Num.ofZ 2)) spacing in
  let maxNotesPerLine := Num.ofZ (maxNotesPerLine song) in
  let lineWidth :=
    Num.mul maxNotesPerLine (Num.add patternWidth (Num.mul spacing (Num.ofZ 2))) in
  let lineHeight := Num.add patternHeight (Num.mul spacing (Num.ofZ 3)) in
  let margins :=
    mkMargins (Num.mul spacing (Num.ofZ 2)) (Num.mul spacing (Num.ofZ 2))
              (Num.mul spacing (Num.ofZ 2)) (Num.mul spacing (Num.ofZ 2)) in
  let totalWidth := Num.add (Num.add lineWidth (left margins)) (right margins) in
  let totalHeight :=
    Num.add
      (Num.add
         (Num.add
            (Num.mul (Num.ofZ (Z.max (Z.of_nat (List.length (lines song))) 1))
                     lineHeight)
            (top margins))
         (bottom margins))
      (Num.mul spacing (Num.ofZ 2)) in
  mkLayout totalWidth totalHeight lineHeight patternWidth patternHeight margins.

(** [generateFilename(songTitle)]. *)
Definition generateFilename (now : Date) (songTitle : string) : string :=
  let cleanTitle := FileName.cleanTitle 50 songTitle in
  let timestamp := FileName.timestamp now in
  if negb (JS.isEmpty cleanTitle)
  then cleanTitle ++ "-" ++ timestamp ++ ".png"
  else "ocarina-chart-" ++ timestamp ++ ".png".

(** The longest line as the specification words it: the maximum line
    length, or 1 when there are no lines. *)
Definition stated_maxNotesPerLine (song : Song) : Z :=
  match lines song with
  | [] => 1
  | _ => Z.of_nat (list_max (map (@List.length string) (lines song)))
  end.

(** The formulas of the layout over the integers, for an integer radius
    [R] and spacing [S], a longest line of [n] notes and [l] lines. *)
Definition exactPattern (R S : Z) : Z := (R * 4 + S)%Z.
Definition exactLineHeight (R S : Z) : Z := (exactPattern R S + S * 3)%Z.
Definition exactWidth (R S n : Z) : Z :=
  (n * (exactPattern R S + S * 2) + S * 2 + S * 2)%Z.
Definition exactHeight (R S l : Z) : Z :=
  (Z.max l 1 * exactLineHeight R S + S * 2 + S * 2 + S * 2)%Z.

(** The layout of a song is computed without rounding for an integer
    radius [R] and spacing [S] that are not negative, when the integers
    involved stay below [2^52]: every coordinate of the chart, and its
    double, is then an integer that a double represents exactly. *)
Definition exactFor (R S : Z) (song : Song) : Prop :=
  (0 <= R /\ 0 <= S
   /\ maxNotesPerLine song < 2 ^ 52
   /\ Z.of_nat (List.length (lines song)) < 2 ^ 52
   /\ exactWidth R S (maxNotesPerLine song) < 2 ^ 52
   /\ exactHeight R S (Z.of_nat (List.length (lines song))) < 2 ^ 52)%Z.

Definition withHoleRadius (config : ChartConfig) (r : Num.number) : ChartConfig :=
  mkChartConfig (canvasWidth config) (canvasHeight config) r
                (spacing config) (colors config).

End ChartRenderer.

(* ================================================================== *)
(** * Export manager ([src/ui/ExportManager.ts])                       *)
(* ================================================================== *)

Module ExportManager.

Inductive Format := png | jpeg.

(** [ExportConfig]; the encoder [quality] plays no part in file names and
    is left out. *)
Record ExportConfig := mkExportConfig {
  defaultFormat : Format;
  includeTimestamp : bool;
  maxFilenameLength : nat
}.

Definition DEFAULT_EXPORT_CONFIG : ExportConfig := mkExportConfig png true 50.

(** The argument [songTitle: string | Song]. *)
Inductive TitleArg :=
| OfString (s : string)
| OfSong (song : Song).

(** [generateFilename(songTitle, format = 'png')]. *)
Definition generateFilename (config : ExportConfig) (now : Date)
           (songTitle : TitleArg) (format : string) : string :=
  let titleString :=
    match songTitle with
    | OfString s => s
    | OfSong song => title song
    end in
  let cleanTitle := FileName.cleanTitle (maxFilenameLength config) titleString in
  let filename0 := if negb (JS.isEmpty cleanTitle) then cleanTitle else "ocarina-chart" in
  let filename :=
    if includeTimestamp config then filename0 ++ "-" ++ FileName.timestamp now
    else filename0 in
  filename ++ "." ++ format.

End ExportManager.

(* ================================================================== *)
(** * Further notions used to state what the parser does               *)
(* ================================================================== *)

Module ParserFacts.

(** Number of line feeds of a text. *)
Fixpoint countLF (s : string) : nat :=
  match s with
  | EmptyString => 0
  | String c r => (if JS.isLF c then 1 else 0) + countLF r
  end.

(** A token that is [B] up to case. *)
Definition isB (t : string) : bool := String.eqb (JS.toUpperCase t) "B".

(** The upper-case spellings of the seven supported names. *)
Definition UPPER_NAMES : list string := ["F"; "G"; "A"; "BB"; "C"; "D"; "E"].

(** The raw tokens that pass validation: a supported name in any case,
    and [B] in any case when it is converted. *)
Definition acceptsToken (cfg : NoteParser.ParseConfig) (t : string) : bool :=
  JS.includes UPPER_NAMES (JS.toUpperCase t)
  || (isB t && NoteParser.autoConvertB cfg).

(** The prefixes [/^(title|song|name):\s*/i] removes from a title line,
    in lower case. *)
Definition TITLE_PREFIXES : list string := ["title:"; "song:"; "name:"].

(** The note that ends up in the song for the raw token [t]. *)
Definition parsedNote (cfg : NoteParser.ParseConfig) (t : string) : string :=
  NoteParser.normalizeCase (NoteParser.convertedNote cfg t).

End ParserFacts.

(* ================================================================== *)
(** * Further parts of the fingering engine and of its caller          *)
(* ================================================================== *)

Module EngineFacts.

(** The trimmed note names an inherited member of [Object.prototype]. *)
Definition isInherited (n : string) : bool :=
  JS.includes FingeringEngine.objectPrototypeMembers (FingeringEngine.normalizeNote n).

End EngineFacts.

(** [PreviewController.updatePreview]: the part that gathers the patterns
    handed to the renderer.  A [Set] is the list of its members in
    insertion order; a [Map] is the list of its entries in insertion
    order, [set] replacing the value of a key already present. *)
Module PreviewController.

Definition setAdd (x : string) (s : list string) : list string :=
  if JS.includes s x then s else (s ++ [x])%list.

Fixpoint mapSet {A : Type} (k : string) (v : A) (m : list (string * A))
  : list (string * A) :=
  match m with
  | [] => [(k, v)]
  | (k', v') :: rest =>
      if String.eqb k k' then (k', v) :: rest else (k', v') :: mapSet k v rest
  end.

(** [map.get(k)]; [undefined] is [None]. *)
Definition mapGet {A : Type} (m : list (string * A)) (k : string) : option A :=
  FingeringEngine.lookup k m.

(** [song.lines.forEach(line => line.forEach(note => allNotes.add(note)))]. *)
Definition allNotes (song : Song) : list string :=
  fold_left (fun acc line => fold_left (fun acc' n => setAdd n acc') line acc)
            (lines song) [].

(** [allNotes.forEach(note => { const pattern = getPattern(note);
    if (pattern) fingeringPatterns.set(note, pattern) })]. *)
Definition fingeringPatternsOf (song : Song) : list (string * FingeringPattern) :=
  fold_left (fun m n =>
               match FingeringEngine.getPattern n with
               | Some pattern => mapSet n pattern m
               | None => m
               end)
            (allNotes song) [].

End PreviewController.

(* ================================================================== *)
(** * Drawing ([ChartRenderer.renderChart] and what it calls)          *)
(* ================================================================== *)

(** The drawing surface is modelled by the calls it receives, in order,
    with the drawing state each call reads (fill style, font, alignment,
    stroke style, line width).  Coordinates are numbers of the host
    language.  A drawing routine returns the calls it completed and the
    exception that stopped it, if any. *)
Module ChartDrawing.

(** The font strings the renderer assigns:
    [`${sizePx}px Arial, sans-serif`], with [bold ] in front for the title. *)
Record Font := mkFont { bold : bool; sizePx : Num.number }.

Inductive Call :=
| SetCanvasSize (width height : Num.number)
    (* canvas.width = width; canvas.height = height *)
| SetStyleSize (widthPx heightPx : Num.number)
    (* canvas.style.width = `${widthPx}px`, and the same for the height *)
| Scale (sx sy : Num.number)
| FillRect (fillStyle : string) (x y w h : Num.number)
| FillText (fillStyle : string) (font : Font) (textAlign textBaseline text : string)
           (x y : Num.number)
| BeginPath
| Arc (x y radius : Num.number)
    (* arc(x, y, radius, 0, 2 * Math.PI) *)
| Fill (fillStyle : string)
| Stroke (strokeStyle : string) (lineWidth : Num.number).

Inductive Failure := TypeErrorThrown | IndexSizeError.

Definition Drawn : Type := (list Call * option Failure)%type.

(** [setupHighDPICanvas()].  The values assigned to [canvas.width] and
    [canvas.height] are recorded as computed, before the conversion to an
    integer that the attribute applies. *)
Definition setupHighDPICanvas (config : ChartConfig) (dpr : Num.number) : list Call :=
  let displayWidth := canvasWidth config in
  let displayHeight := canvasHeight config in
  [ SetCanvasSize (Num.mul displayWidth dpr) (Num.mul displayHeight dpr);
    SetStyleSize displayWidth displayHeight;
    Scale dpr dpr ].

(** [updateCanvasSize(layout)]: the configuration is rewritten in place. *)
Definition resized (config : ChartConfig) (layout : LayoutInfo) : ChartConfig :=
  mkChartConfig (totalWidth layout) (totalHeight layout)
                (holeRadius config) (spacing config) (colors config).

Definition updateCanvasSize (config : ChartConfig) (dpr : Num.number)
           (layout : LayoutInfo) : ChartConfig * list Call :=
  let config' := resized config layout in
  (config', setupHighDPICanvas config' dpr).

(** [arc] returns without adding anything to the path when an argument is
    an infinity or NaN, and otherwise throws [IndexSizeError] when the
    radius is negative.  The two angles are finite constants. *)
Definition arcThrows (x y radius : Num.number) : bool :=
  Num.isFinite x && Num.isFinite y && Num.isFinite radius
  && Num.ltb radius (Num.ofZ 0).

(** [drawHole(centerX, centerY, isCovered)]. *)
Definition drawHole (config : ChartConfig) (centerX centerY : Num.number)
           (isCovered : bool) : Drawn :=
  let r := holeRadius config in
  if arcThrows centerX centerY r then ([BeginPath], Some IndexSizeError)
  else if isCovered then
    ([BeginPath; Arc centerX centerY r; Fill (holeFilled (colors config))], None)
  else
    ([BeginPath; Arc centerX centerY r; Fill (holeEmpty (colors config));
      Stroke (holeFilled (colors config)) (Num.ofZ 2)], None).

(** The array [holePositions] of [renderFingeringPattern]. *)
Definition holePositions (config : ChartConfig) (x y : Num.number)
  : list (Num.number * Num.number) :=
  let holeRadius := holeRadius config in
  let spacing := spacing config in
  let onePointFive := Num.dyadic 3 (-1) in
  [ (x, Num.add y (Num.mul spacing onePointFive));
    (Num.add (Num.add x (Num.mul holeRadius (Num.ofZ 2))) spacing,
     Num.add y (Num.mul spacing onePointFive));
    (x,
     Num.add (Num.add (Num.add y (Num.mul spacing onePointFive))
                      (Num.mul holeRadius (Num.ofZ 2)))
             spacing);
    (Num.add (Num.add x (Num.mul holeRadius (Num.ofZ 2))) spacing,
     Num.add (Num.add (Num.add y (Num.mul spacing onePointFive))
                      (Num.mul holeRadius (Num.ofZ 2)))
             spacing) ].

(** [pattern.holes.forEach((isCovered, index) => ...)], from [index] on.
    Reading [pos.x] of a position that does not exist throws. *)
Fixpoint drawHolesFrom (config : ChartConfig) (positions : list (Num.number * Num.number))
         (index : nat) (holes : list bool) : Drawn :=
  match holes with
  | [] => ([], None)
  | isCovered :: rest =>
      match nth_error positions index with
      | None => ([], Some TypeErrorThrown)
      | Some (px, py) =>
          let r := holeRadius config in
          match drawHole config (Num.add px r) (Num.add py r) isCovered with
          | (calls, Some e) => (calls, Some e)
          | (calls, None) =>
              let (calls', e') := drawHolesFrom config positions (S index) rest in
              ((calls ++ calls')%list, e')
          end
      end
  end.

(** [renderFingeringPattern(pattern, x, y)]. *)
Definition renderFingeringPattern (config : ChartConfig) (pattern : FingeringPattern)
           (x y : Num.number) : Drawn :=
  let label :=
    FillText (text (colors config)) (mkFont false (spacing config))
             "center" "top" (note pattern)
             (Num.add x (Num.mul (holeRadius config) (Num.ofZ 2))) y in
  let (calls, e) := drawHolesFrom config (holePositions config x y) 0 (holes pattern) in
  (label :: calls, e).

(** The [forEach] of [renderLine], from note index [noteIndex] on. *)
Fixpoint renderNotesFrom (config : ChartConfig) (layout : LayoutInfo)
         (fingeringPatterns : list (string * FingeringPattern))
         (startY : Num.number) (noteIndex : nat) (notes : list string) : Drawn :=
  match notes with
  | [] => ([], None)
  | n :: rest =>
      match PreviewController.mapGet fingeringPatterns n with
      | Some pattern =>
          let x :=
            Num.add (left (margins layout))
                    (Num.mul (Num.ofNat noteIndex)
                             (Num.add (patternWidth layout)
                                      (Num.mul (spacing config) (Num.ofZ 2)))) in
          match renderFingeringPattern config pattern x startY with
          | (calls, Some e) => (calls, Some e)
          | (calls, None) =>
              let (calls', e') :=
                renderNotesFrom config layout fingeringPatterns startY (S noteIndex) rest in
              ((calls ++ calls')%list, e')
          end
      | None =>
          renderNotesFrom config layout fingeringPatterns startY (S noteIndex) rest
      end
  end.

(** [renderLine(notes, lineIndex, layout, fingeringPatterns)]. *)
Definition renderLine (config : ChartConfig) (layout : LayoutInfo)
           (fingeringPatterns : list (string * FingeringPattern))
           (notes : list string) (lineIndex : nat) : Drawn :=
  let startY :=
    Num.add (Num.add (top (margins layout)) (Num.mul (spacing config) (Num.ofZ 2)))
            (Num.mul (Num.ofNat lineIndex) (lineHeight layout)) in
  renderNotesFrom config layout fingeringPatterns startY 0 notes.

(** The [forEach] of [renderChart] over the lines, from [lineIndex] on. *)
Fixpoint renderLinesFrom (config : ChartConfig) (layout : LayoutInfo)
         (fingeringPatterns : list (string * FingeringPattern))
         (lineIndex : nat) (ls : list (list string)) : Drawn :=
  match ls with
  | [] => ([], None)
  | line :: rest =>
      match renderLine config layout fingeringPatterns line lineIndex with
      | (calls, Some e) => (calls, Some e)
      | (calls, None) =>
          let (calls', e') :=
            renderLinesFrom config layout fingeringPatterns (S lineIndex) rest in
          ((calls ++ calls')%list, e')
      end
  end.

(** [renderTitle(title, layout)]. *)
Definition renderTitle (config : ChartConfig) (layout : LayoutInfo) (title : string)
  : list Call :=
  [ FillText (text (colors config)) (mkFont true (spacing config))
             "center" "top" title
             (Num.div (canvasWidth config) (Num.ofZ 2))
             (Num.div (top (margins layout)) (Num.ofZ 2)) ].

(** [renderChart(song, fingeringPatterns)]: the configuration it leaves
    and what it draws. *)
Definition renderChart (config : ChartConfig) (dpr : Num.number) (song : Song)
           (fingeringPatterns : list (string * FingeringPattern))
  : ChartConfig * Drawn :=
  let layout := ChartRenderer.calculateLayout config song in
  let (config', setup) := updateCanvasSize config dpr layout in
  let background :=
    FillRect (background (colors config')) (Num.ofZ 0) (Num.ofZ 0)
             (canvasWidth config') (canvasHeight config') in
  let titleCalls := renderTitle config' layout (title song) in
  let (lineCalls, e) :=
    renderLinesFrom config' layout fingeringPatterns 0 (lines song) in
  (config', ((setup ++ background :: titleCalls ++ lineCalls)%list, e)).

(** The [arc] calls among the calls. *)
Definition isArc (c : Call) : bool :=
  match c with Arc _ _ _ => true | _ => false end.

(** The circle of an [arc] call lies on a canvas [W] wide and [H] high,
    for integers [R], [W] and [H]: the radius is [R], and the centre is
    [(kx / 2, ky / 2)] for integers [kx] and [ky] at least [R] away from
    the four edges. *)
Definition arcInside (R W H : Z) (c : Call) : Prop :=
  match c with
  | Arc x y radius =>
      radius = Num.ofZ R
      /\ exists kx ky : Z,
           x = Num.dyadic kx (-1) /\ y = Num.dyadic ky (-1)
           /\ (2 * R <= kx <= 2 * W - 2 * R)%Z /\ (2 * R <= ky <= 2 * H - 2 * R)%Z
  | _ => True
  end.

(** The same for the four holes of a pattern placed at the integer point
    [(X, Y)], for the spacing [S]. *)
Definition arcInBox (R S X Y : Z) (c : Call) : Prop :=
  match c with
  | Arc x y radius =>
      radius = Num.ofZ R
      /\ exists kx ky : Z,
           x = Num.dyadic kx (-1) /\ y = Num.dyadic ky (-1)
           /\ (2 * X + 2 * R <= kx <= 2 * X + 6 * R + 2 * S)%Z
           /\ (2 * Y + 3 * S + 2 * R <= ky <= 2 * Y + 5 * S + 6 * R)%Z
  | _ => True
  end.

(** The number of notes of the lines for which the map has a pattern. *)
Definition drawnNotes (fingeringPatterns : list (string * FingeringPattern))
           (ls : list (list string)) : nat :=
  List.length
    (filter (fun n => match PreviewController.mapGet fingeringPatterns n with
                      | Some _ => true
                      | None => false
                      end)
            (List.concat ls)).

End ChartDrawing.

(* ================================================================== *)
(** * Notions used to reason about doubles                             *)
(* ================================================================== *)

Module Exact.

(** [m * 2^k], for [k >= 0]. *)
Definition shl (m : positive) (k : Z) : positive :=
  match k with Zpos p => Pos.iter xO m p | _ => m end.

(** The number of binary digits of a mantissa. *)
Definition digits (m : positive) : Z := Zpos (digits2_pos m).

(** The double of value [m * 2^e] and sign [s], when [m] has at most 53
    digits and the exponent is in range: the mantissa is shifted to 53
    digits. *)
Definition canon (s : bool) (m : positive) (e : Z) : Num.number :=
  S754_finite s (shl m (53 - digits m)) (e - (53 - digits m)).

Definition fits (m : positive) (e : Z) : Prop :=
  (digits m <= 53 /\ -1074 <= digits m + e - 53 <= 971)%Z.

End Exact.

(* ================================================================== *)
(** * Canvas content ([hasContent], [hexToRgb], [canvasHasContent])    *)
(* ================================================================== *)

(** [ImageData.data] is the flat array of the colour channels, four per
    pixel: red, green, blue, alpha.  An element read past the end is
    [undefined], and [undefined > 0] is false. *)
Module CanvasContent.

(** The value of one hexadecimal digit, in either case. *)
Definition hexDigit (c : ascii) : option nat :=
  let n := JS.code c in
  if ((48 <=? n) && (n <=? 57))%nat then Some (n - 48)
  else if ((97 <=? n) && (n <=? 102))%nat then Some (n - 87)
  else if ((65 <=? n) && (n <=? 70))%nat then Some (n - 55)
  else None.

(** [parseInt(pair, 16)] on a pair matched by [[a-f\d]{2}]. *)
Definition hexPair (a b : ascii) : option nat :=
  match hexDigit a, hexDigit b with
  | Some x, Some y => Some (16 * x + y)
  | _, _ => None
  end.

Record Rgb := mkRgb { red : nat; green : nat; blue : nat }.

(** [hexToRgb(hex)]: the regular expression
    [/^#?([a-f\d]{2})([a-f\d]{2})([a-f\d]{2})$/i]; [null] is [None]. *)
Definition hexToRgb (hex : string) : option Rgb :=
  let body :=
    match hex with
    | String c r => if (JS.code c =? 35)%nat then r else hex
    | EmptyString => hex
    end in
  match body with
  | String a (String b (String c (String d (String e (String f EmptyString))))) =>
      match hexPair a b, hexPair c d, hexPair e f with
      | Some r, Some g, Some bl => Some (mkRgb r g bl)
      | _, _, _ => None
      end
  | _ => None
  end.

(** The loop of [ChartRenderer.hasContent()] over the pixel data. *)
Fixpoint hasContent (background : string) (data : list nat) : bool :=
  match data with
  | r :: g :: b :: a :: rest =>
      if (0 <? a)%nat then
        match hexToRgb background with
        | Some bg =>
            if negb (Nat.eqb r (red bg)) || negb (Nat.eqb g (green bg))
               || negb (Nat.eqb b (blue bg))
            then true
            else hasContent background rest
        | None => hasContent background rest
        end
      else hasContent background rest
  | _ => false
  end.

(** The loop of [ExportManager.canvasHasContent(canvas)], for a canvas
    that has a drawing context. *)
Fixpoint canvasHasContent (data : list nat) : bool :=
  match data with
  | _ :: _ :: _ :: a :: rest => if (0 <? a)%nat then true else canvasHasContent rest
  | _ => false
  end.

(** The hexadecimal digits as a reader lists them, and the value of a
    digit as its place in that list, in either case. *)
Definition HEX_DIGITS : string := "0123456789abcdef".

Fixpoint indexOf (c : ascii) (s : string) : option nat :=
  match s with
  | EmptyString => None
  | String d r => if Ascii.eqb c d then Some 0 else option_map S (indexOf c r)
  end.

Definition digitValue (c : ascii) : option nat := indexOf (JS.lowerChar c) HEX_DIGITS.

Definition sixChars (a b c d e f : ascii) : string :=
  String a (String b (String c (String d (String e (String f EmptyString))))).

(** The pixel of index [k] of the data. *)
Definition pixelAt (data : list nat) (k : nat) : option (nat * nat * nat * nat) :=
  match nth_error data (4 * k), nth_error data (4 * k + 1),
        nth_error data (4 * k + 2), nth_error data (4 * k + 3) with
  | Some r, Some g, Some b, Some a => Some (r, g, b, a)
  | _, _, _, _ => None
  end.

End CanvasContent.

(* ================================================================== *)
(** * [ExportManager.validateFilename]                                 *)
(* ================================================================== *)

Module ExportNames.

Record FilenameCheck := mkCheck {
  valid : bool;
  error : option string
}.

(** The class of invalid characters: less-than, greater-than, colon,
    double quote, slash, backslash, pipe, question mark and star. *)
Definition isInvalidChar (c : ascii) : bool :=
  let n := JS.code c in
  ((n =? 60) || (n =? 62) || (n =? 58) || (n =? 34) || (n =? 47)
   || (n =? 92) || (n =? 124) || (n =? 63) || (n =? 42))%nat.

Fixpoint anyChar (p : ascii -> bool) (s : string) : bool :=
  match s with
  | EmptyString => false
  | String c r => p c || anyChar p r
  end.

(** [validateFilename(filename)]. *)
Definition validateFilename (config : ExportManager.ExportConfig) (filename : string)
  : FilenameCheck :=
  if JS.isEmpty (JS.trim filename) then
    mkCheck false (Some "Filename cannot be empty")
  else if (ExportManager.maxFilenameLength config + 10 <? String.length filename)%nat then
    mkCheck false
      (Some ("Filename too long (max "
             ++ JS.showNat (ExportManager.maxFilenameLength config) ++ " characters)"))
  else if anyChar isInvalidChar filename then
    mkCheck false (Some "Filename contains invalid characters")
  else mkCheck true None.

(** The characters a cleaned title is made of: lower-case letters,
    digits, the underscore and the hyphen. *)
Definition isSlugChar (c : ascii) : bool :=
  let n := JS.code c in
  (((97 <=? n) && (n <=? 122)) || ((48 <=? n) && (n <=? 57))
   || (n =? 95) || (n =? 45))%nat.

End ExportNames.

(* ================================================================== *)
(** * Sample inputs                                                    *)
(* ================================================================== *)

(** [DEFAULT_CHART_CONFIG] of [src/ui/PreviewController.ts]. *)
Definition sampleChartConfig : ChartConfig :=
  mkChartConfig (Num.ofZ 800) (Num.ofZ 600) (Num.ofZ 15) (Num.ofZ 20)
                (mkColors "#ffffff" "#333333" "#ffffff" "#333333").

(** 2024-01-15T10:30:45.123Z. *)
Definition sampleDate : Date := mkDate 2024 1 15 10 30 45 123.

Definition LF : string := String (ascii_of_nat 10) EmptyString.
Definition CR : string := String (ascii_of_nat 13) EmptyString.

(** NO-BREAK SPACE, U+00A0. *)
Definition NBSP : string := String (ascii_of_nat 160) EmptyString.

Fixpoint repeatString (n : nat) (s : string) : string :=
  match n with
  | 0 => EmptyString
  | S k => s ++ repeatString k s
  end.

(** A title followed by a hundred line feeds: 101 lines. *)
Definition titleAndHundredBlankLines : string := "T" ++ repeatString 100 LF.

Functional Scheme splitLines_ind := Induction for JS.splitLines Sort Prop.
Functional Scheme hasContent_ind := Induction for CanvasContent.hasContent Sort Prop.
Functional Scheme canvasHasContent_ind
  := Induction for CanvasContent.canvasHasContent Sort Prop.

(* ================================================================== *)
(** * Facts about the string primitives                                *)
(* ================================================================== *)

Section StringFacts.

Local Ltac by_cases_on_char c :=
  destruct c as [[|] [|] [|] [|] [|] [|] [|] [|]]; vm_compute;
  intros; try discriminate; auto.

Lemma lowerChar_is_b (c : ascii) :
  JS.lowerChar c = "b"%char -> c = "b"%char \/ c = "B"%char.
Proof. by_cases_on_char c. Qed.

Lemma upperChar_is_B (c : ascii) :
  JS.upperChar c = "B"%char -> c = "b"%char \/ c = "B"%char.
Proof. by_cases_on_char c. Qed.

Lemma toLowerCase_is_b (s : string) :
  JS.toLowerCase s = "b" -> s = "b" \/ s = "B".
Proof.
  destruct s as [|c [|d r]]; simpl; try discriminate.
  intros H; injection H as H.
  destruct (lowerChar_is_b c H); subst; auto.
Qed.

Lemma toUpperCase_is_B (s : string) :
  JS.toUpperCase s = "B" -> s = "b" \/ s = "B".
Proof.
  destruct s as [|c [|d r]]; simpl; try discriminate.
  intros H; injection H as H.
  destruct (upperChar_is_B c H); subst; auto.
Qed.

Lemma isEmpty_true (s : string) : JS.isEmpty s = true <-> s = "".
Proof. destruct s; simpl; split; intros; congruence. Qed.

Lemma isEmpty_length (s : string) : JS.isEmpty s = Nat.eqb (String.length s) 0.
Proof. destruct s; reflexivity. Qed.

Lemma trimEnd_idempotent (s : string) : JS.trimEnd (JS.trimEnd s) = JS.trimEnd s.
Proof.
  induction s as [|c r IH]; simpl; [reflexivity|].
  destruct (JS.isWhiteSpace c && JS.isEmpty (JS.trimEnd r)) eqn:E; simpl.
  - reflexivity.
  - rewrite IH, E. reflexivity.
Qed.

Lemma trimStart_head (s : string) :
  JS.startsWith JS.isWhiteSpace (JS.trimStart s) = false.
Proof.
  induction s as [|c r IH]; simpl; [reflexivity|].
  destruct (JS.isWhiteSpace c) eqn:E; simpl; auto.
Qed.

Lemma trimEnd_head (s : string) :
  JS.startsWith JS.isWhiteSpace s = false ->
  JS.startsWith JS.isWhiteSpace (JS.trimEnd s) = false.
Proof.
  destruct s as [|c r]; simpl; [reflexivity|].
  intros H. rewrite H. simpl. exact H.
Qed.

Lemma trimStart_fixed (s : string) :
  JS.startsWith JS.isWhiteSpace s = false -> JS.trimStart s = s.
Proof.
  destruct s as [|c r]; simpl; [reflexivity|].
  intros H. rewrite H. reflexivity.
Qed.

Lemma trim_idempotent (s : string) : JS.trim (JS.trim s) = JS.trim s.
Proof.
  unfold JS.trim.
  rewrite (trimStart_fixed (JS.trimEnd (JS.trimStart s))).
  - apply trimEnd_idempotent.
  - apply trimEnd_head, trimStart_head.
Qed.

End StringFacts.

(* ================================================================== *)
(** * The fingering table                                              *)
(* ================================================================== *)

(** C1.  For each of the seven supported notes [getPattern] returns the
    pattern whose holes are those of the canonical table, and the hole
    vectors of two distinct supported notes differ. *)
Theorem getPattern_matches_table :
  (option_map holes (FingeringEngine.getPattern "F") = Some [true; true; true; true]
   /\ option_map holes (FingeringEngine.getPattern "G") = Some [true; false; true; true]
   /\ option_map holes (FingeringEngine.getPattern "A") = Some [true; true; true; false]
   /\ option_map holes (FingeringEngine.getPattern "Bb") = Some [true; false; true; false]
   /\ option_map holes (FingeringEngine.getPattern "C") = Some [false; false; true; true]
   /\ option_map holes (FingeringEngine.getPattern "D") = Some [false; false; true; false]
   /\ option_map holes (FingeringEngine.getPattern "E") = Some [false; true; false; false])
  /\ (forall n1 n2,
        In n1 SUPPORTED_NOTES -> In n2 SUPPORTED_NOTES -> n1 <> n2 ->
        exists p1 p2,
          FingeringEngine.getPattern n1 = Some p1
          /\ FingeringEngine.getPattern n2 = Some p2
          /\ note p1 = n1 /\ note p2 = n2
          /\ holes p1 <> holes p2).
Proof.
  split.
  - repeat split; reflexivity.
  - intros n1 n2 H1 H2 Hne.
    simpl in H1, H2.
    repeat (destruct H1 as [H1 | H1]; [subst n1 | ]); try contradiction;
      repeat (destruct H2 as [H2 | H2]; [subst n2 | ]); try contradiction;
      try (exfalso; apply Hne; reflexivity);
      (do 2 eexists; repeat (split; [reflexivity | ]); discriminate).
Qed.

Lemma getPattern_matches_table_witness :
  exists p1 p2,
    FingeringEngine.getPattern "F" = Some p1
    /\ FingeringEngine.getPattern "Bb" = Some p2
    /\ note p1 = "F" /\ note p2 = "Bb"
    /\ holes p1 <> holes p2.
Proof.
  apply (proj2 getPattern_matches_table "F" "Bb").
  - simpl; auto.
  - simpl; auto 6.
  - discriminate.
Defined.

(** ** Suggestions of [validateNotes] *)

Lemma getSuggestions_returns (t : string) :
  JS.includes FingeringEngine.objectPrototypeMembers t = false ->
  FingeringEngine.getSuggestions t = Returned (FingeringEngine.suggestionsFor t).
Proof.
  intros Hproto.
  unfold FingeringEngine.getSuggestions, FingeringEngine.suggestionsFor,
    FingeringEngine.readNoteMap.
  simpl FingeringEngine.lookup.
  destruct (String.eqb_spec t "B") as [->|nB]; [reflexivity|].
  destruct (String.eqb_spec t "b") as [->|nb]; [reflexivity|].
  destruct (String.eqb_spec t "Db") as [->|nDb]; [reflexivity|].
  destruct (String.eqb_spec t "Eb") as [->|nEb]; [reflexivity|].
  destruct (String.eqb_spec t "Gb") as [->|nGb]; [reflexivity|].
  destruct (String.eqb_spec t "Ab") as [->|nAb]; [reflexivity|].
  rewrite Hproto.
  destruct (String.eqb_spec (JS.toLowerCase t) "b") as [Hb|_].
  - destruct (toLowerCase_is_b t Hb); contradiction.
  - reflexivity.
Qed.

Lemma filter_none {A : Type} (p : A -> bool) (l : list A) :
  (forall x, In x l -> p x = false) -> filter p l = [].
Proof.
  induction l as [|a l IH]; simpl; intros H; [reflexivity|].
  rewrite (H a (or_introl eq_refl)). apply IH. intros x Hx. apply H. now right.
Qed.

Lemma engine_loop_spec (notes : list string) :
  forall k,
    Forall FingeringEngine.notInherited notes ->
    exists es,
      FingeringEngine.validateNotesFrom k notes = Returned es
      /\ (forall i n, nth_error notes i = Some n ->
                      FingeringEngine.isSupported n = false ->
                      filter (FingeringEngine.atPosition (k + i)) es
                      = [FingeringEngine.unsupportedAt n (k + i)])
      /\ (forall e, In e es ->
                    exists i n, nth_error notes i = Some n
                                /\ FingeringEngine.isSupported n = false
                                /\ e = FingeringEngine.unsupportedAt n (k + i)).
Proof.
  induction notes as [|n0 rest IH]; intros k Hall.
  - exists []. split; [reflexivity|]. split.
    + intros [|i] n H; discriminate.
    + intros e [].
  - inversion Hall as [|? ? Hn0 Hrest]; subst.
    destruct (IH (S k) Hrest) as (es & Hes & Hpos & Hin).
    assert (Hrest_pos : forall e, In e es -> FingeringEngine.atPosition k e = false).
    { intros e He. destruct (Hin e He) as (i & n & _ & _ & ->).
      unfold FingeringEngine.atPosition, FingeringEngine.unsupportedAt, optNat_eqb,
        e_position.
      apply Nat.eqb_neq. lia. }
    simpl. rewrite Hes.
    assert (Hsup : FingeringEngine.isSupported (FingeringEngine.normalizeNote n0)
                   = FingeringEngine.isSupported n0).
    { unfold FingeringEngine.isSupported, FingeringEngine.normalizeNote.
      now rewrite trim_idempotent. }
    rewrite Hsup.
    destruct (FingeringEngine.isSupported n0) eqn:Esup; simpl.
    + exists es. split; [reflexivity|]. split.
      * intros [|i] n Hnth Hn; simpl in Hnth.
        -- injection Hnth as ->. congruence.
        -- replace (k + S i) with (S k + i) by lia. now apply Hpos.
      * intros e He. destruct (Hin e He) as (i & n & Hnth & Hn & ->).
        exists (S i), n. repeat split; auto; f_equal; lia.
    + rewrite (getSuggestions_returns _ Hn0).
      eexists. split; [reflexivity|]. split.
      * intros [|i] n Hnth Hn; simpl in Hnth.
        -- injection Hnth as ->. simpl.
           unfold FingeringEngine.atPosition at 1; simpl.
           rewrite Nat.add_0_r, Nat.eqb_refl.
           rewrite (filter_none _ es Hrest_pos). reflexivity.
        -- simpl. unfold FingeringEngine.atPosition at 1; simpl.
           replace (Nat.eqb k (k + S i)) with false
             by (symmetry; apply Nat.eqb_neq; lia).
           replace (k + S i) with (S k + i) by lia. now apply Hpos.
      * intros e [<-|He].
        -- exists 0, n0. repeat split; auto.
           unfold FingeringEngine.unsupportedAt. now rewrite Nat.add_0_r.
        -- destruct (Hin e He) as (i & n & Hnth & Hn & ->).
           exists (S i), n. repeat split; auto; f_equal; lia.
Qed.

(** C7 (as amended).  On an array none of whose trimmed tokens names an
    inherited member of [Object.prototype], [validateNotes] returns, and
    for every index [i] holding an unsupported note it reports exactly one
    error at position [i] (0-based): an [UNSUPPORTED_NOTE] whose
    suggestions are [Bb, Bb, A, C] for [B], [Bb] for [b], the adjacency
    entry for [Db], [Eb], [Gb], [Ab], and the seven supported names for
    anything else; every reported error is one of these. *)
Theorem validateNotes_reports_unsupported (notes : list string) :
  Forall FingeringEngine.notInherited notes ->
  exists r,
    FingeringEngine.validateNotes notes = Returned r
    /\ warnings r = []
    /\ (forall i n, nth_error notes i = Some n ->
                    FingeringEngine.isSupported n = false ->
                    filter (FingeringEngine.atPosition i) (errors r)
                    = [mkError UNSUPPORTED_NOTE (FingeringEngine.unsupportedMessage n)
                               None (Some i)
                               (Some (FingeringEngine.suggestionsFor
                                        (FingeringEngine.normalizeNote n)))])
    /\ (forall e, In e (errors r) ->
                  exists i n, nth_error notes i = Some n
                              /\ FingeringEngine.isSupported n = false
                              /\ e_type e = UNSUPPORTED_NOTE
                              /\ e_position e = Some i).
Proof.
  intros Hall.
  destruct (engine_loop_spec notes 0 Hall) as (es & Hes & Hpos & Hin).
  unfold FingeringEngine.validateNotes. rewrite Hes.
  eexists. split; [reflexivity|]. split; [reflexivity|]. split.
  - intros i n Hnth Hn. simpl. exact (Hpos i n Hnth Hn).
  - simpl. intros e He. destruct (Hin e He) as (i & n & Hnth & Hn & ->).
    exists i, n. repeat split; auto.
Qed.

Lemma validateNotes_reports_unsupported_witness :
  exists r,
    FingeringEngine.validateNotes ["F"; "B"; " b "; "Db"; "H"] = Returned r
    /\ map e_suggestions (errors r)
       = [Some ["Bb"; "Bb"; "A"; "C"]; Some ["Bb"]; Some ["D"; "C"];
          Some ["F"; "G"; "A"; "Bb"; "C"; "D"; "E"]]
    /\ map e_position (errors r) = [Some 1; Some 2; Some 3; Some 4].
Proof.
  destruct (validateNotes_reports_unsupported ["F"; "B"; " b "; "Db"; "H"])
    as (r & Hr & _).
  - repeat constructor.
  - exists r. split; [exact Hr|].
    vm_compute in Hr. injection Hr as <-. split; reflexivity.
Defined.

(** C7 (as stated) fails at the token [B]: the code suggests
    [Bb, Bb, A, C], not the single [Bb] of the stated rule. *)
Lemma validateNotes_B_suggestions :
  FingeringEngine.validateNotes ["B"]
  = Returned (mkResult false
                [mkError UNSUPPORTED_NOTE (FingeringEngine.unsupportedMessage "B")
                         None (Some 0) (Some ["Bb"; "Bb"; "A"; "C"])] [])
  /\ FingeringEngine.stated_suggestions "B" = ["Bb"]
  /\ ["Bb"; "Bb"; "A"; "C"] <> FingeringEngine.stated_suggestions "B".
Proof.
  split; [reflexivity|]. split; [reflexivity|]. discriminate.
Qed.

(** An inherited member name makes the call throw instead of reporting. *)
Lemma validateNotes_inherited_member_throws :
  FingeringEngine.validateNotes ["F"; "constructor"] = Thrown TypeError.
Proof. reflexivity. Qed.

(* ================================================================== *)
(** * Exact arithmetic on doubles                                      *)
(* ================================================================== *)

(** Sums and products of doubles whose exact result is a double are
    computed without rounding. *)
Section NumberFacts.

Local Open Scope Z_scope.

Local Abbreviation shl := Exact.shl.
Local Abbreviation digits := Exact.digits.
Local Abbreviation canon := Exact.canon.
Local Abbreviation fits := Exact.fits.

Lemma iter_pos_nat {A : Type} (f : A -> A) (p : positive) :
  forall x, iter_pos f p x = Nat.iter (Pos.to_nat p) f x.
Proof.
  induction p as [p IH | p IH |]; intros x; cbn [iter_pos].
  - rewrite !IH, Pos2Nat.inj_xI.
    replace (2 * Pos.to_nat p)%nat with (Pos.to_nat p + Pos.to_nat p)%nat by lia.
    rewrite Nat.iter_succ_r, Nat.iter_add. reflexivity.
  - rewrite !IH, Pos2Nat.inj_xO.
    replace (2 * Pos.to_nat p)%nat with (Pos.to_nat p + Pos.to_nat p)%nat by lia.
    rewrite Nat.iter_add. reflexivity.
  - reflexivity.
Qed.

(** Shifting right the bits that a shift to the left put in loses nothing. *)
Lemma shr_exact (p : positive) (m : positive) :
  iter_pos shr_1 p (Build_shr_record (Zpos (Pos.iter xO m p)) false false)
  = Build_shr_record (Zpos m) false false.
Proof.
  rewrite iter_pos_nat, Pos2Nat.inj_iter.
  change (nat_rect (fun _ => positive) m (fun _ => xO) (Pos.to_nat p))
    with (Nat.iter (Pos.to_nat p) xO m).
  induction (Pos.to_nat p) as [|n IH]; [reflexivity|].
  rewrite Nat.iter_succ_r. rewrite Nat.iter_succ. simpl shr_1. exact IH.
Qed.

Lemma digits_iter (p : positive) (m : positive) :
  Zpos (digits2_pos (Pos.iter xO m p)) = Zpos (digits2_pos m) + Zpos p.
Proof.
  induction p as [|p IH] using Pos.peano_ind.
  - simpl. lia.
  - rewrite Pos.iter_succ. simpl digits2_pos. lia.
Qed.

Lemma digits_shl (m : positive) (k : Z) :
  0 <= k -> digits (shl m k) = digits m + k.
Proof.
  unfold Exact.digits.
  destruct k as [|p|p]; simpl; intros H; try lia. apply digits_iter.
Qed.

Lemma Zpos_iter (p m : positive) : Zpos (Pos.iter xO m p) = Zpos m * 2 ^ Zpos p.
Proof.
  induction p as [|p IH] using Pos.peano_ind.
  - simpl. lia.
  - rewrite Pos.iter_succ, Pos2Z.inj_succ, Z.pow_succ_r by lia.
    rewrite Pos2Z.inj_xO, IH. lia.
Qed.

Lemma Zpos_shl (m : positive) (k : Z) :
  0 <= k -> Zpos (shl m k) = Zpos m * 2 ^ k.
Proof.
  destruct k as [|p|p]; simpl; intros H; try lia. apply Zpos_iter.
Qed.

Lemma shl_shl (m : positive) (a b : Z) :
  0 <= a -> 0 <= b -> shl (shl m a) b = shl m (a + b).
Proof.
  intros Ha Hb. apply Pos2Z.inj. rewrite !Zpos_shl by lia.
  rewrite Z.pow_add_r by lia. lia.
Qed.

(** A mantissa with [n] low zero bits too many is shifted right exactly. *)
Lemma round_aux_exact (s : bool) (m : positive) (n e : Z) :
  0 <= n ->
  fexp 53 1024 (digits (shl m n) + e) - e = n ->
  binary_round_aux 53 1024 s (Zpos (shl m n)) e loc_Exact
  = if e + n <=? 971 then S754_finite s m (e + n) else S754_infinity s.
Proof.
  intros Hn Hf. unfold binary_round_aux, shr_fexp.
  cbn [Zdigits2 shr_record_of_loc]. fold (digits (shl m n)). rewrite Hf.
  assert (Hshr : shr (Build_shr_record (Zpos (shl m n)) false false) e n
                 = (Build_shr_record (Zpos m) false false, e + n)).
  { destruct n as [|p|p]; [| |lia].
    - simpl. now rewrite Z.add_0_r.
    - simpl. now rewrite shr_exact. }
  rewrite Hshr.
  cbn [shr_m loc_of_shr_record round_nearest_even Zdigits2 shr_record_of_loc].
  rewrite digits_shl in Hf by lia. fold (digits m).
  replace (fexp 53 1024 (digits m + (e + n)) - (e + n)) with 0
    by (replace (digits m + (e + n)) with (digits m + n + e) by lia; lia).
  cbn [shr shr_m]. reflexivity.
Qed.

Lemma digits_pos (m : positive) : 1 <= digits m.
Proof. unfold Exact.digits. lia. Qed.

Lemma digits_bounds (m : positive) :
  2 ^ (digits m - 1) <= Zpos m < 2 ^ digits m.
Proof.
  unfold Exact.digits. induction m as [m IH | m IH |]; cbn [digits2_pos].
  - rewrite Pos2Z.inj_succ.
    replace (Z.succ (Zpos (digits2_pos m)) - 1)
      with (Z.succ (Zpos (digits2_pos m) - 1)) by lia.
    rewrite !Z.pow_succ_r by lia. lia.
  - rewrite Pos2Z.inj_succ.
    replace (Z.succ (Zpos (digits2_pos m)) - 1)
      with (Z.succ (Zpos (digits2_pos m) - 1)) by lia.
    rewrite !Z.pow_succ_r by lia. lia.
  - simpl. lia.
Qed.

Lemma digits_le (m : positive) (d : Z) :
  0 <= d -> Zpos m < 2 ^ d -> digits m <= d.
Proof.
  intros Hd Hm. destruct (digits_bounds m) as [Hlo _].
  destruct (Z_le_gt_dec (digits m) d) as [|Hgt]; [assumption|].
  exfalso. assert (2 ^ d <= 2 ^ (digits m - 1)) by (apply Z.pow_le_mono_r; lia). lia.
Qed.

Lemma digits_ge (m : positive) (d : Z) :
  0 <= d -> 2 ^ d <= Zpos m -> d + 1 <= digits m.
Proof.
  intros Hd Hm. destruct (digits_bounds m) as [_ Hhi].
  destruct (Z_le_gt_dec (d + 1) (digits m)) as [|Hgt]; [assumption|].
  exfalso. assert (2 ^ digits m <= 2 ^ d) by (apply Z.pow_le_mono_r; lia). lia.
Qed.

Lemma fexp_fits (m : positive) (e : Z) :
  fits m e -> fexp 53 1024 (digits m + e) = digits m + e - 53.
Proof. unfold Exact.fits, fexp, emin. lia. Qed.

Lemma round_aux_canon (s : bool) (m : positive) (k e : Z) :
  fits m e -> 53 - digits m <= k ->
  binary_round_aux 53 1024 s (Zpos (shl m k)) (e - k) loc_Exact = canon s m e.
Proof.
  intros Hfit Hk. pose proof (digits_pos m) as Hd. destruct Hfit as (H53 & Hlo & Hhi).
  replace (shl m k) with (shl (shl m (53 - digits m)) (k - (53 - digits m)))
    by (rewrite shl_shl by lia; f_equal; lia).
  rewrite round_aux_exact.
  - replace (e - k + (k - (53 - digits m))) with (e - (53 - digits m)) by lia.
    replace (e - (53 - digits m) <=? 971) with true by (symmetry; apply Z.leb_le; lia).
    reflexivity.
  - lia.
  - rewrite !digits_shl by lia. unfold fexp, emin. lia.
Qed.

Lemma round_canon (s : bool) (m : positive) (k e : Z) :
  fits m e -> 0 <= k ->
  binary_round 53 1024 s (shl m k) (e - k) = canon s m e.
Proof.
  intros Hfit Hk. pose proof (digits_pos m) as Hd.
  unfold binary_round. fold (digits (shl m k)). rewrite digits_shl by lia.
  replace (digits m + k + (e - k)) with (digits m + e) by lia.
  rewrite (fexp_fits m e Hfit).
  unfold shl_align.
  destruct (digits m + e - 53 - (e - k)) as [|p|p] eqn:E.
  - apply round_aux_canon; [assumption | lia].
  - apply round_aux_canon; [assumption | lia].
  - change (Pos.iter xO (shl m k) p) with (shl (shl m k) (Zpos p)).
    rewrite shl_shl by lia.
    replace (digits m + e - 53) with (e - (k + Zpos p)) by lia.
    apply round_aux_canon; [assumption | lia].
Qed.

Lemma dyadic_pos (m : positive) (e : Z) :
  fits m e -> Num.dyadic (Zpos m) e = canon false m e.
Proof.
  intros Hfit. unfold Num.dyadic, binary_normalize.
  replace e with (e - 0) at 1 by lia. change m with (shl m 0) at 1.
  apply round_canon; [assumption | lia].
Qed.

Lemma shl_align_fst (mx : positive) (ex ez : Z) :
  ez <= ex -> fst (shl_align mx ex ez) = shl mx (ex - ez).
Proof.
  intros H. unfold shl_align.
  destruct (ez - ex) as [|p|p] eqn:E; try lia.
  - replace (ex - ez) with 0 by lia. reflexivity.
  - replace (ex - ez) with (Zpos p) by lia. reflexivity.
Qed.

Lemma add_canon (ma mb : positive) (e : Z) :
  fits ma e -> fits mb e -> fits (ma + mb) e ->
  Num.add (canon false ma e) (canon false mb e) = canon false (ma + mb)%positive e.
Proof.
  intros Ha Hb Hab. pose proof (digits_pos ma). pose proof (digits_pos mb).
  destruct Ha as (Ha53 & Halo & Hahi). destruct Hb as (Hb53 & Hblo & Hbhi).
  unfold Num.add, Exact.canon at 1 2, SFadd. cbn [cond_Zopp].
  set (ez := Z.min (e - (53 - digits ma)) (e - (53 - digits mb))).
  rewrite !shl_align_fst by (unfold ez; lia).
  rewrite !shl_shl by (unfold ez; lia).
  replace (53 - digits ma + (e - (53 - digits ma) - ez)) with (e - ez) by lia.
  replace (53 - digits mb + (e - (53 - digits mb) - ez)) with (e - ez) by lia.
  assert (Hsum : Zpos (shl ma (e - ez)) + Zpos (shl mb (e - ez))
                 = Zpos (shl (ma + mb) (e - ez))).
  { rewrite !Zpos_shl by (unfold ez; lia). rewrite Pos2Z.inj_add. lia. }
  rewrite Hsum. unfold binary_normalize.
  replace ez with (e - (e - ez)) at 2 by lia.
  apply round_canon; [assumption | unfold ez; lia].
Qed.

Lemma digits_mul (ma mb : positive) :
  digits ma + digits mb - 1 <= digits (ma * mb).
Proof.
  pose proof (digits_pos ma). pose proof (digits_pos mb).
  destruct (digits_bounds ma) as [Ha _]. destruct (digits_bounds mb) as [Hb _].
  replace (digits ma + digits mb - 1) with ((digits ma - 1) + (digits mb - 1) + 1) by lia.
  apply digits_ge; [lia|].
  rewrite Z.pow_add_r by lia. rewrite Pos2Z.inj_mul.
  apply Z.mul_le_mono_nonneg; try assumption; apply Z.pow_nonneg; lia.
Qed.

Lemma mul_canon (sa sb : bool) (ma mb : positive) (e f : Z) :
  digits ma <= 53 -> digits mb <= 53 -> fits (ma * mb) (e + f) ->
  Num.mul (canon sa ma e) (canon sb mb f)
  = canon (xorb sa sb) (ma * mb)%positive (e + f).
Proof.
  intros Ha Hb Hab. pose proof (digits_pos ma). pose proof (digits_pos mb).
  pose proof (digits_mul ma mb).
  unfold Num.mul, Exact.canon at 1 2, SFmul.
  assert (Hm : (shl ma (53 - digits ma) * shl mb (53 - digits mb))%positive
               = shl (ma * mb) ((53 - digits ma) + (53 - digits mb))).
  { apply Pos2Z.inj. rewrite Pos2Z.inj_mul, !Zpos_shl by lia.
    rewrite Z.pow_add_r by lia. rewrite Pos2Z.inj_mul. ring. }
  rewrite Hm.
  replace (e - (53 - digits ma) + (f - (53 - digits mb)))
    with (e + f - ((53 - digits ma) + (53 - digits mb))) by lia.
  apply round_aux_canon; [assumption | lia].
Qed.

Lemma canon_shift (s : bool) (m : positive) (k e : Z) :
  0 <= k -> digits m + k <= 53 ->
  canon s (shl m k) (e - k) = canon s m e.
Proof.
  intros Hk Hd. pose proof (digits_pos m). unfold Exact.canon.
  rewrite digits_shl by lia.
  rewrite shl_shl by lia. f_equal; [f_equal|]; lia.
Qed.

Lemma ltb_canon (ma mb : positive) (e : Z) :
  digits ma <= 53 -> digits mb <= 53 ->
  Num.ltb (canon false ma e) (canon false mb e) = (Zpos ma <? Zpos mb).
Proof.
  intros Ha Hb. pose proof (digits_pos ma). pose proof (digits_pos mb).
  destruct (digits_bounds ma) as [Halo Hahi]. destruct (digits_bounds mb) as [Hblo Hbhi].
  unfold Num.ltb, SFltb, SFcompare, Exact.canon.
  destruct (Z.compare_spec (e - (53 - digits ma)) (e - (53 - digits mb))) as [E|E|E].
  - assert (Hd : digits ma = digits mb) by lia. rewrite Hd.
    rewrite Pos.compare_cont_spec. cbn [Pos.switch_Eq].
    change ((shl ma (53 - digits mb) ?= shl mb (53 - digits mb))%positive)
      with (Zpos (shl ma (53 - digits mb)) ?= Zpos (shl mb (53 - digits mb))).
    rewrite !Zpos_shl by lia.
    assert (Hp : 0 < 2 ^ (53 - digits mb)) by (apply Z.pow_pos_nonneg; lia).
    destruct (Z.compare_spec (Zpos ma * 2 ^ (53 - digits mb))
                             (Zpos mb * 2 ^ (53 - digits mb)));
      destruct (Z.ltb_spec (Zpos ma) (Zpos mb)); try reflexivity; exfalso; nia.
  - assert (2 ^ digits ma <= 2 ^ (digits mb - 1)) by (apply Z.pow_le_mono_r; lia).
    symmetry. apply Z.ltb_lt. lia.
  - assert (2 ^ digits mb <= 2 ^ (digits ma - 1)) by (apply Z.pow_le_mono_r; lia).
    symmetry. apply Z.ltb_ge. lia.
Qed.

(** ** Integers and halves *)

Lemma safe_fits (a : positive) (e : Z) :
  Zpos a < 2 ^ 53 -> -1022 <= e <= 971 -> fits a e.
Proof.
  intros Ha He. pose proof (digits_pos a).
  assert (digits a <= 53) by (apply digits_le; lia).
  unfold Exact.fits. lia.
Qed.

Lemma dyadic_zero (e : Z) : Num.dyadic 0 e = S754_zero false.
Proof. reflexivity. Qed.

(** Doubles [a * 2^e] for [0 <= a < 2^53] add and multiply exactly. *)
Lemma add_dyadic (a b e : Z) :
  0 <= a -> 0 <= b -> a + b < 2 ^ 53 -> -1022 <= e <= 971 ->
  Num.add (Num.dyadic a e) (Num.dyadic b e) = Num.dyadic (a + b) e.
Proof.
  intros Ha Hb Hab He.
  destruct a as [|a|a]; [| |lia]; destruct b as [|b|b]; try lia.
  - reflexivity.
  - rewrite dyadic_zero. cbn [Z.add].
    rewrite dyadic_pos by (apply safe_fits; lia). reflexivity.
  - rewrite dyadic_zero, Z.add_0_r.
    rewrite dyadic_pos by (apply safe_fits; lia). reflexivity.
  - change (Zpos a + Zpos b) with (Zpos (a + b)) in *.
    rewrite !dyadic_pos by (apply safe_fits; lia).
    apply add_canon; apply safe_fits; lia.
Qed.

Lemma mul_dyadic (a b e f : Z) :
  0 <= a < 2 ^ 53 -> 0 <= b < 2 ^ 53 -> a * b < 2 ^ 53 ->
  -1022 <= e <= 971 -> -1022 <= f <= 971 -> -1022 <= e + f <= 971 ->
  Num.mul (Num.dyadic a e) (Num.dyadic b f) = Num.dyadic (a * b) (e + f).
Proof.
  intros Ha Hb Hab He Hf Hef.
  destruct a as [|a|a]; [| |lia]; destruct b as [|b|b]; try lia.
  - reflexivity.
  - rewrite dyadic_zero. cbn [Z.mul].
    rewrite dyadic_pos by (apply safe_fits; lia). reflexivity.
  - rewrite dyadic_zero, Z.mul_0_r.
    rewrite dyadic_pos by (apply safe_fits; lia). reflexivity.
  - change (Zpos a * Zpos b) with (Zpos (a * b)) in *.
    rewrite !dyadic_pos by (apply safe_fits; lia).
    apply mul_canon; [apply digits_le; lia | apply digits_le; lia
                      | apply safe_fits; lia].
Qed.

Lemma dyadic_shift (a k e : Z) :
  0 <= a -> 0 <= k -> a * 2 ^ k < 2 ^ 53 -> -1022 <= e - k -> e <= 971 ->
  Num.dyadic (a * 2 ^ k) (e - k) = Num.dyadic a e.
Proof.
  intros Ha Hk Hak Hek He.
  assert (Hp : 0 < 2 ^ k) by (apply Z.pow_pos_nonneg; lia).
  destruct a as [|a|a]; [reflexivity | | lia].
  rewrite <- Zpos_shl by lia.
  assert (Zpos a < 2 ^ 53) by nia.
  rewrite !dyadic_pos by (apply safe_fits; rewrite ?Zpos_shl; lia).
  apply canon_shift; [lia|].
  rewrite <- digits_shl by lia. apply digits_le; [lia|]. rewrite Zpos_shl; lia.
Qed.

Lemma ofZ_halves (z : Z) :
  0 <= z -> 2 * z < 2 ^ 53 -> Num.ofZ z = Num.dyadic (2 * z) (-1).
Proof.
  intros Hz Hs. unfold Num.ofZ.
  replace (2 * z) with (z * 2 ^ 1) by lia.
  change (-1) with (0 - 1).
  rewrite (dyadic_shift z 1 0) by lia. reflexivity.
Qed.

Lemma ltb_dyadic (a b e : Z) :
  0 <= a < 2 ^ 53 -> 0 <= b < 2 ^ 53 -> -1022 <= e <= 971 ->
  Num.ltb (Num.dyadic a e) (Num.dyadic b e) = (a <? b).
Proof.
  intros Ha Hb He.
  destruct a as [|a|a]; [| |lia]; destruct b as [|b|b]; try lia.
  - reflexivity.
  - rewrite dyadic_zero, dyadic_pos by (apply safe_fits; lia). reflexivity.
  - rewrite dyadic_zero, dyadic_pos by (apply safe_fits; lia). reflexivity.
  - rewrite !dyadic_pos by (apply safe_fits; lia).
    apply ltb_canon; apply digits_le; lia.
Qed.

Lemma dyadic_finite (a e : Z) :
  0 <= a < 2 ^ 53 -> -1022 <= e <= 971 -> Num.isFinite (Num.dyadic a e) = true.
Proof.
  intros Ha He. destruct a as [|a|a]; [reflexivity | | lia].
  rewrite dyadic_pos by (apply safe_fits; lia). reflexivity.
Qed.

Lemma dyadic_inj (a b e : Z) :
  0 <= a < 2 ^ 53 -> 0 <= b < 2 ^ 53 -> -1022 <= e <= 971 ->
  Num.dyadic a e = Num.dyadic b e -> a = b.
Proof.
  intros Ha Hb He Heq.
  assert (H1 := ltb_dyadic a b e Ha Hb He).
  assert (H2 := ltb_dyadic b a e Hb Ha He).
  rewrite Heq in H1. rewrite <- Heq in H2.
  assert (H3 := ltb_dyadic a a e Ha Ha He).
  rewrite H3 in H2. rewrite Heq in H3. rewrite H3 in H1.
  rewrite Z.ltb_irrefl in *.
  symmetry in H1, H2. apply Z.ltb_ge in H1, H2. lia.
Qed.

End NumberFacts.

(** ** Doubling *)

Section Doubling.

Local Open Scope Z_scope.

Local Abbreviation shl := Exact.shl.
Local Abbreviation digits := Exact.digits.

Lemma bounded_canonical (m : positive) (e : Z) :
  bounded 53 1024 m e = true ->
  fexp 53 1024 (digits m + e) = e /\ e <= 971.
Proof.
  unfold bounded, canonical_mantissa. intros H.
  apply andb_prop in H as [H1 H2].
  apply Z.eqb_eq in H1. apply Z.leb_le in H2. split; [exact H1 | exact H2].
Qed.

(** The product of a double by [2^j] is the double with the exponent
    raised by [j], an infinity when that leaves the format, and a
    subnormal shifted to the left while it stays one. *)
Lemma mul_pow2 (s : bool) (m : positive) (e j : Z) :
  bounded 53 1024 m e = true -> 0 <= j <= 52 ->
  Num.mul (S754_finite s m e) (Exact.canon false 1 j)
  = if fexp 53 1024 (digits m + e + j) <=? 971
    then S754_finite s (shl m (e + j - fexp 53 1024 (digits m + e + j)))
                     (fexp 53 1024 (digits m + e + j))
    else S754_infinity s.
Proof.
  intros Hb Hj. destruct (bounded_canonical m e Hb) as [Hc He].
  pose proof (digits_pos m) as Hd.
  set (E := fexp 53 1024 (digits m + e + j)).
  assert (HE : e <= E <= e + j) by (unfold E, fexp, emin in *; lia).
  unfold Num.mul, SFmul, Exact.canon. rewrite xorb_false_r.
  change (Exact.digits 1) with 1. change (53 - 1) with 52.
  assert (Hm : (m * shl 1 52)%positive = shl (shl m (e + j - E)) (E - (e + j - 52))).
  { rewrite shl_shl by lia. apply Pos2Z.inj.
    rewrite Pos2Z.inj_mul, !Zpos_shl by lia.
    replace (e + j - E + (E - (e + j - 52))) with 52 by lia. lia. }
  rewrite Hm.
  replace (e + (j - 52)) with (e + j - 52) by lia.
  rewrite round_aux_exact.
  - replace (e + j - 52 + (E - (e + j - 52))) with E by lia. reflexivity.
  - lia.
  - rewrite <- Hm. change (shl 1 52) with (4503599627370496%positive).
    replace (m * 4503599627370496)%positive with (shl m 52)
      by (apply Pos2Z.inj; rewrite Zpos_shl by lia; rewrite Pos2Z.inj_mul; reflexivity).
    rewrite digits_shl by lia.
    replace (digits m + 52 + (e + j - 52)) with (digits m + e + j) by lia.
    fold E. lia.
Qed.

Lemma mul_pow2_bounded (m : positive) (e j : Z) :
  bounded 53 1024 m e = true -> 0 <= j <= 52 ->
  fexp 53 1024 (digits m + e + j) <= 971 ->
  bounded 53 1024 (shl m (e + j - fexp 53 1024 (digits m + e + j)))
          (fexp 53 1024 (digits m + e + j)) = true.
Proof.
  intros Hb Hj HE. destruct (bounded_canonical m e Hb) as [Hc He].
  set (E := fexp 53 1024 (digits m + e + j)) in *.
  assert (HE' : e <= E <= e + j) by (unfold E, fexp, emin in *; lia).
  unfold bounded, canonical_mantissa. apply andb_true_intro. split.
  - apply Z.eqb_eq. fold (digits (shl m (e + j - E))).
    rewrite digits_shl by lia.
    replace (digits m + (e + j - E) + E) with (digits m + e + j) by lia.
    reflexivity.
  - apply Z.leb_le. exact HE.
Qed.

(** [r * 2 * 2] is [r * 4], for every double. *)
Lemma mul_two_twice (r : Num.number) :
  Num.isDouble r = true ->
  Num.mul (Num.mul r (Num.ofZ 2)) (Num.ofZ 2) = Num.mul r (Num.ofZ 4).
Proof.
  intros Hr. destruct r as [s | s | | s m e]; try (destruct s; reflexivity);
    [reflexivity|].
  cbn [Num.isDouble valid_binary] in Hr.
  destruct (bounded_canonical m e Hr) as [Hc He].
  pose proof (digits_pos m) as Hd.
  change (Num.ofZ 2) with (Exact.canon false 1 1).
  change (Num.ofZ 4) with (Exact.canon false 1 2).
  rewrite (mul_pow2 s m e 1 Hr) by lia.
  rewrite (mul_pow2 s m e 2 Hr) by lia.
  set (E1 := fexp 53 1024 (digits m + e + 1)).
  set (E2 := fexp 53 1024 (digits m + e + 2)).
  assert (H12 : E1 <= E2 <= E1 + 1 /\ e <= E1 <= e + 1)
    by (unfold E1, E2, fexp, emin in *; lia).
  destruct (Z.leb_spec E1 971) as [H1|H1].
  - assert (Hb1 := mul_pow2_bounded m e 1 Hr ltac:(lia) H1). fold E1 in Hb1.
    rewrite (mul_pow2 s _ E1 1 Hb1) by lia.
    rewrite digits_shl by lia.
    replace (digits m + (e + 1 - E1) + E1 + 1) with (digits m + e + 2) by lia.
    fold E2. rewrite shl_shl by lia.
    replace (e + 1 - E1 + (E1 + 1 - E2)) with (e + 2 - E2) by lia.
    reflexivity.
  - replace (E2 <=? 971) with false by (symmetry; apply Z.leb_gt; lia).
    destruct s; reflexivity.
Qed.

End Doubling.

(* ================================================================== *)
(** * Layout                                                           *)
(* ================================================================== *)

Lemma mathMax_list_max (l : list nat) :
  forall x, ChartRenderer.mathMax (Z.of_nat x) (map Z.of_nat l)
            = Z.of_nat (Nat.max x (list_max l)).
Proof.
  induction l as [|y r IH]; intros x; simpl.
  - now rewrite Nat.max_0_r.
  - rewrite <- Nat2Z.inj_max, IH, Nat.max_assoc. reflexivity.
Qed.

Lemma maxNotesPerLine_stated (song : Song) :
  ChartRenderer.maxNotesPerLine song = ChartRenderer.stated_maxNotesPerLine song.
Proof.
  unfold ChartRenderer.maxNotesPerLine, ChartRenderer.stated_maxNotesPerLine.
  destruct (lines song) as [|l0 ls]; [reflexivity|].
  simpl map. rewrite <- (map_map (@List.length string) Z.of_nat).
  rewrite mathMax_list_max. reflexivity.
Qed.

Lemma maxNotesPerLine_shape (s1 s2 : Song) :
  map (@List.length string) (lines s1) = map (@List.length string) (lines s2) ->
  ChartRenderer.maxNotesPerLine s1 = ChartRenderer.maxNotesPerLine s2.
Proof.
  intros H. unfold ChartRenderer.maxNotesPerLine.
  rewrite <- !(map_map (@List.length string) Z.of_nat), H. reflexivity.
Qed.

Lemma maxNotesPerLine_nonneg (song : Song) :
  (0 <= ChartRenderer.maxNotesPerLine song)%Z.
Proof.
  rewrite maxNotesPerLine_stated. unfold ChartRenderer.stated_maxNotesPerLine.
  destruct (lines song); lia.
Qed.

Section ExactLayout.

Local Open Scope Z_scope.

Lemma add_ofZ (a b : Z) :
  0 <= a -> 0 <= b -> a + b < 2 ^ 53 ->
  Num.add (Num.ofZ a) (Num.ofZ b) = Num.ofZ (a + b).
Proof. intros. apply add_dyadic; lia. Qed.

Lemma mul_ofZ (a b : Z) :
  0 <= a < 2 ^ 53 -> 0 <= b < 2 ^ 53 -> a * b < 2 ^ 53 ->
  Num.mul (Num.ofZ a) (Num.ofZ b) = Num.ofZ (a * b).
Proof. intros. apply (mul_dyadic a b 0 0); lia. Qed.

Lemma ltb_ofZ (a b : Z) :
  0 <= a < 2 ^ 53 -> 0 <= b < 2 ^ 53 -> Num.ltb (Num.ofZ a) (Num.ofZ b) = (a <? b).
Proof. intros. apply ltb_dyadic; lia. Qed.

Variable config : ChartConfig.
Variable song : Song.
Variables R S : Z.
Hypothesis radius_exact : holeRadius config = Num.ofZ R.
Hypothesis spacing_exact : spacing config = Num.ofZ S.
Hypothesis in_range : ChartRenderer.exactFor R S song.

Local Abbreviation n := (ChartRenderer.maxNotesPerLine song).
Local Abbreviation l := (Z.of_nat (List.length (lines song))).

(** The integers the layout goes through are all below [2^52]. *)
Lemma exactFor_bounds :
  0 <= R /\ 0 <= S /\ 0 <= n < 2 ^ 52 /\ 0 <= l < 2 ^ 52
  /\ R * 4 + S * 4 < 2 ^ 52
  /\ n * (R * 4 + S * 3) + S * 4 < 2 ^ 52
  /\ Z.max l 1 * (R * 4 + S * 4) + S * 6 < 2 ^ 52.
Proof.
  destruct in_range as (HR & HS & Hn & Hl & HW & HH).
  pose proof (maxNotesPerLine_nonneg song) as Hn0.
  unfold ChartRenderer.exactWidth, ChartRenderer.exactHeight,
    ChartRenderer.exactLineHeight, ChartRenderer.exactPattern in *.
  change (2 ^ 52) with 4503599627370496 in *.
  assert (1 <= Z.max l 1) by lia.
  repeat split; try lia; nia.
Qed.

Lemma layout_exact :
  ChartRenderer.calculateLayout config song
  = mkLayout (Num.ofZ (ChartRenderer.exactWidth R S n))
             (Num.ofZ (ChartRenderer.exactHeight R S l))
             (Num.ofZ (ChartRenderer.exactLineHeight R S))
             (Num.ofZ (ChartRenderer.exactPattern R S))
             (Num.ofZ (ChartRenderer.exactPattern R S))
             (mkMargins (Num.ofZ (S * 2)) (Num.ofZ (S * 2))
                        (Num.ofZ (S * 2)) (Num.ofZ (S * 2))).
Proof.
  destruct exactFor_bounds as (HR & HS & Hn & Hl & Hp & HW & HH).
  change (2 ^ 52) with 4503599627370496 in *.
  assert (Hm : 1 <= Z.max l 1 < 4503599627370496) by lia.
  assert (Hnp : 0 <= n * (R * 4 + S * 3)) by nia.
  assert (Hlp : 0 <= Z.max l 1 * (R * 4 + S * 4)) by nia.
  unfold ChartRenderer.calculateLayout, ChartRenderer.exactWidth,
    ChartRenderer.exactHeight, ChartRenderer.exactLineHeight,
    ChartRenderer.exactPattern.
  rewrite radius_exact, spacing_exact. cbn [left right top bottom].
  rewrite (mul_ofZ R 2) by (change (2 ^ 53) with 9007199254740992; lia).
  rewrite (mul_ofZ (R * 2) 2) by (change (2 ^ 53) with 9007199254740992; lia).
  rewrite (add_ofZ (R * 2 * 2) S) by (change (2 ^ 53) with 9007199254740992; lia).
  rewrite (mul_ofZ S 2) by (change (2 ^ 53) with 9007199254740992; lia).
  rewrite (mul_ofZ S 3) by (change (2 ^ 53) with 9007199254740992; lia).
  rewrite (add_ofZ (R * 2 * 2 + S) (S * 2))
    by (change (2 ^ 53) with 9007199254740992; lia).
  rewrite (add_ofZ (R * 2 * 2 + S) (S * 3))
    by (change (2 ^ 53) with 9007199254740992; lia).
  rewrite (mul_ofZ n) by (change (2 ^ 53) with 9007199254740992; nia).
  rewrite (mul_ofZ (Z.max l 1)) by (change (2 ^ 53) with 9007199254740992; nia).
  rewrite !add_ofZ by (change (2 ^ 53) with 9007199254740992; nia).
  replace (R * 2 * 2) with (R * 4) by lia. reflexivity.
Qed.

End ExactLayout.

(** C5.  For every song and every configuration whose radius is a
    double, the layout is given by the stated formulas, evaluated in the
    arithmetic of doubles: square patterns of side [holeRadius*4 +
    spacing], line height [patternHeight + spacing*3], margins
    [spacing*2] on the four sides, and the total width and height
    computed from the longest line (1 when there is no line) and from the
    number of lines (at least 1).  For an integer radius and spacing that
    are not negative, with the totals below [2^52], no operation rounds
    and the layout is the one the formulas give over the integers. *)
Theorem calculateLayout_formulas (config : ChartConfig) (song : Song) :
  Num.isDouble (holeRadius config) = true ->
  let L := ChartRenderer.calculateLayout config song in
  let r := holeRadius config in
  let s := spacing config in
  let twice := Num.mul s (Num.ofZ 2) in
  (patternWidth L = Num.add (Num.mul r (Num.ofZ 4)) s
   /\ patternHeight L = Num.add (Num.mul r (Num.ofZ 4)) s
   /\ lineHeight L = Num.add (patternHeight L) (Num.mul s (Num.ofZ 3))
   /\ margins L = mkMargins twice twice twice twice
   /\ totalWidth L
      = Num.add
          (Num.add
             (Num.mul (Num.ofZ (ChartRenderer.stated_maxNotesPerLine song))
                      (Num.add (patternWidth L) twice))
             (left (margins L)))
          (right (margins L))
   /\ totalHeight L
      = Num.add
          (Num.add
             (Num.add
                (Num.mul (Num.ofZ (Z.max (Z.of_nat (List.length (lines song))) 1))
                         (lineHeight L))
                (top (margins L)))
             (bottom (margins L)))
          twice)
  /\ (forall R S : Z,
        r = Num.ofZ R -> s = Num.ofZ S -> ChartRenderer.exactFor R S song ->
        let n := ChartRenderer.stated_maxNotesPerLine song in
        let l := Z.max (Z.of_nat (List.length (lines song))) 1 in
        (patternWidth L = Num.ofZ (R * 4 + S)
         /\ patternHeight L = Num.ofZ (R * 4 + S)
         /\ lineHeight L = Num.ofZ ((R * 4 + S) + S * 3)
         /\ margins L = mkMargins (Num.ofZ (S * 2)) (Num.ofZ (S * 2))
                                  (Num.ofZ (S * 2)) (Num.ofZ (S * 2))
         /\ totalWidth L = Num.ofZ (n * ((R * 4 + S) + S * 2) + S * 2 + S * 2)
         /\ totalHeight L
            = Num.ofZ (l * ((R * 4 + S) + S * 3) + S * 2 + S * 2 + S * 2))%Z).
Proof.
  intros Hr. cbv zeta. split.
  - unfold ChartRenderer.calculateLayout; cbn [patternWidth patternHeight lineHeight
      margins totalWidth totalHeight left right top bottom].
    rewrite maxNotesPerLine_stated, (mul_two_twice _ Hr).
    repeat split.
  - intros R S HR HS Hin.
    rewrite (layout_exact config song R S HR HS Hin).
    rewrite <- maxNotesPerLine_stated.
    cbn [patternWidth patternHeight lineHeight margins totalWidth totalHeight].
    repeat split.
Qed.

Lemma calculateLayout_formulas_witness :
  totalWidth (ChartRenderer.calculateLayout sampleChartConfig
                (mkSong "T" [["F"; "G"]; ["E"]] None)) = Num.ofZ 320
  /\ totalHeight (ChartRenderer.calculateLayout sampleChartConfig
                    (mkSong "T" [["F"; "G"]; ["E"]] None)) = Num.ofZ 400.
Proof.
  destruct (calculateLayout_formulas sampleChartConfig
              (mkSong "T" [["F"; "G"]; ["E"]] None) eq_refl) as (_ & Hexact).
  assert (Hin : ChartRenderer.exactFor 15 20 (mkSong "T" [["F"; "G"]; ["E"]] None)).
  { vm_compute. repeat split; try discriminate; reflexivity. }
  destruct (Hexact 15%Z 20%Z eq_refl eq_refl Hin) as (_ & _ & _ & _ & HW & HH).
  split; [exact HW | exact HH].
Defined.

(** Beyond the integers a double represents exactly the formulas round:
    with a radius of [2^52 + 1] and a spacing of 1 the pattern width is
    [(2^52 + 1) * 4], not that plus one. *)
Lemma calculateLayout_rounds_large_integers :
  patternWidth (ChartRenderer.calculateLayout
                  (mkChartConfig (Num.ofZ 800) (Num.ofZ 600)
                                 (Num.ofZ (2 ^ 52 + 1)) (Num.ofZ 1)
                                 (colors sampleChartConfig))
                  (mkSong "T" [["F"]] None))
  = Num.ofZ 18014398509481988.
Proof. vm_compute. reflexivity. Qed.

(** C6 (as amended).  The layout depends only on the shape of the lines,
    the hole radius and the spacing.  For an integer radius and spacing
    that are not negative, with the totals below [2^52]: a larger radius
    gives a strictly larger total height, and a strictly larger total
    width when the longest line has a note; a larger longest line gives a
    strictly larger total width when [4*holeRadius + 3*spacing] is
    positive.  The total height depends on the number of lines only. *)
Theorem calculateLayout_determined_and_monotone :
  (forall c1 c2 s1 s2,
      map (@List.length string) (lines s1) = map (@List.length string) (lines s2) ->
      holeRadius c1 = holeRadius c2 -> spacing c1 = spacing c2 ->
      ChartRenderer.calculateLayout c1 s1 = ChartRenderer.calculateLayout c2 s2)
  /\ (forall c s (R R' S : Z),
         holeRadius c = Num.ofZ R -> spacing c = Num.ofZ S ->
         (0 <= R < R')%Z -> ChartRenderer.exactFor R' S s ->
         Num.ltb (totalHeight (ChartRenderer.calculateLayout c s))
                 (totalHeight (ChartRenderer.calculateLayout
                                 (ChartRenderer.withHoleRadius c (Num.ofZ R')) s))
         = true)
  /\ (forall c s (R R' S : Z),
         holeRadius c = Num.ofZ R -> spacing c = Num.ofZ S ->
         (0 <= R < R')%Z -> ChartRenderer.exactFor R' S s ->
         (0 < ChartRenderer.maxNotesPerLine s)%Z ->
         Num.ltb (totalWidth (ChartRenderer.calculateLayout c s))
                 (totalWidth (ChartRenderer.calculateLayout
                                (ChartRenderer.withHoleRadius c (Num.ofZ R')) s))
         = true)
  /\ (forall c s1 s2 (R S : Z),
         holeRadius c = Num.ofZ R -> spacing c = Num.ofZ S ->
         ChartRenderer.exactFor R S s1 -> ChartRenderer.exactFor R S s2 ->
         (ChartRenderer.maxNotesPerLine s1 < ChartRenderer.maxNotesPerLine s2)%Z ->
         (0 < 4 * R + 3 * S)%Z ->
         Num.ltb (totalWidth (ChartRenderer.calculateLayout c s1))
                 (totalWidth (ChartRenderer.calculateLayout c s2))
         = true)
  /\ (forall c s1 s2,
         List.length (lines s1) = List.length (lines s2) ->
         totalHeight (ChartRenderer.calculateLayout c s1)
         = totalHeight (ChartRenderer.calculateLayout c s2)).
Proof.
  assert (Hsmaller : forall s (R R' S : Z),
             (0 <= R < R')%Z -> ChartRenderer.exactFor R' S s ->
             ChartRenderer.exactFor R S s).
  { intros s R R' S HR (_ & HS & Hn & Hl & HW & HH).
    pose proof (maxNotesPerLine_nonneg s) as Hn0.
    unfold ChartRenderer.exactFor, ChartRenderer.exactWidth, ChartRenderer.exactHeight,
      ChartRenderer.exactLineHeight, ChartRenderer.exactPattern in *.
    change (2 ^ 52)%Z with 4503599627370496%Z in *.
    assert (1 <= Z.max (Z.of_nat (List.length (lines s))) 1)%Z by lia.
    repeat split; try lia; nia. }
  split; [|split; [|split; [|split]]].
  - intros c1 c2 s1 s2 Hshape Hr Hs.
    unfold ChartRenderer.calculateLayout.
    rewrite (maxNotesPerLine_shape s1 s2 Hshape), Hr, Hs.
    assert (Hlen : List.length (lines s1) = List.length (lines s2)).
    { rewrite <- (length_map (@List.length string) (lines s1)), Hshape.
      apply length_map. }
    rewrite Hlen. reflexivity.
  - intros c s R R' S Hr Hs HR Hin'.
    assert (Hin := Hsmaller s R R' S HR Hin').
    rewrite (layout_exact c s R S Hr Hs Hin).
    rewrite (layout_exact (ChartRenderer.withHoleRadius c (Num.ofZ R')) s R' S
               eq_refl Hs Hin').
    cbn [totalHeight].
    destruct (exactFor_bounds s R S Hin) as (H0 & H1 & H2 & H3 & H4 & H5 & H6).
    destruct (exactFor_bounds s R' S Hin') as (H0' & H1' & H2' & H3' & H4' & H5' & H6').
    unfold ChartRenderer.exactHeight, ChartRenderer.exactLineHeight,
      ChartRenderer.exactPattern.
    change (2 ^ 52)%Z with 4503599627370496%Z in *.
    assert (1 <= Z.max (Z.of_nat (List.length (lines s))) 1)%Z by lia.
    rewrite ltb_ofZ by (change (2 ^ 53)%Z with 9007199254740992%Z; nia).
    apply Z.ltb_lt. nia.
  - intros c s R R' S Hr Hs HR Hin' Hpos.
    assert (Hin := Hsmaller s R R' S HR Hin').
    rewrite (layout_exact c s R S Hr Hs Hin).
    rewrite (layout_exact (ChartRenderer.withHoleRadius c (Num.ofZ R')) s R' S
               eq_refl Hs Hin').
    cbn [totalWidth].
    destruct (exactFor_bounds s R S Hin) as (H0 & H1 & H2 & H3 & H4 & H5 & H6).
    destruct (exactFor_bounds s R' S Hin') as (H0' & H1' & H2' & H3' & H4' & H5' & H6').
    unfold ChartRenderer.exactWidth, ChartRenderer.exactPattern.
    change (2 ^ 52)%Z with 4503599627370496%Z in *.
    rewrite ltb_ofZ by (change (2 ^ 53)%Z with 9007199254740992%Z; nia).
    apply Z.ltb_lt. nia.
  - intros c s1 s2 R S Hr Hs Hin1 Hin2 Hlt Hpos.
    rewrite (layout_exact c s1 R S Hr Hs Hin1), (layout_exact c s2 R S Hr Hs Hin2).
    cbn [totalWidth].
    destruct (exactFor_bounds s1 R S Hin1) as (H0 & H1 & H2 & H3 & H4 & H5 & H6).
    destruct (exactFor_bounds s2 R S Hin2) as (_ & _ & H2' & H3' & _ & H5' & H6').
    unfold ChartRenderer.exactWidth, ChartRenderer.exactPattern.
    change (2 ^ 52)%Z with 4503599627370496%Z in *.
    rewrite ltb_ofZ by (change (2 ^ 53)%Z with 9007199254740992%Z; nia).
    apply Z.ltb_lt. nia.
  - intros c s1 s2 Hlen. unfold ChartRenderer.calculateLayout; simpl.
    rewrite Hlen. reflexivity.
Qed.

Lemma calculateLayout_determined_and_monotone_witness :
  Num.ltb
    (totalHeight (ChartRenderer.calculateLayout sampleChartConfig
                    (mkSong "t" [["F"]] None)))
    (totalHeight (ChartRenderer.calculateLayout
                    (ChartRenderer.withHoleRadius sampleChartConfig (Num.ofZ 16))
                    (mkSong "t" [["F"]] None))) = true
  /\ Num.ltb
       (totalWidth (ChartRenderer.calculateLayout sampleChartConfig
                      (mkSong "t" [["F"]] None)))
       (totalWidth (ChartRenderer.calculateLayout sampleChartConfig
                      (mkSong "t" [["F"; "G"]] None))) = true
  /\ ChartRenderer.calculateLayout sampleChartConfig (mkSong "a" [["F"]] None)
     = ChartRenderer.calculateLayout sampleChartConfig (mkSong "b" [["G"]] None).
Proof.
  destruct calculateLayout_determined_and_monotone as (Hdet & Hh & Hw & Hn & Hl).
  assert (Hin : forall R ls, In R [15; 16]%Z -> In ls [[["F"]]; [["F"; "G"]]] ->
                             ChartRenderer.exactFor R 20 (mkSong "t" ls None)).
  { intros R ls [<-|[<-|[]]] [<-|[<-|[]]];
      vm_compute; repeat split; try discriminate; reflexivity. }
  split; [|split].
  - apply (Hh sampleChartConfig _ 15%Z 16%Z 20%Z eq_refl eq_refl); [lia|].
    apply Hin; simpl; auto.
  - apply (Hn sampleChartConfig _ _ 15%Z 20%Z eq_refl eq_refl).
    + apply Hin; simpl; auto.
    + apply Hin; simpl; auto.
    + vm_compute; reflexivity.
    + lia.
  - apply Hdet; reflexivity.
Defined.

(** C6 (as stated) fails: a longer longest line leaves the total height
    unchanged. *)
Lemma totalHeight_ignores_line_length :
  (ChartRenderer.maxNotesPerLine (mkSong "t" [["F"]] None)
   < ChartRenderer.maxNotesPerLine (mkSong "t" [["F"; "G"]] None))%Z
  /\ Num.ltb
       (totalHeight (ChartRenderer.calculateLayout sampleChartConfig
                       (mkSong "t" [["F"]] None)))
       (totalHeight (ChartRenderer.calculateLayout sampleChartConfig
                       (mkSong "t" [["F"; "G"]] None))) = false.
Proof.
  split; vm_compute; reflexivity.
Qed.

(** Between doubles that are not integers the growth need not be strict:
    from a radius of 15 to the next double, with the spacing 20, the sums
    round to the same total width and total height. *)
Lemma growth_of_radius_lost_to_rounding :
  let next := S754_finite false 8444249301319681 (-49) in
  let s := mkSong "t" [["F"]] None in
  Num.isDouble next = true
  /\ Num.ltb (holeRadius sampleChartConfig) next = true
  /\ totalWidth (ChartRenderer.calculateLayout
                   (ChartRenderer.withHoleRadius sampleChartConfig next) s)
     = totalWidth (ChartRenderer.calculateLayout sampleChartConfig s)
  /\ totalHeight (ChartRenderer.calculateLayout
                    (ChartRenderer.withHoleRadius sampleChartConfig next) s)
     = totalHeight (ChartRenderer.calculateLayout sampleChartConfig s).
Proof. vm_compute. repeat split. Qed.

(* ================================================================== *)
(** * Export file names                                                *)
(* ================================================================== *)

Section FileNameFacts.

Lemma filterString_app (p : ascii -> bool) (a b : string) :
  JS.filterString p (a ++ b) = JS.filterString p a ++ JS.filterString p b.
Proof.
  induction a as [|c r IH]; simpl; [reflexivity|].
  destruct (p c); simpl; now rewrite IH.
Qed.

Lemma mapString_app (f : ascii -> ascii) (a b : string) :
  JS.mapString f (a ++ b) = JS.mapString f a ++ JS.mapString f b.
Proof. induction a as [|c r IH]; simpl; [reflexivity|]. now rewrite IH. Qed.

(** Every [digit n] is one of the ten characters [0] .. [9]. *)
Lemma digit_cases (n : N) (P : ascii -> Prop) :
  (forall k, (k < 10)%N -> P (ascii_of_N (48 + k))) -> P (FileName.digit n).
Proof.
  intros H. unfold FileName.digit. apply H. apply N.mod_lt. discriminate.
Qed.

Local Ltac by_digit_cases :=
  apply digit_cases; intros k Hk;
  assert (k = 0 \/ k = 1 \/ k = 2 \/ k = 3 \/ k = 4 \/ k = 5 \/ k = 6
          \/ k = 7 \/ k = 8 \/ k = 9)%N as Hc by lia;
  repeat (destruct Hc as [-> | Hc]; [reflexivity|]); subst; reflexivity.

Lemma digit_isDigit (n : N) : FileName.isDigit (FileName.digit n) = true.
Proof. by_digit_cases. Qed.

Lemma digit_kept (n : N) :
  negb (FileName.isColonOrHyphen (FileName.digit n)) = true.
Proof. by_digit_cases. Qed.

Lemma digit_lower (n : N) : JS.lowerChar (FileName.digit n) = FileName.digit n.
Proof. by_digit_cases. Qed.

Lemma digits2_filter (n : N) :
  JS.filterString FileName.keptInStamp (FileName.digits2 n) = FileName.digits2 n.
Proof.
  unfold FileName.digits2, FileName.keptInStamp; simpl. now rewrite !digit_kept.
Qed.

Lemma digits4_filter (n : N) :
  JS.filterString FileName.keptInStamp (FileName.digits4 n) = FileName.digits4 n.
Proof.
  unfold FileName.digits4, FileName.digits3, FileName.digits2, FileName.keptInStamp; simpl.
  now rewrite !digit_kept.
Qed.

Lemma digits2_lower (n : N) : JS.toLowerCase (FileName.digits2 n) = FileName.digits2 n.
Proof.
  unfold FileName.digits2, JS.toLowerCase; simpl. now rewrite !digit_lower.
Qed.

Lemma digits4_lower (n : N) : JS.toLowerCase (FileName.digits4 n) = FileName.digits4 n.
Proof.
  unfold FileName.digits4, FileName.digits3, FileName.digits2, JS.toLowerCase; simpl.
  now rewrite !digit_lower.
Qed.

Lemma digits2_allDigits (n : N) :
  JS.allString FileName.isDigit (FileName.digits2 n) = true.
Proof.
  unfold FileName.digits2; simpl. now rewrite !digit_isDigit.
Qed.

Lemma digits4_allDigits (n : N) :
  JS.allString FileName.isDigit (FileName.digits4 n) = true.
Proof.
  unfold FileName.digits4, FileName.digits3, FileName.digits2; simpl.
  now rewrite !digit_isDigit.
Qed.

Lemma allString_app (p : ascii -> bool) (a b : string) :
  JS.allString p (a ++ b) = JS.allString p a && JS.allString p b.
Proof.
  induction a as [|c r IH]; simpl; [reflexivity|].
  now rewrite IH, andb_assoc.
Qed.

Lemma length_app (a b : string) :
  String.length (a ++ b) = String.length a + String.length b.
Proof. induction a as [|c r IH]; simpl; [reflexivity|]. now rewrite IH. Qed.

(** The first nineteen characters of the ISO rendering of a plain date. *)
Lemma toISOString_prefix (now : Date) :
  FileName.plainDate now ->
  JS.take 19 (FileName.toISOString now)
  = FileName.digits4 (Z.to_N (utcFullYear now)) ++ "-"
    ++ FileName.digits2 (utcMonth now) ++ "-" ++ FileName.digits2 (utcDate now)
    ++ "T" ++ FileName.digits2 (utcHours now) ++ ":"
    ++ FileName.digits2 (utcMinutes now) ++ ":" ++ FileName.digits2 (utcSeconds now).
Proof.
  intros (Hy & _).
  unfold FileName.toISOString, FileName.isoYear.
  replace ((0 <=? utcFullYear now)%Z && (utcFullYear now <=? 9999)%Z) with true by lia.
  reflexivity.
Qed.

Lemma timestamp_plain (now : Date) :
  FileName.plainDate now -> FileName.timestamp now = FileName.stampOf now.
Proof.
  intros Hd. unfold FileName.timestamp.
  rewrite (toISOString_prefix now Hd).
  rewrite !filterString_app, digits4_filter, !digits2_filter.
  unfold JS.toLowerCase. rewrite !mapString_app. fold JS.toLowerCase.
  rewrite digits4_lower, !digits2_lower.
  reflexivity.
Qed.

Lemma allString_trimStart (p : ascii -> bool) (s : string) :
  JS.allString p s = true -> JS.allString p (JS.trimStart s) = true.
Proof.
  induction s as [|c r IH]; simpl; [auto|].
  intros H. apply andb_prop in H as [Hc Hr].
  destruct (JS.isWhiteSpace c); simpl; [auto|]. now rewrite Hc, Hr.
Qed.

Lemma allString_trimEnd (p : ascii -> bool) (s : string) :
  JS.allString p s = true -> JS.allString p (JS.trimEnd s) = true.
Proof.
  induction s as [|c r IH]; simpl; [auto|].
  intros H. apply andb_prop in H as [Hc Hr].
  destruct (JS.isWhiteSpace c && JS.isEmpty (JS.trimEnd r)); simpl; [auto|].
  now rewrite Hc, IH.
Qed.

Lemma filterString_none (p : ascii -> bool) (s : string) :
  JS.allString (fun c => negb (p c)) s = true -> JS.filterString p s = "".
Proof.
  induction s as [|c r IH]; simpl; [auto|].
  intros H. apply andb_prop in H as [Hc Hr].
  apply negb_true_iff in Hc. rewrite Hc. auto.
Qed.

Lemma cleanTitle_onlySpecial (n : nat) (t : string) :
  FileName.onlySpecial t = true -> FileName.cleanTitle n t = "".
Proof.
  intros H. unfold FileName.cleanTitle, JS.trim.
  rewrite filterString_none.
  - destruct n; reflexivity.
  - apply allString_trimEnd, allString_trimStart. exact H.
Qed.

End FileNameFacts.

(** C8 (as amended).  At any clock reading with a four-digit year, both
    [generateFilename] methods name the chart of the title [My Song!]
    [my-song-<stamp>.png], and name the chart of a title made of special
    characters only [ocarina-chart-<stamp>.png], where the stamp is the
    eight digits of the UTC date, the letter [t], and the six digits of
    the UTC time. *)
Theorem generateFilename_slug_and_stamp (now : Date) :
  FileName.plainDate now ->
  ChartRenderer.generateFilename now "My Song!"
  = "my-song-" ++ FileName.stampOf now ++ ".png"
  /\ ExportManager.generateFilename ExportManager.DEFAULT_EXPORT_CONFIG now
       (ExportManager.OfString "My Song!") "png"
     = "my-song-" ++ FileName.stampOf now ++ ".png"
  /\ (forall t, FileName.onlySpecial t = true ->
        ChartRenderer.generateFilename now t
        = "ocarina-chart-" ++ FileName.stampOf now ++ ".png"
        /\ ExportManager.generateFilename ExportManager.DEFAULT_EXPORT_CONFIG now
             (ExportManager.OfString t) "png"
           = "ocarina-chart-" ++ FileName.stampOf now ++ ".png")
  /\ (exists day time,
        FileName.stampOf now = day ++ "t" ++ time
        /\ String.length day = 8 /\ String.length time = 6
        /\ JS.allString FileName.isDigit day = true
        /\ JS.allString FileName.isDigit time = true).
Proof.
  intros Hd. split; [|split; [|split; [intros t H; split|]]].
  - unfold ChartRenderer.generateFilename.
    rewrite (timestamp_plain now Hd). reflexivity.
  - unfold ExportManager.generateFilename.
    cbn [ExportManager.includeTimestamp ExportManager.maxFilenameLength
         ExportManager.DEFAULT_EXPORT_CONFIG].
    rewrite (timestamp_plain now Hd). reflexivity.
  - unfold ChartRenderer.generateFilename.
    rewrite (cleanTitle_onlySpecial 50 t H), (timestamp_plain now Hd). reflexivity.
  - unfold ExportManager.generateFilename.
    cbn [ExportManager.includeTimestamp ExportManager.maxFilenameLength
         ExportManager.DEFAULT_EXPORT_CONFIG].
    rewrite (cleanTitle_onlySpecial 50 t H), (timestamp_plain now Hd). reflexivity.
  - exists (FileName.digits4 (Z.to_N (utcFullYear now))
            ++ FileName.digits2 (utcMonth now) ++ FileName.digits2 (utcDate now)),
           (FileName.digits2 (utcHours now) ++ FileName.digits2 (utcMinutes now)
            ++ FileName.digits2 (utcSeconds now)).
    split; [|split; [|split; [|split]]].
    + unfold FileName.stampOf, FileName.digits4, FileName.digits3, FileName.digits2.
      reflexivity.
    + reflexivity.
    + reflexivity.
    + rewrite !allString_app, digits4_allDigits, !digits2_allDigits.
      reflexivity.
    + rewrite !allString_app, !digits2_allDigits. reflexivity.
Qed.

Lemma generateFilename_slug_and_stamp_witness :
  ChartRenderer.generateFilename sampleDate "My Song!" = "my-song-20240115t103045.png"
  /\ ChartRenderer.generateFilename sampleDate "!!!" = "ocarina-chart-20240115t103045.png".
Proof.
  assert (Hd : FileName.plainDate sampleDate).
  { unfold FileName.plainDate, sampleDate; simpl. lia. }
  destruct (generateFilename_slug_and_stamp sampleDate Hd) as (H1 & _ & H3 & _).
  split.
  - rewrite H1. reflexivity.
  - rewrite (proj1 (H3 "!!!" eq_refl)). reflexivity.
Defined.

(** C8 (as stated) fails: the stamp is not the numeric [YYYYMMDDHHMMSS];
    the letter [t] stands between the date and the time. *)
Lemma generateFilename_stamp_not_numeric :
  ChartRenderer.generateFilename sampleDate "My Song!" = "my-song-20240115t103045.png"
  /\ ExportManager.generateFilename ExportManager.DEFAULT_EXPORT_CONFIG sampleDate
       (ExportManager.OfString "My Song!") "png" = "my-song-20240115t103045.png"
  /\ FileName.hasNumericStamp "my-song"
       (ChartRenderer.generateFilename sampleDate "My Song!") = false
  /\ FileName.hasNumericStamp "my-song" "my-song-20240115103045.png" = true.
Proof. repeat split; reflexivity. Qed.

(* ================================================================== *)
(** * Blank text and blank lines                                       *)
(* ================================================================== *)

Section BlankFacts.

Lemma trimEnd_empty_blank (s : string) :
  JS.trimEnd s = "" -> JS.allString JS.isWhiteSpace s = true.
Proof.
  induction s as [|c r IH]; simpl; [reflexivity|].
  destruct (JS.isWhiteSpace c && JS.isEmpty (JS.trimEnd r)) eqn:E; [|discriminate].
  intros _. apply andb_prop in E as [Hc Hr].
  rewrite Hc. apply IH. now apply isEmpty_true.
Qed.

Lemma trimStart_blank (s : string) :
  JS.allString JS.isWhiteSpace (JS.trimStart s) = true ->
  JS.allString JS.isWhiteSpace s = true.
Proof.
  induction s as [|c r IH]; simpl; [auto|].
  destruct (JS.isWhiteSpace c) eqn:E; simpl; rewrite ?E; simpl; auto.
Qed.

Lemma trim_empty_blank (s : string) :
  JS.trim s = "" -> JS.allString JS.isWhiteSpace s = true.
Proof. intros H. apply trimStart_blank, trimEnd_empty_blank, H. Qed.

Lemma blank_trim_empty (s : string) :
  JS.allString JS.isWhiteSpace s = true -> JS.trim s = "".
Proof.
  unfold JS.trim. induction s as [|c r IH]; simpl; [reflexivity|].
  intros H. apply andb_prop in H as [Hc Hr]. rewrite Hc. auto.
Qed.

Lemma consHead_blank (c : ascii) (pieces : list string) :
  JS.isWhiteSpace c = true ->
  Forall (fun l => JS.allString JS.isWhiteSpace l = true) pieces ->
  Forall (fun l => JS.allString JS.isWhiteSpace l = true) (JS.consHead c pieces).
Proof.
  intros Hc Hp. destruct pieces as [|h t]; simpl.
  - constructor; [|constructor]. simpl. now rewrite Hc.
  - inversion Hp; subst. constructor; [|assumption]. simpl. now rewrite Hc.
Qed.

Lemma splitLines_blank (s : string) :
  JS.allString JS.isWhiteSpace s = true ->
  Forall (fun l => JS.allString JS.isWhiteSpace l = true) (JS.splitLines s).
Proof.
  functional induction (JS.splitLines s); simpl; intros H.
  - repeat constructor.
  - apply andb_prop in H as [_ Hr]. constructor; auto.
  - apply andb_prop in H as [Hc _]. repeat constructor. simpl. now rewrite Hc.
  - apply andb_prop in H as [_ H]. apply andb_prop in H as [_ Hr].
    constructor; auto.
  - apply andb_prop in H as [Hc Hr]. apply consHead_blank; auto.
Qed.

(** White-space-only text has only empty preprocessed lines. *)
Lemma preprocessInput_blank (input : string) :
  JS.trim input = "" ->
  Forall (fun l => l = "") (NoteParser.preprocessInput input).
Proof.
  intros H. unfold NoteParser.preprocessInput.
  apply Forall_map.
  eapply Forall_impl; [|apply splitLines_blank, trim_empty_blank, H].
  intros l Hl. now apply blank_trim_empty.
Qed.

(** Text with a non-empty preprocessed line passes the empty-input test. *)
Lemma not_empty_input (input l : string) :
  In l (NoteParser.preprocessInput input) -> l <> "" ->
  JS.isEmpty input || Nat.eqb (String.length (JS.trim input)) 0 = false.
Proof.
  intros Hin Hne.
  assert (Ht : JS.trim input <> "").
  { intros Ht. apply Hne.
    exact (proj1 (Forall_forall _ _) (preprocessInput_blank input Ht) l Hin). }
  rewrite <- isEmpty_length.
  apply orb_false_iff. split.
  - destruct input; [exfalso; apply Ht; reflexivity | reflexivity].
  - destruct (JS.trim input); [contradiction | reflexivity].
Qed.

End BlankFacts.

(* ================================================================== *)
(** * Tokens of a note line                                            *)
(* ================================================================== *)

Section TokenFacts.

Variable sep : ascii -> bool.

Lemma startsWith_app_run (run b : string) :
  run <> "" -> JS.allString sep run = true ->
  JS.startsWith sep (run ++ b) = true.
Proof.
  destruct run as [|c r]; [congruence|]. simpl.
  intros _ H. now apply andb_prop in H as [Hc _].
Qed.

(** A non-empty run of separators in front splits like one separator. *)
Lemma splitRuns_leading_run (one : ascii) (b : string) :
  sep one = true ->
  forall run, run <> "" -> JS.allString sep run = true ->
  JS.splitRuns sep (run ++ b) = JS.splitRuns sep (String one b).
Proof.
  intros Hone. induction run as [|c r IH]; [congruence|].
  intros _ H. simpl in H. apply andb_prop in H as [Hc Hr].
  cbn [String.append JS.splitRuns]. rewrite Hc, Hone.
  destruct r as [|d r'].
  - reflexivity.
  - rewrite (startsWith_app_run (String d r') b) by (auto; discriminate).
    rewrite IH by (auto; discriminate).
    cbn [JS.splitRuns]. now rewrite Hone.
Qed.

(** Anywhere in a line, a non-empty run of separators splits like one. *)
Lemma splitRuns_run (one : ascii) (run b : string) :
  sep one = true -> run <> "" -> JS.allString sep run = true ->
  forall a, JS.splitRuns sep (a ++ run ++ b) = JS.splitRuns sep (a ++ String one b).
Proof.
  intros Hone Hne Hall. induction a as [|c r IH].
  - simpl String.append. now apply splitRuns_leading_run.
  - cbn [String.append JS.splitRuns]. rewrite IH.
    replace (JS.startsWith sep (r ++ run ++ b))
      with (JS.startsWith sep (r ++ String one b)); [reflexivity|].
    destruct r; simpl; [|reflexivity].
    rewrite Hone. symmetry. now apply startsWith_app_run.
Qed.

End TokenFacts.

Lemma convertNotes_map (cfg : NoteParser.ParseConfig) (notes : list string) :
  fst (NoteParser.convertNotes cfg notes) = map (NoteParser.convertedNote cfg) notes.
Proof.
  induction notes as [|n rest IH]; simpl; [reflexivity|].
  destruct (NoteParser.convertNotes cfg rest) as [ns ws]; simpl in IH.
  unfold NoteParser.convertedNote at 1.
  destruct (String.eqb (JS.toUpperCase n) "B" && NoteParser.autoConvertB cfg);
    simpl; now rewrite IH.
Qed.

Lemma parseNotesFromLine_tokens (cfg : NoteParser.ParseConfig) (line : string) :
  NoteParser.parseNotesFromLine cfg line
  = map (fun t => NoteParser.normalizeCase (NoteParser.convertedNote cfg t))
        (NoteParser.rawNotesOfValidate line).
Proof.
  unfold NoteParser.parseNotesFromLine.
  rewrite convertNotes_map, map_map. reflexivity.
Qed.

(** C9.  The lines [F,G|A-Bb] and [F G A Bb] have the same tokens
    [F; G; A; Bb]; a non-empty run of spaces, commas, pipes and hyphens
    splits a line exactly like one space; the validation pass and the
    parsing pass compute the same tokens, and the notes of the parsed line
    are, position by position, the notes made from these tokens. *)
Theorem tokens_and_separators :
  (NoteParser.rawNotesOfParse "F,G|A-Bb" = ["F"; "G"; "A"; "Bb"]
   /\ NoteParser.rawNotesOfParse "F G A Bb" = ["F"; "G"; "A"; "Bb"]
   /\ NoteParser.rawNotesOfValidate "F,G|A-Bb" = ["F"; "G"; "A"; "Bb"]
   /\ NoteParser.rawNotesOfValidate "F G A Bb" = ["F"; "G"; "A"; "Bb"])
  /\ (forall cfg,
         NoteParser.parseNotesFromLine cfg "F,G|A-Bb" = ["F"; "G"; "A"; "Bb"]
         /\ NoteParser.parseNotesFromLine cfg "F G A Bb" = ["F"; "G"; "A"; "Bb"])
  /\ (forall a run b,
         run <> "" -> JS.allString NoteParser.isSeparator run = true ->
         NoteParser.rawNotesOfParse (a ++ run ++ b)
         = NoteParser.rawNotesOfParse (a ++ " " ++ b))
  /\ (forall line,
         NoteParser.rawNotesOfValidate line = NoteParser.rawNotesOfParse line)
  /\ (forall cfg line,
         NoteParser.parseNotesFromLine cfg line
         = map (fun t => NoteParser.normalizeCase (NoteParser.convertedNote cfg t))
               (NoteParser.rawNotesOfValidate line)).
Proof.
  split; [|split; [|split; [|split]]].
  - repeat split; reflexivity.
  - intros [[|] ? ? ?]; split; reflexivity.
  - intros a run b Hne Hall. unfold NoteParser.rawNotesOfParse.
    now rewrite (splitRuns_run NoteParser.isSeparator " "%char run b eq_refl Hne Hall a).
  - reflexivity.
  - exact parseNotesFromLine_tokens.
Qed.

Lemma tokens_and_separators_witness :
  NoteParser.rawNotesOfParse ("F" ++ ", |-" ++ "G")
  = NoteParser.rawNotesOfParse ("F" ++ " " ++ "G").
Proof.
  apply (proj1 (proj2 (proj2 tokens_and_separators))).
  - discriminate.
  - reflexivity.
Defined.

(* ================================================================== *)
(** * The validation gate of [parseSong]                               *)
(* ================================================================== *)

Lemma validateInput_isValid (cfg : NoteParser.ParseConfig) (input : string) :
  isValid (NoteParser.validateInput cfg input)
  = Nat.eqb (List.length (errors (NoteParser.validateInput cfg input))) 0.
Proof.
  unfold NoteParser.validateInput.
  destruct (JS.isEmpty input || Nat.eqb (String.length (JS.trim input)) 0);
    [reflexivity|].
  destruct (NoteParser.validateLinesFrom cfg 1 (tl (NoteParser.preprocessInput input))).
  reflexivity.
Qed.

(** C3.  [parseSong] returns a song exactly when [validateInput] accepts
    the same text, and then no validation error exists at all; otherwise
    it throws an [Error] whose message is [Parsing failed: ] followed by
    the messages of all the validation errors, joined by a comma and a
    space. *)
Theorem parseSong_gated_by_validateInput
        (cfg : NoteParser.ParseConfig) (now : Date) (input : string) :
  let v := NoteParser.validateInput cfg input in
  ((exists song, NoteParser.parseSong cfg now input = Returned song)
   <-> isValid v = true)
  /\ (isValid v = true <-> errors v = [])
  /\ (isValid v = true ->
      NoteParser.parseSong cfg now input
      = Returned
          (let ls := NoteParser.preprocessInput input in
           let noteLines := NoteParser.parseNoteLines cfg (tl ls) in
           mkSong (NoteParser.extractTitle ls) noteLines
                  (Some (mkMetadata input now (List.length (List.concat noteLines))))))
  /\ (isValid v = false ->
      NoteParser.parseSong cfg now input
      = Thrown (Error ("Parsing failed: " ++ JS.join ", " (map e_message (errors v))))).
Proof.
  cbv zeta. unfold NoteParser.parseSong.
  split; [|split; [|split]].
  - destruct (isValid (NoteParser.validateInput cfg input)); simpl; split.
    + reflexivity.
    + intros _. eexists. reflexivity.
    + intros [song H]. discriminate H.
    + discriminate.
  - rewrite validateInput_isValid.
    destruct (errors (NoteParser.validateInput cfg input)); simpl; split;
      congruence.
  - intros ->. reflexivity.
  - intros ->. reflexivity.
Qed.

Lemma parseSong_gated_by_validateInput_witness :
  NoteParser.parseSong NoteParser.DEFAULT_CONFIG sampleDate ("Title" ++ LF ++ "F G A")
  = Returned (mkSong "Title" [["F"; "G"; "A"]]
                (Some (mkMetadata ("Title" ++ LF ++ "F G A") sampleDate 3)))
  /\ NoteParser.parseSong NoteParser.DEFAULT_CONFIG sampleDate ("Test" ++ LF ++ "F G X A Y")
     = Thrown (Error ("Parsing failed: Unsupported note 'X' at line 2, position 3, "
                      ++ "Unsupported note 'Y' at line 2, position 5")).
Proof.
  split.
  - rewrite (proj1 (proj2 (proj2 (parseSong_gated_by_validateInput
               NoteParser.DEFAULT_CONFIG sampleDate ("Title" ++ LF ++ "F G A"))))).
    + reflexivity.
    + reflexivity.
  - rewrite (proj2 (proj2 (proj2 (parseSong_gated_by_validateInput
               NoteParser.DEFAULT_CONFIG sampleDate ("Test" ++ LF ++ "F G X A Y"))))).
    + reflexivity.
    + reflexivity.
Defined.

(* ================================================================== *)
(** * A title followed by blank lines                                  *)
(* ================================================================== *)

Lemma validateLinesFrom_blank (cfg : NoteParser.ParseConfig) (rest : list string) :
  Forall (fun l => l = "") rest ->
  forall i,
    fst (NoteParser.validateLinesFrom cfg i rest) = []
    /\ Forall (fun w => w_type w = EMPTY_LINE)
              (snd (NoteParser.validateLinesFrom cfg i rest))
    /\ List.length (snd (NoteParser.validateLinesFrom cfg i rest)) = List.length rest.
Proof.
  induction 1 as [|l rest Hl Hrest IH]; intros i; simpl.
  - repeat split; constructor.
  - subst l. destruct (IH (S i)) as (He & Hw & Hn).
    destruct (NoteParser.validateLinesFrom cfg (S i) rest) as [es ws].
    simpl in *. subst es. repeat split.
    + constructor; [reflexivity | assumption].
    + now rewrite Hn.
Qed.

Lemma parseNoteLines_blank (cfg : NoteParser.ParseConfig) (rest : list string) :
  Forall (fun l => l = "") rest -> NoteParser.parseNoteLines cfg rest = [].
Proof.
  induction 1 as [|l rest Hl Hrest IH]; simpl; [reflexivity|].
  subst l. exact IH.
Qed.

(** C10 (as amended).  When the preprocessed text is a non-blank first
    line followed by at least one line, all of them blank, and the number
    of lines does not exceed [maxLines], [validateInput] accepts it with
    no error and one [EMPTY_LINE] warning per blank line, and [parseSong]
    returns a song with no line and a note count of 0. *)
Theorem title_with_blank_lines_is_valid
        (cfg : NoteParser.ParseConfig) (now : Date) (input first : string)
        (rest : list string) :
  NoteParser.preprocessInput input = first :: rest ->
  first <> "" -> rest <> [] -> Forall (fun l => l = "") rest ->
  (Z.of_nat (List.length (first :: rest)) <= NoteParser.maxLines cfg)%Z ->
  let v := NoteParser.validateInput cfg input in
  isValid v = true
  /\ errors v = []
  /\ Forall (fun w => w_type w = EMPTY_LINE) (warnings v)
  /\ List.length (warnings v) = List.length rest
  /\ exists song,
       NoteParser.parseSong cfg now input = Returned song
       /\ lines song = []
       /\ option_map noteCount (metadata song) = Some 0.
Proof.
  intros Hpre Hfirst Hrest Hblank Hmax. cbv zeta.
  assert (Hv : NoteParser.validateInput cfg input
               = mkResult true []
                   (snd (NoteParser.validateLinesFrom cfg 1 rest))).
  { unfold NoteParser.validateInput.
    rewrite (not_empty_input input first) by (try rewrite Hpre; simpl; auto).
    rewrite Hpre. cbn [tl].
    destruct (validateLinesFrom_blank cfg rest Hblank 1) as (He & _).
    destruct (NoteParser.validateLinesFrom cfg 1 rest) as [es ws].
    simpl in He. subst es.
    replace (List.length (first :: rest) <? 2)%nat with false
      by (symmetry; apply Nat.ltb_ge; destruct rest; simpl; [congruence | lia]).
    replace (Z.of_nat (List.length (first :: rest)) >? NoteParser.maxLines cfg)%Z
      with false by (symmetry; rewrite Z.gtb_ltb; apply Z.ltb_ge; exact Hmax).
    reflexivity. }
  destruct (validateLinesFrom_blank cfg rest Hblank 1) as (_ & Hw & Hn).
  unfold NoteParser.parseSong. rewrite Hv.
  cbn [isValid negb errors warnings].
  rewrite Hpre. cbn [tl]. rewrite (parseNoteLines_blank cfg rest Hblank).
  split; [reflexivity|]. split; [reflexivity|]. split; [assumption|].
  split; [assumption|].
  eexists. split; [reflexivity|]. split; reflexivity.
Qed.

Lemma title_with_blank_lines_is_valid_witness :
  exists song,
    NoteParser.parseSong NoteParser.DEFAULT_CONFIG sampleDate ("Title" ++ LF)
    = Returned song
    /\ lines song = []
    /\ option_map noteCount (metadata song) = Some 0.
Proof.
  apply (title_with_blank_lines_is_valid NoteParser.DEFAULT_CONFIG sampleDate
           ("Title" ++ LF) "Title" [""]).
  - reflexivity.
  - discriminate.
  - discriminate.
  - repeat constructor.
  - simpl. lia.
Defined.

(** C10 (as stated) fails when the blank lines push the line count over
    [maxLines]: a title and a hundred line feeds make 101 lines, the first
    non-blank and the others blank, and the text is rejected. *)
Lemma blank_lines_over_limit_rejected :
  List.length (NoteParser.preprocessInput titleAndHundredBlankLines) = 101
  /\ hd "" (NoteParser.preprocessInput titleAndHundredBlankLines) = "T"
  /\ forallb JS.isEmpty (tl (NoteParser.preprocessInput titleAndHundredBlankLines)) = true
  /\ isValid (NoteParser.validateInput NoteParser.DEFAULT_CONFIG
                titleAndHundredBlankLines) = false
  /\ map e_message (errors (NoteParser.validateInput NoteParser.DEFAULT_CONFIG
                              titleAndHundredBlankLines))
     = ["Too many lines (101). Maximum allowed: 100"]
  /\ NoteParser.parseSong NoteParser.DEFAULT_CONFIG sampleDate titleAndHundredBlankLines
     = Thrown (Error "Parsing failed: Too many lines (101). Maximum allowed: 100").
Proof. repeat split; vm_compute; reflexivity. Qed.

(* ================================================================== *)
(** * Diagnostics of a note line                                       *)
(* ================================================================== *)

Section LineDiagnostics.

Variable cfg : NoteParser.ParseConfig.
Variable lineNumber : nat.

Lemma filter_all {A : Type} (p : A -> bool) (l : list A) :
  (forall x, In x l -> p x = true) -> filter p l = l.
Proof.
  induction l as [|a l IH]; simpl; intros H; [reflexivity|].
  rewrite (H a (or_introl eq_refl)). f_equal. apply IH. intros x Hx. apply H. now right.
Qed.

Lemma optNat_eqb_refl (n : nat) : optNat_eqb (Some n) n = true.
Proof. simpl. apply Nat.eqb_refl. Qed.

Lemma optNat_eqb_neq (n m : nat) : n <> m -> optNat_eqb (Some n) m = false.
Proof. intros H. simpl. now apply Nat.eqb_neq. Qed.

Lemma errorAt_here (e : ValidationError) (ty : ErrorType) (ln p : nat) :
  e_type e = ty -> e_line e = Some ln -> e_position e = Some p ->
  NoteParser.errorAt ty ln p e = true.
Proof.
  intros Ht Hl Hp. unfold NoteParser.errorAt.
  rewrite Ht, Hl, Hp, !optNat_eqb_refl. now destruct ty.
Qed.

Lemma errorAt_elsewhere (e : ValidationError) (ty : ErrorType) (ln p q : nat) :
  e_position e = Some q -> q <> p -> NoteParser.errorAt ty ln p e = false.
Proof.
  intros Hq Hne. unfold NoteParser.errorAt.
  rewrite Hq, (optNat_eqb_neq q p Hne). apply andb_false_r.
Qed.

(** Every error of [validateNote] is an unsupported-note error at the
    given line and position; every warning is a conversion warning. *)
Lemma validateNote_errors_at (n : string) (p : nat) (e : ValidationError) :
  In e (errors (NoteParser.validateNote cfg n lineNumber p)) ->
  e_type e = UNSUPPORTED_NOTE /\ e_line e = Some lineNumber /\ e_position e = Some p.
Proof.
  unfold NoteParser.validateNote.
  destruct (negb (JS.includes SUPPORTED_NOTES _)); [|intros []].
  destruct (String.eqb (JS.toUpperCase n) "B").
  - destruct (NoteParser.autoConvertB cfg); [intros []|].
    intros [<-|[]]. repeat split.
  - intros [<-|[]]. repeat split.
Qed.

Lemma validateNote_warnings_dropped (n : string) (p : nat) :
  filter (fun w => negb (WarningType_eqb (w_type w) NOTE_CONVERSION))
         (warnings (NoteParser.validateNote cfg n lineNumber p)) = [].
Proof.
  unfold NoteParser.validateNote.
  destruct (negb (JS.includes SUPPORTED_NOTES _)); [|reflexivity].
  destruct (String.eqb (JS.toUpperCase n) "B"); [|reflexivity].
  destruct (NoteParser.autoConvertB cfg); reflexivity.
Qed.

(** The second loop of [validateNoteLine]: no warning is left, and the
    errors at the position of a note are those of its own validation. *)
Lemma parser_loop_spec (notes : list string) :
  forall j,
    snd (NoteParser.validateNotesFrom cfg lineNumber j notes) = []
    /\ (forall i n, nth_error notes i = Some n ->
          filter (NoteParser.errorAt UNSUPPORTED_NOTE lineNumber (j + i + 1))
                 (fst (NoteParser.validateNotesFrom cfg lineNumber j notes))
          = errors (NoteParser.validateNote cfg n lineNumber (j + i + 1)))
    /\ (forall e, In e (fst (NoteParser.validateNotesFrom cfg lineNumber j notes)) ->
          exists i n, nth_error notes i = Some n
                      /\ In e (errors (NoteParser.validateNote cfg n lineNumber
                                         (j + i + 1)))).
Proof.
  induction notes as [|n0 rest IH]; intros j; simpl.
  - split; [reflexivity|]. split.
    + intros [|i] n H; discriminate.
    + intros e [].
  - destruct (IH (S j)) as (Hw & Hpos & Hin).
    destruct (NoteParser.validateNotesFrom cfg lineNumber (S j) rest) as [es ws].
    simpl in *. subst ws.
    rewrite validateNote_warnings_dropped.
    split; [reflexivity|]. split.
    + intros [|i] n Hnth; simpl in Hnth; rewrite filter_app.
      * injection Hnth as ->. rewrite Nat.add_0_r.
        rewrite filter_all.
        2:{ intros e He. destruct (validateNote_errors_at _ _ _ He) as (Ht & Hl & Hp).
            now apply errorAt_here. }
        rewrite filter_none; [apply app_nil_r|].
        intros e He. destruct (Hin e He) as (i & n' & _ & He').
        destruct (validateNote_errors_at _ _ _ He') as (_ & _ & Hp).
        apply (errorAt_elsewhere e _ _ _ _ Hp). lia.
      * rewrite filter_none.
        2:{ intros e He. destruct (validateNote_errors_at _ _ _ He) as (_ & _ & Hp).
            apply (errorAt_elsewhere e _ _ _ _ Hp). lia. }
        replace (j + S i + 1) with (S (j + i + 1)) by lia.
        exact (Hpos i n Hnth).
    + intros e He. apply in_app_or in He as [He|He].
      * exists 0, n0. split; [reflexivity|]. now rewrite Nat.add_0_r.
      * destruct (Hin e He) as (i & n & Hnth & He').
        exists (S i), n. split; [assumption|].
        now replace (j + S i + 1) with (S (j + i + 1)) by lia.
Qed.

Lemma warningAt_here (w : ValidationWarning) (ty : WarningType) (ln p : nat) :
  w_type w = ty -> w_line w = Some ln -> w_position w = Some p ->
  NoteParser.warningAt ty ln p w = true.
Proof.
  intros Ht Hl Hp. unfold NoteParser.warningAt.
  rewrite Ht, Hl, Hp, !optNat_eqb_refl. now destruct ty.
Qed.

Lemma warningAt_elsewhere (w : ValidationWarning) (ty : WarningType) (ln p q : nat) :
  w_position w = Some q -> q <> p -> NoteParser.warningAt ty ln p w = false.
Proof.
  intros Hq Hne. unfold NoteParser.warningAt.
  rewrite Hq, (optNat_eqb_neq q p Hne). apply andb_false_r.
Qed.

Lemma warningAt_other_line (w : ValidationWarning) (ty : WarningType) (ln m p : nat) :
  w_line w = Some m -> m <> ln -> NoteParser.warningAt ty ln p w = false.
Proof.
  intros Hm Hne. unfold NoteParser.warningAt.
  rewrite Hm, (optNat_eqb_neq m ln Hne). now rewrite andb_false_r.
Qed.

Lemma errorAt_other_line (e : ValidationError) (ty : ErrorType) (ln m p : nat) :
  e_line e = Some m -> m <> ln -> NoteParser.errorAt ty ln p e = false.
Proof.
  intros Hm Hne. unfold NoteParser.errorAt.
  rewrite Hm, (optNat_eqb_neq m ln Hne). now rewrite andb_false_r.
Qed.

Lemma errorAt_no_line (e : ValidationError) (ty : ErrorType) (ln p : nat) :
  e_line e = None -> NoteParser.errorAt ty ln p e = false.
Proof.
  intros Hm. unfold NoteParser.errorAt. rewrite Hm. simpl. now rewrite andb_false_r.
Qed.

(** The first loop of [validateNoteLine]: one conversion warning for each
    raw token that is [B] up to case, at its 1-based position, and only
    when conversion is switched on. *)
Lemma conversion_loop_spec (raw : list string) :
  forall j,
    (forall i t, nth_error raw i = Some t -> JS.toUpperCase t = "B" ->
                 NoteParser.autoConvertB cfg = true ->
                 forall ty,
                 filter (NoteParser.warningAt ty lineNumber (j + i + 1))
                        (NoteParser.conversionWarningsFrom cfg lineNumber j raw)
                 = filter (NoteParser.warningAt ty lineNumber (j + i + 1))
                     [mkWarning NOTE_CONVERSION NoteParser.willConvertMessage
                                (Some lineNumber) (Some (j + i + 1))])
    /\ (forall w, In w (NoteParser.conversionWarningsFrom cfg lineNumber j raw) ->
                  NoteParser.autoConvertB cfg = true
                  /\ exists i, w = mkWarning NOTE_CONVERSION NoteParser.willConvertMessage
                                             (Some lineNumber) (Some (j + i + 1))).
Proof.
  induction raw as [|r rest IH]; intros j.
  - split.
    + intros [|i] t H; discriminate.
    + intros w [].
  - destruct (IH (S j)) as (Hpos & Hin).
    assert (Hrest : forall ty w,
               In w (NoteParser.conversionWarningsFrom cfg lineNumber (S j) rest) ->
               NoteParser.warningAt ty lineNumber (j + 1) w = false).
    { intros ty w Hw. destruct (Hin w Hw) as (_ & i & ->).
      apply (warningAt_elsewhere _ _ _ _ (S j + i + 1)); [reflexivity | lia]. }
    split.
    + intros [|i] t Hnth Ht Hon ty; simpl in Hnth.
      * injection Hnth as ->. cbn [NoteParser.conversionWarningsFrom].
        rewrite Nat.add_0_r, Ht, Hon. cbn [String.eqb Ascii.eqb Bool.eqb andb].
        cbn [filter].
        rewrite (filter_none _ _ (Hrest ty)). reflexivity.
      * cbn [NoteParser.conversionWarningsFrom].
        replace (j + S i + 1) with (S j + i + 1) by lia.
        destruct (String.eqb (JS.toUpperCase r) "B" && NoteParser.autoConvertB cfg).
        -- cbn [filter].
           rewrite (warningAt_elsewhere _ ty lineNumber (S j + i + 1) (j + 1));
             [|reflexivity|lia].
           exact (Hpos i t Hnth Ht Hon ty).
        -- exact (Hpos i t Hnth Ht Hon ty).
    + intros w. cbn [NoteParser.conversionWarningsFrom].
      destruct (String.eqb (JS.toUpperCase r) "B" && NoteParser.autoConvertB cfg) eqn:E.
      * intros [<-|Hw].
        -- apply andb_prop in E as [_ Hon]. split; [assumption|].
           exists 0. now rewrite Nat.add_0_r.
        -- destruct (Hin w Hw) as (Hon & i & ->). split; [assumption|].
           exists (S i). do 2 f_equal. lia.
      * intros Hw. destruct (Hin w Hw) as (Hon & i & ->). split; [assumption|].
        exists (S i). do 2 f_equal. lia.
Qed.

(** [validateNoteLine] on a line that is not blank. *)
Lemma validateNoteLine_nonblank (line : string) :
  JS.isEmpty (JS.trim line) = false ->
  let notes := NoteParser.parseNotesFromLine cfg line in
  warnings (NoteParser.validateNoteLine cfg line lineNumber)
  = NoteParser.conversionWarningsFrom cfg lineNumber 0
      (NoteParser.rawNotesOfValidate line)
  /\ errors (NoteParser.validateNoteLine cfg line lineNumber)
     = ((if (Z.of_nat (List.length notes) >? NoteParser.maxNotesPerLine cfg)%Z
         then [mkError PARSING_ERROR
                 (NoteParser.tooManyNotesMessage cfg lineNumber (List.length notes))
                 (Some lineNumber) None
                 (Some ["Split long lines into multiple shorter lines"])]
         else [])
        ++ fst (NoteParser.validateNotesFrom cfg lineNumber 0 notes))%list.
Proof.
  intros Hnb. cbv zeta. unfold NoteParser.validateNoteLine. rewrite Hnb.
  destruct (parser_loop_spec (NoteParser.parseNotesFromLine cfg line) 0) as (Hw & _).
  destruct (NoteParser.validateNotesFrom cfg lineNumber 0
              (NoteParser.parseNotesFromLine cfg line)) as [es2 ws2].
  simpl in Hw. subst ws2. cbn [warnings errors fst].
  now rewrite app_nil_r.
Qed.

(** Every diagnostic of [validateNoteLine] carries the line number. *)
Lemma validateNoteLine_warning_line (line : string) (w : ValidationWarning) :
  In w (warnings (NoteParser.validateNoteLine cfg line lineNumber)) ->
  w_line w = Some lineNumber.
Proof.
  destruct (JS.isEmpty (JS.trim line)) eqn:E.
  - unfold NoteParser.validateNoteLine. rewrite E. intros [<-|[]]. reflexivity.
  - rewrite (proj1 (validateNoteLine_nonblank line E)).
    intros Hw. destruct (proj2 (conversion_loop_spec _ 0) w Hw) as (_ & i & ->).
    reflexivity.
Qed.

Lemma validateNoteLine_error_line (line : string) (e : ValidationError) :
  In e (errors (NoteParser.validateNoteLine cfg line lineNumber)) ->
  e_line e = Some lineNumber.
Proof.
  destruct (JS.isEmpty (JS.trim line)) eqn:E.
  - unfold NoteParser.validateNoteLine. rewrite E. intros [].
  - rewrite (proj2 (validateNoteLine_nonblank line E)).
    intros He. apply in_app_or in He as [He|He].
    + destruct (Z.of_nat _ >? _)%Z; [|destruct He].
      destruct He as [<-|[]]. reflexivity.
    + destruct (proj2 (proj2 (parser_loop_spec _ 0)) e He) as (i & n & _ & He').
      now destruct (validateNote_errors_at _ _ _ He') as (_ & Hl & _).
Qed.

End LineDiagnostics.

(* ================================================================== *)
(** * Diagnostics of a whole text                                      *)
(* ================================================================== *)

Section InputDiagnostics.

Variable cfg : NoteParser.ParseConfig.

(** The loop over the note lines gathers, for the line of index [j + k],
    exactly the diagnostics of [validateNoteLine] at line number
    [j + k + 1]. *)
Lemma lines_loop_spec (ls : list string) :
  forall j,
    let r := NoteParser.validateLinesFrom cfg j ls in
    (forall k line ty p, nth_error ls k = Some line ->
        filter (NoteParser.warningAt ty (j + k + 1) p) (snd r)
        = filter (NoteParser.warningAt ty (j + k + 1) p)
                 (warnings (NoteParser.validateNoteLine cfg line (j + k + 1))))
    /\ (forall k line ty p, nth_error ls k = Some line ->
        filter (NoteParser.errorAt ty (j + k + 1) p) (fst r)
        = filter (NoteParser.errorAt ty (j + k + 1) p)
                 (errors (NoteParser.validateNoteLine cfg line (j + k + 1))))
    /\ (forall w, In w (snd r) ->
        exists k line, nth_error ls k = Some line
          /\ In w (warnings (NoteParser.validateNoteLine cfg line (j + k + 1))))
    /\ (forall e, In e (fst r) ->
        exists k line, nth_error ls k = Some line
          /\ In e (errors (NoteParser.validateNoteLine cfg line (j + k + 1))))
    /\ (forall k line e, nth_error ls k = Some line ->
        In e (errors (NoteParser.validateNoteLine cfg line (j + k + 1))) ->
        In e (fst r)).
Proof.
  induction ls as [|l0 rest IH]; intros j; cbv zeta.
  - repeat split.
    + intros [|k] line ty p H; discriminate.
    + intros [|k] line ty p H; discriminate.
    + intros w [].
    + intros e [].
    + intros [|k] line e H; discriminate.
  - destruct (IH (S j)) as (HW & HE & HWin & HEin & HEsub). cbv zeta in *.
    cbn [NoteParser.validateLinesFrom].
    destruct (NoteParser.validateLinesFrom cfg (S j) rest) as [es ws].
    cbn [fst snd] in *.
    split; [|split; [|split; [|split]]].
    + intros [|k] line ty p Hnth; simpl in Hnth; rewrite filter_app.
      * injection Hnth as ->. rewrite Nat.add_0_r.
        rewrite (filter_none _ ws); [apply app_nil_r|].
        intros w Hw. destruct (HWin w Hw) as (k' & line' & _ & Hw').
        apply (warningAt_other_line w ty _ (S j + k' + 1));
          [exact (validateNoteLine_warning_line cfg _ line' w Hw') | lia].
      * rewrite filter_none.
        2:{ intros w Hw.
            apply (warningAt_other_line w ty _ (j + 1));
              [exact (validateNoteLine_warning_line cfg _ l0 w Hw) | lia]. }
        replace (j + S k + 1) with (S j + k + 1) by lia.
        exact (HW k line ty p Hnth).
    + intros [|k] line ty p Hnth; simpl in Hnth; rewrite filter_app.
      * injection Hnth as ->. rewrite Nat.add_0_r.
        rewrite (filter_none _ es); [apply app_nil_r|].
        intros e He. destruct (HEin e He) as (k' & line' & _ & He').
        apply (errorAt_other_line e ty _ (S j + k' + 1));
          [exact (validateNoteLine_error_line cfg _ line' e He') | lia].
      * rewrite filter_none.
        2:{ intros e He.
            apply (errorAt_other_line e ty _ (j + 1));
              [exact (validateNoteLine_error_line cfg _ l0 e He) | lia]. }
        replace (j + S k + 1) with (S j + k + 1) by lia.
        exact (HE k line ty p Hnth).
    + intros w Hw. apply in_app_or in Hw as [Hw|Hw].
      * exists 0, l0. split; [reflexivity|]. now rewrite Nat.add_0_r.
      * destruct (HWin w Hw) as (k & line & Hnth & Hw').
        exists (S k), line. split; [assumption|].
        now replace (j + S k + 1) with (S j + k + 1) by lia.
    + intros e He. apply in_app_or in He as [He|He].
      * exists 0, l0. split; [reflexivity|]. now rewrite Nat.add_0_r.
      * destruct (HEin e He) as (k & line & Hnth & He').
        exists (S k), line. split; [assumption|].
        now replace (j + S k + 1) with (S j + k + 1) by lia.
    + intros [|k] line e Hnth He; simpl in Hnth; apply in_or_app.
      * injection Hnth as ->. left. now rewrite Nat.add_0_r in He.
      * right. apply (HEsub k line e Hnth).
        now replace (S j + k + 1) with (j + S k + 1) by lia.
Qed.

(** [validateInput] past the empty-input test. *)
Lemma validateInput_not_empty (input : string) :
  JS.isEmpty input || Nat.eqb (String.length (JS.trim input)) 0 = false ->
  let ls := NoteParser.preprocessInput input in
  let r := NoteParser.validateLinesFrom cfg 1 (tl ls) in
  warnings (NoteParser.validateInput cfg input) = snd r
  /\ errors (NoteParser.validateInput cfg input)
     = ((if (List.length ls <? 2)%nat then [NoteParser.missingNotesError] else [])
        ++ (if (Z.of_nat (List.length ls) >? NoteParser.maxLines cfg)%Z
            then [NoteParser.tooManyLinesError cfg (List.length ls)] else [])
        ++ fst r)%list.
Proof.
  intros H. cbv zeta. unfold NoteParser.validateInput. rewrite H.
  destruct (NoteParser.validateLinesFrom cfg 1 (tl (NoteParser.preprocessInput input))).
  split; reflexivity.
Qed.

(** A preprocessed line is trimmed. *)
Lemma preprocessed_line_trimmed (input line : string) (k : nat) :
  nth_error (NoteParser.preprocessInput input) k = Some line ->
  JS.trim line = line.
Proof.
  unfold NoteParser.preprocessInput. intros H.
  apply nth_error_In, in_map_iff in H as (l0 & <- & _).
  apply trim_idempotent.
Qed.

(** The diagnostics of a text at a note line and position are those of
    [validateNoteLine] on that line. *)
Lemma validateInput_at_line (input line : string) (k : nat) :
  nth_error (NoteParser.preprocessInput input) (S k) = Some line ->
  line <> "" ->
  (forall ty p,
      filter (NoteParser.warningAt ty (S k + 1) p)
             (warnings (NoteParser.validateInput cfg input))
      = filter (NoteParser.warningAt ty (S k + 1) p)
               (warnings (NoteParser.validateNoteLine cfg line (S k + 1))))
  /\ (forall ty p,
      filter (NoteParser.errorAt ty (S k + 1) p)
             (errors (NoteParser.validateInput cfg input))
      = filter (NoteParser.errorAt ty (S k + 1) p)
               (errors (NoteParser.validateNoteLine cfg line (S k + 1)))).
Proof.
  intros Hnth Hne.
  assert (Hgo := not_empty_input input line (nth_error_In _ _ Hnth) Hne).
  destruct (validateInput_not_empty input Hgo) as (Hw & He).
  assert (Hnth' : nth_error (tl (NoteParser.preprocessInput input)) k = Some line).
  { destruct (NoteParser.preprocessInput input); [discriminate | exact Hnth]. }
  destruct (lines_loop_spec (tl (NoteParser.preprocessInput input)) 1)
    as (HW & HE & _).
  split; intros ty p.
  - rewrite Hw. exact (HW k line ty p Hnth').
  - rewrite He, !filter_app.
    rewrite (filter_none _ (if (_ <? 2)%nat then _ else _)).
    2:{ intros e He'. destruct (_ <? 2)%nat; [|destruct He'].
        destruct He' as [<-|[]]. now apply errorAt_no_line. }
    rewrite (filter_none _ (if (_ >? _)%Z then _ else _)).
    2:{ intros e He'. destruct (_ >? _)%Z; [|destruct He'].
        destruct He' as [<-|[]]. now apply errorAt_no_line. }
    exact (HE k line ty p Hnth').
Qed.

End InputDiagnostics.

(* ================================================================== *)
(** * The token [B]                                                    *)
(* ================================================================== *)

Lemma convertNotes_off (cfg : NoteParser.ParseConfig) (notes : list string) :
  NoteParser.autoConvertB cfg = false ->
  NoteParser.convertNotes cfg notes = (notes, []).
Proof.
  intros Hoff. induction notes as [|n rest IH]; simpl; [reflexivity|].
  rewrite IH, Hoff, andb_false_r. reflexivity.
Qed.

Lemma errorAt_no_position (e : ValidationError) (ty : ErrorType) (ln p : nat) :
  e_position e = None -> NoteParser.errorAt ty ln p e = false.
Proof.
  intros Hp. unfold NoteParser.errorAt. rewrite Hp. apply andb_false_r.
Qed.

(** With conversion switched off, the only warnings of a line are those
    for blank lines. *)
Lemma validateNoteLine_warnings_off
      (cfg : NoteParser.ParseConfig) (line : string) (ln : nat) (w : ValidationWarning) :
  NoteParser.autoConvertB cfg = false ->
  In w (warnings (NoteParser.validateNoteLine cfg line ln)) ->
  w_type w = EMPTY_LINE.
Proof.
  intros Hoff. destruct (JS.isEmpty (JS.trim line)) eqn:E.
  - unfold NoteParser.validateNoteLine. rewrite E. intros [<-|[]]. reflexivity.
  - rewrite (proj1 (validateNoteLine_nonblank cfg ln line E)).
    intros Hw. destruct (proj2 (conversion_loop_spec cfg ln _ 0) w Hw) as (Hon & _).
    congruence.
Qed.

(** The errors of a non-blank line at the position of its note [i]. *)
Lemma validateNoteLine_errors_at
      (cfg : NoteParser.ParseConfig) (line : string) (ln i : nat) (t : string) :
  JS.isEmpty (JS.trim line) = false ->
  nth_error (NoteParser.rawNotesOfValidate line) i = Some t ->
  filter (NoteParser.errorAt UNSUPPORTED_NOTE ln (i + 1))
         (errors (NoteParser.validateNoteLine cfg line ln))
  = errors (NoteParser.validateNote cfg
              (NoteParser.normalizeCase (NoteParser.convertedNote cfg t)) ln (i + 1)).
Proof.
  intros Hnb Hnth.
  rewrite (proj2 (validateNoteLine_nonblank cfg ln line Hnb)), filter_app.
  rewrite filter_none.
  2:{ intros e He. destruct (Z.of_nat _ >? _)%Z; [|destruct He].
      destruct He as [<-|[]]. now apply errorAt_no_position. }
  assert (Hn : nth_error (NoteParser.parseNotesFromLine cfg line) i
               = Some (NoteParser.normalizeCase (NoteParser.convertedNote cfg t))).
  { rewrite (parseNotesFromLine_tokens cfg line).
    now apply (map_nth_error (fun t => NoteParser.normalizeCase
                                         (NoteParser.convertedNote cfg t))). }
  exact (proj1 (proj2 (parser_loop_spec cfg ln _ 0)) i _ Hn).
Qed.

(** C4.  Let a raw token of a note line be [B] up to case.  With
    [autoConvertB] on, [convertNotes] puts [Bb] in its place, and
    [validateInput] reports exactly one [NOTE_CONVERSION] warning at that
    line and 1-based token position and no [UNSUPPORTED_NOTE] error
    there.  With [autoConvertB] off, [convertNotes] leaves the tokens
    unchanged without a warning, [validateInput] reports no conversion
    warning, and it reports at that line and position one
    [UNSUPPORTED_NOTE] error whose first suggestion is to use [Bb]. *)
Theorem b_token_converted_or_rejected
        (cfg : NoteParser.ParseConfig) (input line t : string) (k i : nat) :
  nth_error (NoteParser.preprocessInput input) (S k) = Some line ->
  nth_error (NoteParser.rawNotesOfValidate line) i = Some t ->
  JS.toUpperCase t = "B" ->
  let v := NoteParser.validateInput cfg input in
  let raw := NoteParser.rawNotesOfValidate line in
  let ln := S k + 1 in
  let p := i + 1 in
  (NoteParser.autoConvertB cfg = true ->
     nth_error (fst (NoteParser.convertNotes cfg raw)) i = Some "Bb"
     /\ filter (NoteParser.warningAt NOTE_CONVERSION ln p) (warnings v)
        = [mkWarning NOTE_CONVERSION NoteParser.willConvertMessage (Some ln) (Some p)]
     /\ filter (NoteParser.errorAt UNSUPPORTED_NOTE ln p) (errors v) = [])
  /\ (NoteParser.autoConvertB cfg = false ->
        NoteParser.convertNotes cfg raw = (raw, [])
        /\ filter NoteParser.isConversion (warnings v) = []
        /\ filter (NoteParser.errorAt UNSUPPORTED_NOTE ln p) (errors v)
           = [mkError UNSUPPORTED_NOTE (NoteParser.unsupportedNoteMessage t ln p)
                      (Some ln) (Some p)
                      (Some ("Use Bb instead of B for 4-hole ocarinas"
                               :: SUPPORTED_NOTES))]).
Proof.
  intros Hline Htok HB. cbv zeta.
  assert (Hne : line <> "") by (intros ->; destruct i; discriminate Htok).
  assert (Hnb : JS.isEmpty (JS.trim line) = false).
  { rewrite (preprocessed_line_trimmed input line (S k) Hline).
    destruct line; [contradiction | reflexivity]. }
  destruct (validateInput_at_line cfg input line k Hline Hne) as (HW & HE).
  split; intros Hmode.
  - split; [|split].
    + rewrite convertNotes_map.
      rewrite (map_nth_error (NoteParser.convertedNote cfg) i _ Htok).
      unfold NoteParser.convertedNote. now rewrite HB, Hmode.
    + rewrite HW, (proj1 (validateNoteLine_nonblank cfg (S k + 1) line Hnb)).
      rewrite (proj1 (conversion_loop_spec cfg (S k + 1) _ 0) i t Htok HB Hmode).
      cbn [filter plus].
      rewrite warningAt_here; reflexivity.
    + rewrite HE, (validateNoteLine_errors_at cfg line (S k + 1) i t Hnb Htok).
      unfold NoteParser.convertedNote. rewrite HB, Hmode. reflexivity.
  - split; [|split].
    + now apply convertNotes_off.
    + apply filter_none. intros w Hw.
      assert (Hgo := not_empty_input input line (nth_error_In _ _ Hline) Hne).
      rewrite (proj1 (validateInput_not_empty cfg input Hgo)) in Hw.
      destruct (proj1 (proj2 (proj2 (lines_loop_spec cfg _ 1))) w Hw)
        as (k' & line' & _ & Hw').
      unfold NoteParser.isConversion.
      now rewrite (validateNoteLine_warnings_off cfg line' _ w Hmode Hw').
    + rewrite HE, (validateNoteLine_errors_at cfg line (S k + 1) i t Hnb Htok).
      unfold NoteParser.convertedNote. rewrite HB, Hmode.
      cbn [String.eqb Ascii.eqb Bool.eqb andb].
      unfold NoteParser.validateNote. rewrite Hmode.
      destruct (toUpperCase_is_B t HB) as [-> | ->]; reflexivity.
Qed.

Lemma b_token_converted_or_rejected_witness :
  filter (NoteParser.warningAt NOTE_CONVERSION 2 3)
         (warnings (NoteParser.validateInput NoteParser.DEFAULT_CONFIG
                      ("Test Song" ++ LF ++ "F G b")))
  = [mkWarning NOTE_CONVERSION NoteParser.willConvertMessage (Some 2) (Some 3)]
  /\ filter (NoteParser.errorAt UNSUPPORTED_NOTE 2 3)
            (errors (NoteParser.validateInput NoteParser.DEFAULT_CONFIG
                       ("Test Song" ++ LF ++ "F G b"))) = [].
Proof.
  destruct (b_token_converted_or_rejected NoteParser.DEFAULT_CONFIG
              ("Test Song" ++ LF ++ "F G b") "F G b" "b" 0 2
              eq_refl eq_refl eq_refl) as (Hon & _).
  destruct (Hon eq_refl) as (_ & Hw & He).
  split; [exact Hw | exact He].
Defined.

(* ================================================================== *)
(** * The song of an accepted text                                     *)
(* ================================================================== *)

Lemma includes_In (xs : list string) (x : string) :
  JS.includes xs x = true -> In x xs.
Proof.
  unfold JS.includes. intros H.
  apply existsb_exists in H as (y & Hy & Heq).
  apply String.eqb_eq in Heq. now subst.
Qed.

Lemma mapString_empty (f : ascii -> ascii) (s : string) :
  JS.mapString f s = "" -> s = "".
Proof. destruct s; [reflexivity | discriminate]. Qed.

(** A note that [validateNote] accepts after the case normalisation of
    [parseNotesFromLine] is one of the seven canonical names. *)
Lemma accepted_note_supported
      (cfg : NoteParser.ParseConfig) (t : string) (ln p : nat) :
  errors (NoteParser.validateNote cfg
            (NoteParser.normalizeCase (NoteParser.convertedNote cfg t)) ln p) = [] ->
  In (NoteParser.normalizeCase (NoteParser.convertedNote cfg t)) SUPPORTED_NOTES.
Proof.
  assert (Hc : NoteParser.autoConvertB cfg = true ->
               JS.toUpperCase (NoteParser.convertedNote cfg t) <> "B").
  { intros Hon. unfold NoteParser.convertedNote. rewrite Hon, andb_true_r.
    destruct (String.eqb_spec (JS.toUpperCase t) "B"); [discriminate | assumption]. }
  revert Hc. generalize (NoteParser.convertedNote cfg t) as c. intros c Hc.
  unfold NoteParser.normalizeCase.
  destruct (String.eqb_spec (JS.toUpperCase c) "BB") as [HBB|HBB]; [simpl; auto 6|].
  destruct (JS.includes SUPPORTED_NOTES (JS.toUpperCase c)) eqn:Eup;
    [intros _; now apply includes_In|].
  unfold NoteParser.validateNote.
  destruct (JS.includes SUPPORTED_NOTES
              (JS.toUpperCase (JS.charAt0 c) ++ JS.toLowerCase (JS.slice1 c))) eqn:Ecap.
  - intros _. exfalso. apply includes_In in Ecap.
    destruct c as [|a r]; [simpl in Ecap; intuition discriminate|].
    change (In (String (JS.upperChar a) (JS.toLowerCase r)) SUPPORTED_NOTES) in Ecap.
    change (JS.toUpperCase (String a r))
      with (String (JS.upperChar a) (JS.toUpperCase r)) in *.
    simpl in Ecap.
    repeat (destruct Ecap as [Ecap | Ecap]; [symmetry in Ecap|]); try contradiction;
      injection Ecap as Ha Hr;
      try (apply mapString_empty in Hr; subst r; rewrite Ha in Eup; discriminate Eup).
    apply toLowerCase_is_b in Hr. apply HBB. rewrite Ha.
    destruct Hr as [-> | ->]; reflexivity.
  - simpl negb. cbv iota.
    destruct (String.eqb_spec (JS.toUpperCase c) "B") as [HB|HB].
    + destruct (NoteParser.autoConvertB cfg) eqn:Hon.
      * exfalso. exact (Hc eq_refl HB).
      * discriminate.
    + discriminate.
Qed.

(** [parseNoteLines] keeps, in order, the notes of the lines that are not
    blank and have a token. *)
Lemma parseNoteLines_filter (cfg : NoteParser.ParseConfig) (ls : list string) :
  NoteParser.parseNoteLines cfg ls
  = filter NoteParser.hasNotes
      (map (NoteParser.parseNotesFromLine cfg)
           (filter (fun l => negb (NoteParser.isBlank l)) ls)).
Proof.
  induction ls as [|l rest IH]; simpl; [reflexivity|].
  unfold NoteParser.isBlank at 1.
  destruct (JS.isEmpty (JS.trim l)); simpl; [exact IH|].
  unfold NoteParser.hasNotes at 1.
  destruct (0 <? List.length (NoteParser.parseNotesFromLine cfg l))%nat;
    now rewrite IH.
Qed.

(** In a text with no validation error, every parsed note is supported. *)
Lemma accepted_lines_supported
      (cfg : NoteParser.ParseConfig) (ls : list string) (j : nat) :
  fst (NoteParser.validateLinesFrom cfg j ls) = [] ->
  forall line n,
    In line ls -> NoteParser.isBlank line = false ->
    In n (NoteParser.parseNotesFromLine cfg line) ->
    In n SUPPORTED_NOTES.
Proof.
  intros Hnone line n Hline Hnb Hn.
  apply In_nth_error in Hline as (k & Hk).
  assert (Herr : errors (NoteParser.validateNoteLine cfg line (j + k + 1)) = []).
  { destruct (errors (NoteParser.validateNoteLine cfg line (j + k + 1))) as [|e es] eqn:E;
      [reflexivity|].
    assert (He : In e (fst (NoteParser.validateLinesFrom cfg j ls))).
    { apply (proj2 (proj2 (proj2 (proj2 (lines_loop_spec cfg ls j)))) k line e Hk).
      rewrite E. now left. }
    rewrite Hnone in He. destruct He. }
  rewrite (proj2 (validateNoteLine_nonblank cfg (j + k + 1) line Hnb)) in Herr.
  apply app_eq_nil in Herr as (_ & Herr).
  apply In_nth_error in Hn as (i & Hi).
  assert (Hacc := proj1 (proj2 (parser_loop_spec cfg (j + k + 1) _ 0)) i n Hi).
  rewrite Herr in Hacc. simpl in Hacc. symmetry in Hacc.
  rewrite parseNotesFromLine_tokens in Hi.
  apply nth_error_In, in_map_iff in Hi as (t & <- & _).
  exact (accepted_note_supported cfg t _ _ Hacc).
Qed.

(** The title is never empty and falls back to the default. *)
Lemma extractTitle_cases (ls : list string) :
  NoteParser.extractTitle ls <> ""
  /\ (JS.trim (hd "" ls) = "" -> NoteParser.extractTitle ls = NoteParser.DEFAULT_TITLE)
  /\ (JS.trim (NoteParser.removeTitlePrefix (JS.trim (hd "" ls))) = "" ->
      NoteParser.extractTitle ls = NoteParser.DEFAULT_TITLE)
  /\ (JS.trim (hd "" ls) <> "" ->
      JS.trim (NoteParser.removeTitlePrefix (JS.trim (hd "" ls))) <> "" ->
      NoteParser.extractTitle ls
      = JS.trim (NoteParser.removeTitlePrefix (JS.trim (hd "" ls)))).
Proof.
  destruct ls as [|first rest]; cbn [hd NoteParser.extractTitle].
  - repeat split; try discriminate. intros H; now elim H.
  - destruct (JS.trim first) as [|a r] eqn:Et; cbn [JS.isEmpty].
    + repeat split; try discriminate. intros H; now elim H.
    + destruct (JS.trim (NoteParser.removeTitlePrefix (String a r))) as [|b q] eqn:Ec;
        cbn [JS.isEmpty].
      * repeat split; try discriminate. intros _ H; now elim H.
      * repeat split; discriminate.
Qed.

(** ** The prefix of the title line *)

Section TitleFacts.

Lemma trim_trimStart (s : string) : JS.trim (JS.trimStart s) = JS.trim s.
Proof.
  unfold JS.trim. now rewrite (trimStart_fixed _ (trimStart_head s)).
Qed.

Lemma upper_of_lower (c : ascii) : JS.upperChar (JS.lowerChar c) = JS.upperChar c.
Proof.
  destruct c as [[|] [|] [|] [|] [|] [|] [|] [|]]; reflexivity.
Qed.

(** A pattern spelled in lower case is matched by the strings that lower to
    it, and by no other. *)
Lemma stripPrefixCI_lowered (pfx rest : string) :
  NoteParser.stripPrefixCI (JS.toLowerCase pfx) (pfx ++ rest) = Some rest.
Proof.
  induction pfx as [|c r IH]; simpl; [reflexivity|].
  now rewrite upper_of_lower, Ascii.eqb_refl.
Qed.

Lemma first_letter_differs (a b : ascii) (p q pfx rest : string) :
  Ascii.eqb (JS.upperChar a) (JS.upperChar b) = false ->
  JS.toLowerCase pfx = String b q ->
  NoteParser.stripPrefixCI (String a p) (pfx ++ rest) = None.
Proof.
  intros Hab Hpfx. destruct pfx as [|c r]; [discriminate Hpfx|].
  simpl in Hpfx. injection Hpfx as Hc _.
  simpl. rewrite <- (upper_of_lower c), Hc, Hab. reflexivity.
Qed.

Lemma stripPrefixCI_inv (p s r : string) :
  NoteParser.stripPrefixCI p s = Some r ->
  exists pfx, s = pfx ++ r /\ JS.toUpperCase pfx = JS.toUpperCase p.
Proof.
  revert s. induction p as [|a p IH]; intros s H; simpl in H.
  - injection H as <-. now exists "".
  - destruct s as [|b s']; [discriminate|].
    destruct (Ascii.eqb (JS.upperChar a) (JS.upperChar b)) eqn:E; [|discriminate].
    apply Ascii.eqb_eq in E. destruct (IH _ H) as (pfx & -> & Hp).
    exists (String b pfx). split; [reflexivity|].
    unfold JS.toUpperCase in *. simpl. now rewrite E, Hp.
Qed.

Lemma lower_of_upper (c : ascii) : JS.lowerChar (JS.upperChar c) = JS.lowerChar c.
Proof.
  destruct c as [[|] [|] [|] [|] [|] [|] [|] [|]]; reflexivity.
Qed.

Lemma toLowerCase_of_upper (s : string) :
  JS.toLowerCase (JS.toUpperCase s) = JS.toLowerCase s.
Proof.
  unfold JS.toLowerCase, JS.toUpperCase.
  induction s as [|c r IH]; simpl; [reflexivity|]. now rewrite lower_of_upper, IH.
Qed.

(** What [replace(/^(title|song|name):\s*/i, '')] does to a title line. *)
Lemma removeTitlePrefix_spec (t : string) :
  (forall pfx rest,
     t = pfx ++ rest -> In (JS.toLowerCase pfx) ParserFacts.TITLE_PREFIXES ->
     NoteParser.removeTitlePrefix t = JS.trimStart rest)
  /\ ((forall pfx rest,
         t = pfx ++ rest -> ~ In (JS.toLowerCase pfx) ParserFacts.TITLE_PREFIXES) ->
      NoteParser.removeTitlePrefix t = t).
Proof.
  split.
  - intros pfx rest -> Hin. unfold NoteParser.removeTitlePrefix.
    destruct Hin as [H | [H | [H | []]]].
    + now rewrite H at 1; rewrite stripPrefixCI_lowered.
    + rewrite (first_letter_differs "t" "s" "itle:" "ong:" pfx rest eq_refl (eq_sym H)).
      now rewrite H at 1; rewrite stripPrefixCI_lowered.
    + rewrite (first_letter_differs "t" "n" "itle:" "ame:" pfx rest eq_refl (eq_sym H)).
      rewrite (first_letter_differs "s" "n" "ong:" "ame:" pfx rest eq_refl (eq_sym H)).
      now rewrite H at 1; rewrite stripPrefixCI_lowered.
  - intros Hnone. unfold NoteParser.removeTitlePrefix.
    assert (Hno : forall p, In p ParserFacts.TITLE_PREFIXES ->
                            NoteParser.stripPrefixCI p t = None).
    { intros p Hp. destruct (NoteParser.stripPrefixCI p t) as [r|] eqn:E; [|reflexivity].
      destruct (stripPrefixCI_inv _ _ _ E) as (pfx & Ht & Hup).
      exfalso. apply (Hnone pfx r Ht).
      rewrite <- toLowerCase_of_upper, Hup, toLowerCase_of_upper.
      simpl in Hp. destruct Hp as [<- | [<- | [<- | []]]]; simpl; auto. }
    rewrite !Hno by (simpl; auto). reflexivity.
Qed.

(** The title [extractTitle] returns, by the shape of the first line. *)
Lemma extractTitle_by_prefix (ls : list string) :
  (forall pfx rest,
     JS.trim (hd "" ls) = pfx ++ rest ->
     In (JS.toLowerCase pfx) ParserFacts.TITLE_PREFIXES ->
     NoteParser.extractTitle ls
     = if JS.isEmpty (JS.trim rest) then "Untitled Song" else JS.trim rest)
  /\ (JS.trim (hd "" ls) <> "" ->
      (forall pfx rest,
         JS.trim (hd "" ls) = pfx ++ rest ->
         ~ In (JS.toLowerCase pfx) ParserFacts.TITLE_PREFIXES) ->
      NoteParser.extractTitle ls = JS.trim (hd "" ls)).
Proof.
  split.
  - intros pfx rest Ht Hin.
    assert (Hpfx : pfx <> "").
    { intros ->. simpl in Hin. destruct Hin as [H | [H | [H | []]]]; discriminate H. }
    destruct ls as [|first others]; cbn [hd NoteParser.extractTitle] in *.
    { destruct pfx; [now elim Hpfx | discriminate Ht]. }
    destruct (JS.isEmpty (JS.trim first)) eqn:E.
    { apply isEmpty_true in E. rewrite E in Ht.
      destruct pfx; [now elim Hpfx | discriminate Ht]. }
    rewrite (proj1 (removeTitlePrefix_spec _) pfx rest Ht Hin), trim_trimStart.
    reflexivity.
  - intros Hne Hnone.
    destruct ls as [|first others]; cbn [hd NoteParser.extractTitle] in *.
    { now elim Hne. }
    destruct (JS.isEmpty (JS.trim first)) eqn:E.
    { apply isEmpty_true in E. now elim Hne. }
    rewrite (proj2 (removeTitlePrefix_spec _) Hnone), trim_idempotent, E.
    reflexivity.
Qed.

End TitleFacts.

(** C2.  When [validateInput] accepts a text, [parseSong] returns a song
    in which every note is one of the seven canonical names, whose lines
    are the notes of the input lines that are not blank (and have a
    token), none of them empty, and whose title is not empty.  The title
    is the default [Untitled Song] when the title line is empty, and when
    it is nothing but one of the prefixes [title:], [song:] or [name:],
    in any letter case.  After such a prefix the title is the trimmed
    rest of the line; without one it is the trimmed line itself. *)
Theorem accepted_song_invariants
        (cfg : NoteParser.ParseConfig) (now : Date) (input : string) :
  isValid (NoteParser.validateInput cfg input) = true ->
  exists song,
    NoteParser.parseSong cfg now input = Returned song
    /\ (forall line n, In line (lines song) -> In n line -> In n SUPPORTED_NOTES)
    /\ lines song
       = filter NoteParser.hasNotes
           (map (NoteParser.parseNotesFromLine cfg)
                (filter (fun l => negb (NoteParser.isBlank l))
                        (tl (NoteParser.preprocessInput input))))
    /\ (forall line, In line (lines song) -> line <> [])
    /\ title song <> ""
    /\ (JS.trim (hd "" (NoteParser.preprocessInput input)) = "" ->
        title song = "Untitled Song")
    /\ (JS.trim (NoteParser.removeTitlePrefix
                   (JS.trim (hd "" (NoteParser.preprocessInput input)))) = "" ->
        title song = "Untitled Song")
    /\ (In (JS.toLowerCase (JS.trim (hd "" (NoteParser.preprocessInput input))))
           ["title:"; "song:"; "name:"] ->
        title song = "Untitled Song")
    /\ (forall pfx rest,
          JS.trim (hd "" (NoteParser.preprocessInput input)) = pfx ++ rest ->
          In (JS.toLowerCase pfx) ["title:"; "song:"; "name:"] ->
          title song
          = if JS.isEmpty (JS.trim rest) then "Untitled Song" else JS.trim rest)
    /\ (JS.trim (hd "" (NoteParser.preprocessInput input)) <> "" ->
        (forall pfx rest,
           JS.trim (hd "" (NoteParser.preprocessInput input)) = pfx ++ rest ->
           ~ In (JS.toLowerCase pfx) ["title:"; "song:"; "name:"]) ->
        title song = JS.trim (hd "" (NoteParser.preprocessInput input))).
Proof.
  intros Hvalid.
  assert (Herrs : errors (NoteParser.validateInput cfg input) = []).
  { rewrite validateInput_isValid in Hvalid.
    destruct (errors (NoteParser.validateInput cfg input)); [reflexivity | discriminate]. }
  assert (Hgo : JS.isEmpty input || Nat.eqb (String.length (JS.trim input)) 0 = false).
  { destruct (JS.isEmpty input || Nat.eqb (String.length (JS.trim input)) 0) eqn:E;
      [|reflexivity].
    unfold NoteParser.validateInput in Hvalid. rewrite E in Hvalid. discriminate. }
  rewrite (proj2 (validateInput_not_empty cfg input Hgo)) in Herrs.
  apply app_eq_nil in Herrs as (_ & Herrs). apply app_eq_nil in Herrs as (_ & Herrs).
  unfold NoteParser.parseSong. rewrite Hvalid. cbn [negb].
  eexists. split; [reflexivity|]. cbn [lines title].
  destruct (extractTitle_cases (NoteParser.preprocessInput input))
    as (Hne & Hdef1 & Hdef2 & _).
  destruct (extractTitle_by_prefix (NoteParser.preprocessInput input))
    as (Hpfx & Hplain).
  rewrite parseNoteLines_filter.
  split; [|split; [reflexivity|split; [|split; [exact Hne|split; [exact Hdef1|
    split; [exact Hdef2|split; [|split; [exact Hpfx|exact Hplain]]]]]]]].
  - intros line n Hline Hn.
    apply filter_In in Hline as (Hline & _).
    apply in_map_iff in Hline as (l & <- & Hl).
    apply filter_In in Hl as (Hl & Hnb). apply negb_true_iff in Hnb.
    exact (accepted_lines_supported cfg _ 1 Herrs l n Hl Hnb Hn).
  - intros line Hline ->.
    apply filter_In in Hline as (_ & Hhas). discriminate Hhas.
  - intros Hin.
    rewrite (Hpfx (JS.trim (hd "" (NoteParser.preprocessInput input))) "").
    + reflexivity.
    + clear. induction (JS.trim _) as [|c r IH]; simpl; [reflexivity | now rewrite <- IH].
    + exact Hin.
Qed.

Lemma accepted_song_invariants_witness :
  exists song,
    NoteParser.parseSong NoteParser.DEFAULT_CONFIG sampleDate
      ("  SoNg:  " ++ LF ++ "f,g|a-bb B" ++ CR ++ LF ++ LF ++ "c D e") = Returned song
    /\ lines song = [["F"; "G"; "A"; "Bb"; "Bb"]; ["C"; "D"; "E"]]
    /\ title song = "Untitled Song".
Proof.
  destruct (accepted_song_invariants NoteParser.DEFAULT_CONFIG sampleDate
              ("  SoNg:  " ++ LF ++ "f,g|a-bb B" ++ CR ++ LF ++ LF ++ "c D e") eq_refl)
    as (song & Hsong & _ & Hlines & _ & _ & _ & _ & Hprefix & _).
  exists song. split; [exact Hsong|]. split.
  - rewrite Hlines. reflexivity.
  - apply Hprefix. vm_compute. auto.
Defined.

(* ================================================================== *)
(** * Further properties of the parser                                 *)
(* ================================================================== *)

Lemma blank_iff_empty_test (input : string) :
  JS.isEmpty input || Nat.eqb (String.length (JS.trim input)) 0 = true
  <-> JS.allString JS.isWhiteSpace input = true.
Proof.
  rewrite <- isEmpty_length. split.
  - intros H. apply orb_prop in H as [H|H].
    + apply isEmpty_true in H. now subst.
    + apply trim_empty_blank. now apply isEmpty_true.
  - intros H. rewrite (blank_trim_empty input H). apply orb_true_r.
Qed.

(** The errors of a note line are parsing errors or unsupported notes. *)
Lemma validateNoteLine_error_kind
      (cfg : NoteParser.ParseConfig) (line : string) (ln : nat) (e : ValidationError) :
  In e (errors (NoteParser.validateNoteLine cfg line ln)) ->
  e_type e = PARSING_ERROR \/ e_type e = UNSUPPORTED_NOTE.
Proof.
  destruct (JS.isEmpty (JS.trim line)) eqn:E.
  - unfold NoteParser.validateNoteLine. rewrite E. intros [].
  - rewrite (proj2 (validateNoteLine_nonblank cfg ln line E)).
    intros He. apply in_app_or in He as [He|He].
    + destruct (Z.of_nat _ >? _)%Z; [|destruct He].
      destruct He as [<-|[]]. now left.
    + destruct (proj2 (proj2 (parser_loop_spec cfg ln _ 0)) e He) as (i & n & _ & He').
      right. now destruct (validateNote_errors_at _ _ _ _ _ He') as (Ht & _).
Qed.

(** X1.  A text made of white space only (the empty text included) gets
    exactly one [EMPTY_INPUT] error and nothing else; a text with any
    other character never gets an [EMPTY_INPUT] error. *)
Theorem empty_input_exactly_for_blank_text
        (cfg : NoteParser.ParseConfig) (input : string) :
  (JS.allString JS.isWhiteSpace input = true ->
   NoteParser.validateInput cfg input
   = mkResult false [NoteParser.emptyInputError] [])
  /\ (JS.allString JS.isWhiteSpace input = false ->
      forall e, In e (errors (NoteParser.validateInput cfg input)) ->
                e_type e <> EMPTY_INPUT).
Proof.
  split.
  - intros H. unfold NoteParser.validateInput.
    now rewrite (proj2 (blank_iff_empty_test input) H).
  - intros H e He.
    assert (Hgo : JS.isEmpty input || Nat.eqb (String.length (JS.trim input)) 0 = false).
    { destruct (JS.isEmpty input || Nat.eqb (String.length (JS.trim input)) 0) eqn:E;
        [|reflexivity].
      apply blank_iff_empty_test in E. congruence. }
    rewrite (proj2 (validateInput_not_empty cfg input Hgo)) in He.
    apply in_app_or in He as [He|He].
    { destruct (_ <? 2)%nat; [|destruct He]. destruct He as [<-|[]]. discriminate. }
    apply in_app_or in He as [He|He].
    { destruct (_ >? _)%Z; [|destruct He]. destruct He as [<-|[]]. discriminate. }
    destruct (proj1 (proj2 (proj2 (proj2 (lines_loop_spec cfg _ 1)))) e He)
      as (k & line & _ & He').
    destruct (validateNoteLine_error_kind cfg line _ e He') as [-> | ->]; discriminate.
Qed.

Lemma empty_input_exactly_for_blank_text_witness :
  NoteParser.validateInput NoteParser.DEFAULT_CONFIG (NBSP ++ "  " ++ LF ++ " " ++ NBSP)
  = mkResult false [NoteParser.emptyInputError] [].
Proof.
  apply (proj1 (empty_input_exactly_for_blank_text NoteParser.DEFAULT_CONFIG
                  (NBSP ++ "  " ++ LF ++ " " ++ NBSP))).
  reflexivity.
Defined.

Lemma consHead_length (c : ascii) (pieces : list string) :
  pieces <> [] -> List.length (JS.consHead c pieces) = List.length pieces.
Proof. destruct pieces; [congruence | reflexivity]. Qed.

Lemma splitLines_length (s : string) :
  List.length (JS.splitLines s) = S (ParserFacts.countLF s).
Proof.
  functional induction (JS.splitLines s); cbn [ParserFacts.countLF List.length].
  - reflexivity.
  - rewrite e0, IHl. reflexivity.
  - rewrite e0. reflexivity.
  - rewrite e0, IHl. cbn [ParserFacts.countLF].
    apply andb_prop in e2 as [_ Hd]. rewrite Hd. reflexivity.
  - rewrite e0, consHead_length, IHl; [reflexivity|].
    intros H. rewrite H in IHl. discriminate.
Qed.

(** X2.  The text has one more line than it has line feeds (a carriage
    return before a line feed does not count); a text without a line feed
    is never valid, and one with a line feed never gets the error about
    the missing note lines. *)
Theorem single_line_text_never_valid
        (cfg : NoteParser.ParseConfig) (input : string) :
  List.length (NoteParser.preprocessInput input) = S (ParserFacts.countLF input)
  /\ (ParserFacts.countLF input = 0 ->
      isValid (NoteParser.validateInput cfg input) = false)
  /\ (ParserFacts.countLF input <> 0 ->
      ~ In NoteParser.missingNotesError (errors (NoteParser.validateInput cfg input))).
Proof.
  assert (Hlen : List.length (NoteParser.preprocessInput input)
                 = S (ParserFacts.countLF input)).
  { unfold NoteParser.preprocessInput. now rewrite length_map, splitLines_length. }
  split; [exact Hlen|]. split.
  - intros H0. unfold NoteParser.validateInput.
    destruct (JS.isEmpty input || Nat.eqb (String.length (JS.trim input)) 0);
      [reflexivity|].
    rewrite Hlen, H0.
    destruct (NoteParser.validateLinesFrom cfg 1 _) as [es ws]. reflexivity.
  - intros Hn He.
    destruct (JS.isEmpty input || Nat.eqb (String.length (JS.trim input)) 0) eqn:Hgo.
    + unfold NoteParser.validateInput in He. rewrite Hgo in He.
      destruct He as [He|[]]. discriminate He.
    + rewrite (proj2 (validateInput_not_empty cfg input Hgo)), Hlen in He.
      replace (S (ParserFacts.countLF input) <? 2)%nat with false in He
        by (symmetry; apply Nat.ltb_ge; lia).
      cbn [app] in He. apply in_app_or in He as [He|He].
      * destruct (_ >? _)%Z; [|destruct He]. destruct He as [He|[]]. discriminate He.
      * destruct (proj1 (proj2 (proj2 (proj2 (lines_loop_spec cfg _ 1)))) _ He)
          as (k & line & _ & He').
        apply validateNoteLine_error_line in He'. discriminate He'.
Qed.

Lemma single_line_text_never_valid_witness :
  isValid (NoteParser.validateInput NoteParser.DEFAULT_CONFIG "F G A Bb C D E") = false.
Proof.
  apply (proj1 (proj2 (single_line_text_never_valid NoteParser.DEFAULT_CONFIG
                         "F G A Bb C D E"))).
  reflexivity.
Defined.

(** ** Which tokens are accepted *)

Lemma upperChar_not_lower_b (c : ascii) : JS.upperChar c <> "b"%char.
Proof.
  destruct c as [[|] [|] [|] [|] [|] [|] [|] [|]]; vm_compute; discriminate.
Qed.

Lemma toUpperCase_not_Bb (s : string) : JS.toUpperCase s <> "Bb".
Proof.
  destruct s as [|a [|b r]]; simpl; try discriminate.
  intros H. injection H as _ Hb _. exact (upperChar_not_lower_b b Hb).
Qed.

(** A token whose capitalised form is supported has a supported upper-case
    form, or is [Bb] up to case. *)
Lemma capitalised_supported (c : string) :
  JS.includes SUPPORTED_NOTES
    (JS.toUpperCase (JS.charAt0 c) ++ JS.toLowerCase (JS.slice1 c)) = true ->
  JS.toUpperCase c = "BB" \/ JS.includes SUPPORTED_NOTES (JS.toUpperCase c) = true.
Proof.
  intros H. apply includes_In in H.
  destruct c as [|a r]; [simpl in H; intuition discriminate|].
  change (In (String (JS.upperChar a) (JS.toLowerCase r)) SUPPORTED_NOTES) in H.
  change (JS.toUpperCase (String a r)) with (String (JS.upperChar a) (JS.toUpperCase r)).
  simpl in H.
  repeat (destruct H as [H | H]; [symmetry in H|]); try contradiction;
    injection H as Ha Hr;
    try (apply mapString_empty in Hr; subst r; rewrite Ha; right; reflexivity).
  left. rewrite Ha. apply toLowerCase_is_b in Hr. destruct Hr as [-> | ->]; reflexivity.
Qed.

Lemma validateNote_rejects (cfg : NoteParser.ParseConfig) (n : string) (ln p : nat) :
  JS.includes SUPPORTED_NOTES
    (JS.toUpperCase (JS.charAt0 n) ++ JS.toLowerCase (JS.slice1 n)) = false ->
  String.eqb (JS.toUpperCase n) "B" && NoteParser.autoConvertB cfg = false ->
  exists sg,
    errors (NoteParser.validateNote cfg n ln p)
    = [mkError UNSUPPORTED_NOTE (NoteParser.unsupportedNoteMessage n ln p)
               (Some ln) (Some p) (Some sg)].
Proof.
  intros Hcap HB. unfold NoteParser.validateNote. rewrite Hcap. cbn [negb].
  destruct (String.eqb (JS.toUpperCase n) "B").
  - simpl in HB. rewrite HB. eexists. reflexivity.
  - eexists. reflexivity.
Qed.

Lemma validateNote_accepts (cfg : NoteParser.ParseConfig) (n : string) (ln p : nat) :
  JS.includes SUPPORTED_NOTES
    (JS.toUpperCase (JS.charAt0 n) ++ JS.toLowerCase (JS.slice1 n)) = true ->
  errors (NoteParser.validateNote cfg n ln p) = [].
Proof.
  intros Hcap. unfold NoteParser.validateNote. now rewrite Hcap.
Qed.

(** The validation of the note made from a raw token reports nothing
    exactly when the token is accepted; otherwise it reports one
    unsupported-note error naming the note, the line and the position. *)
Lemma parsed_note_verdict
      (cfg : NoteParser.ParseConfig) (t : string) (ln p : nat) :
  (ParserFacts.acceptsToken cfg t = true
   /\ errors (NoteParser.validateNote cfg (ParserFacts.parsedNote cfg t) ln p) = [])
  \/ (ParserFacts.acceptsToken cfg t = false
      /\ exists sg,
          errors (NoteParser.validateNote cfg (ParserFacts.parsedNote cfg t) ln p)
          = [mkError UNSUPPORTED_NOTE
               (NoteParser.unsupportedNoteMessage (ParserFacts.parsedNote cfg t) ln p)
               (Some ln) (Some p) (Some sg)]).
Proof.
  unfold ParserFacts.acceptsToken, ParserFacts.isB, ParserFacts.parsedNote,
    NoteParser.convertedNote.
  destruct (String.eqb (JS.toUpperCase t) "B" && NoteParser.autoConvertB cfg) eqn:Hc.
  - left. split; [apply orb_true_r | reflexivity].
  - rewrite orb_false_r. unfold NoteParser.normalizeCase.
    destruct (String.eqb_spec (JS.toUpperCase t) "BB") as [HBB|HBB].
    + left. rewrite HBB. split; reflexivity.
    + destruct (JS.includes SUPPORTED_NOTES (JS.toUpperCase t)) eqn:Eup.
      * left. apply includes_In in Eup. simpl in Eup.
        repeat (destruct Eup as [Eup | Eup]; [symmetry in Eup|]); try contradiction;
          try (rewrite Eup; split; reflexivity).
        exfalso. exact (toUpperCase_not_Bb t Eup).
      * right. split.
        -- destruct (JS.includes ParserFacts.UPPER_NAMES (JS.toUpperCase t)) eqn:Eu;
             [|reflexivity].
           apply includes_In in Eu. simpl in Eu.
           repeat (destruct Eu as [Eu | Eu]; [symmetry in Eu|]); try contradiction;
             try (rewrite Eu in Eup; discriminate Eup).
        -- apply validateNote_rejects; [|exact Hc].
           destruct (JS.includes SUPPORTED_NOTES
                       (JS.toUpperCase (JS.charAt0 t) ++ JS.toLowerCase (JS.slice1 t)))
                    eqn:Ecap; [|reflexivity].
           destruct (capitalised_supported t Ecap); congruence.
Qed.

Lemma parsed_notes_nth (cfg : NoteParser.ParseConfig) (line : string) (i : nat) (n : string) :
  nth_error (NoteParser.parseNotesFromLine cfg line) i = Some n ->
  exists t, nth_error (NoteParser.rawNotesOfValidate line) i = Some t
            /\ n = ParserFacts.parsedNote cfg t.
Proof.
  rewrite parseNotesFromLine_tokens, nth_error_map.
  destruct (nth_error (NoteParser.rawNotesOfValidate line) i) as [t|]; simpl;
    [|discriminate].
  intros H. injection H as <-. now exists t.
Qed.

Lemma trimmed_nonblank (line : string) :
  JS.trim line = line -> line <> "" -> JS.isEmpty (JS.trim line) = false.
Proof. intros -> H. destruct line; [contradiction | reflexivity]. Qed.

Lemma nonblank_nonempty (line : string) :
  JS.isEmpty (JS.trim line) = false -> line <> "".
Proof. intros H ->. discriminate H. Qed.

(** The errors of a line that is not blank. *)
Lemma line_errors_spec (cfg : NoteParser.ParseConfig) (line : string) (ln : nat) :
  JS.isEmpty (JS.trim line) = false ->
  let raw := NoteParser.rawNotesOfValidate line in
  (forall e, In e (errors (NoteParser.validateNoteLine cfg line ln)) ->
             e_type e = UNSUPPORTED_NOTE ->
             exists i t, nth_error raw i = Some t
                         /\ ParserFacts.acceptsToken cfg t = false
                         /\ e_line e = Some ln /\ e_position e = Some (i + 1)
                         /\ e_message e
                            = NoteParser.unsupportedNoteMessage
                                (ParserFacts.parsedNote cfg t) ln (i + 1))
  /\ (errors (NoteParser.validateNoteLine cfg line ln) = []
      <-> (Z.of_nat (List.length raw) <= NoteParser.maxNotesPerLine cfg)%Z
          /\ Forall (fun t => ParserFacts.acceptsToken cfg t = true) raw).
Proof.
  intros Hnb. cbv zeta.
  rewrite (proj2 (validateNoteLine_nonblank cfg ln line Hnb)).
  destruct (parser_loop_spec cfg ln (NoteParser.parseNotesFromLine cfg line) 0)
    as (_ & Hpos & Hin).
  assert (Hlen : List.length (NoteParser.parseNotesFromLine cfg line)
                 = List.length (NoteParser.rawNotesOfValidate line)).
  { now rewrite parseNotesFromLine_tokens, length_map. }
  rewrite Hlen. split.
  - intros e He Hty. apply in_app_or in He as [He|He].
    { destruct (_ >? _)%Z; [|destruct He]. destruct He as [<-|[]]. discriminate Hty. }
    destruct (Hin e He) as (i & n & Hnth & He').
    destruct (parsed_notes_nth cfg line i n Hnth) as (t & Ht & ->).
    exists i, t. split; [exact Ht|].
    destruct (parsed_note_verdict cfg t ln (0 + i + 1)) as [(_ & Hnone)|(Hrej & sg & Hone)].
    + rewrite Hnone in He'. destruct He'.
    + rewrite Hone in He'. destruct He' as [<-|[]]. repeat split; assumption.
  - split.
    + intros Hnil. apply app_eq_nil in Hnil as (H1 & H2). split.
      * destruct (Z.of_nat _ >? _)%Z eqn:E; [discriminate H1|].
        rewrite Z.gtb_ltb in E. now apply Z.ltb_ge.
      * apply Forall_forall. intros t Ht. apply In_nth_error in Ht as (i & Hi).
        assert (Hn : nth_error (NoteParser.parseNotesFromLine cfg line) i
                     = Some (ParserFacts.parsedNote cfg t)).
        { rewrite parseNotesFromLine_tokens.
          now apply (map_nth_error (fun t => NoteParser.normalizeCase
                                               (NoteParser.convertedNote cfg t))). }
        assert (Hacc := Hpos i _ Hn). rewrite H2 in Hacc. simpl in Hacc.
        destruct (parsed_note_verdict cfg t ln (i + 1)) as [(Hok & _)|(_ & sg & Hone)];
          [exact Hok|].
        rewrite Hone in Hacc. discriminate Hacc.
    + intros (Hcount & Hall).
      replace (Z.of_nat _ >? _)%Z with false
        by (symmetry; rewrite Z.gtb_ltb; now apply Z.ltb_ge).
      cbn [app].
      destruct (fst (NoteParser.validateNotesFrom cfg ln 0 _)) as [|e es] eqn:E;
        [reflexivity|]. exfalso.
      destruct (Hin e (or_introl eq_refl)) as (i & n & Hnth & He').
      destruct (parsed_notes_nth cfg line i n Hnth) as (t & Ht & ->).
      assert (Hok := proj1 (Forall_forall _ _) Hall t (nth_error_In _ _ Ht)).
      destruct (parsed_note_verdict cfg t ln (0 + i + 1)) as [(_ & Hnone)|(Hrej & _)].
      * rewrite Hnone in He'. destruct He'.
      * congruence.
Qed.

(** X3.  A text is valid exactly when it is not blank, has at least two
    lines and at most [maxLines], and every note line that is not blank
    has at most [maxNotesPerLine] tokens, each of them a supported name
    in any case, or [B] in any case when [autoConvertB] is on. *)
Theorem valid_text_characterised (cfg : NoteParser.ParseConfig) (input : string) :
  let ls := NoteParser.preprocessInput input in
  isValid (NoteParser.validateInput cfg input) = true
  <-> JS.allString JS.isWhiteSpace input = false
      /\ 2 <= List.length ls
      /\ (Z.of_nat (List.length ls) <= NoteParser.maxLines cfg)%Z
      /\ (forall line, In line (tl ls) -> line <> "" ->
            (Z.of_nat (List.length (NoteParser.rawNotesOfValidate line))
             <= NoteParser.maxNotesPerLine cfg)%Z
            /\ Forall (fun t => ParserFacts.acceptsToken cfg t = true)
                      (NoteParser.rawNotesOfValidate line)).
Proof.
  cbv zeta. rewrite validateInput_isValid.
  assert (Htrim : forall line, In line (tl (NoteParser.preprocessInput input)) ->
                               JS.trim line = line).
  { intros line Hl.
    assert (Hl' : In line (NoteParser.preprocessInput input))
      by (destruct (NoteParser.preprocessInput input); [destruct Hl | now right]).
    apply In_nth_error in Hl' as (k & Hk).
    exact (preprocessed_line_trimmed input line k Hk). }
  destruct (JS.isEmpty input || Nat.eqb (String.length (JS.trim input)) 0) eqn:Hgo.
  - assert (Hb := proj1 (blank_iff_empty_test input) Hgo).
    unfold NoteParser.validateInput. rewrite Hgo. cbn [errors List.length Nat.eqb].
    split; [discriminate | intros (H & _); congruence].
  - assert (Hb : JS.allString JS.isWhiteSpace input = false).
    { destruct (JS.allString JS.isWhiteSpace input) eqn:E; [|reflexivity].
      apply blank_iff_empty_test in E. congruence. }
    rewrite (proj2 (validateInput_not_empty cfg input Hgo)).
    destruct (lines_loop_spec cfg (tl (NoteParser.preprocessInput input)) 1)
      as (_ & _ & _ & HEin & HEsub). cbv zeta in HEin, HEsub.
    split.
    + intros Hnil. apply Nat.eqb_eq, length_zero_iff_nil in Hnil.
      apply app_eq_nil in Hnil as (H1 & Hnil). apply app_eq_nil in Hnil as (H2 & H3).
      split; [exact Hb|]. split; [|split].
      * destruct (_ <? 2)%nat eqn:E; [discriminate H1|]. now apply Nat.ltb_ge.
      * destruct (_ >? _)%Z eqn:E; [discriminate H2|].
        rewrite Z.gtb_ltb in E. now apply Z.ltb_ge.
      * intros line Hl Hne.
        assert (Hnb := trimmed_nonblank line (Htrim line Hl) Hne).
        apply In_nth_error in Hl as (k & Hk).
        apply (proj2 (line_errors_spec cfg line (1 + k + 1) Hnb)).
        destruct (errors (NoteParser.validateNoteLine cfg line (1 + k + 1)))
          as [|e es] eqn:E; [reflexivity|].
        assert (He := HEsub k line e Hk). rewrite E, H3 in He.
        destruct (He (or_introl eq_refl)).
    + intros (_ & Hmin & Hmax & Hlines).
      replace (_ <? 2)%nat with false by (symmetry; now apply Nat.ltb_ge).
      replace (_ >? _)%Z with false
        by (symmetry; rewrite Z.gtb_ltb; now apply Z.ltb_ge).
      cbn [app].
      destruct (fst (NoteParser.validateLinesFrom cfg 1 _)) as [|e es] eqn:E;
        [reflexivity|]. exfalso.
      destruct (HEin e (or_introl eq_refl)) as (k & line & Hk & He).
      destruct (JS.isEmpty (JS.trim line)) eqn:Hnb.
      * unfold NoteParser.validateNoteLine in He. rewrite Hnb in He. destruct He.
      * assert (Hok := Hlines line (nth_error_In _ _ Hk) (nonblank_nonempty line Hnb)).
        apply (proj2 (line_errors_spec cfg line (1 + k + 1) Hnb)) in Hok.
        rewrite Hok in He. destruct He.
Qed.

Lemma valid_text_characterised_witness :
  isValid (NoteParser.validateInput NoteParser.DEFAULT_CONFIG
             ("Tune" ++ LF ++ "f,G  bb" ++ LF ++ LF ++ "B-c")) = true.
Proof.
  apply (proj2 (valid_text_characterised NoteParser.DEFAULT_CONFIG
                  ("Tune" ++ LF ++ "f,G  bb" ++ LF ++ LF ++ "B-c"))).
  split; [reflexivity|]. split; [simpl; lia|]. split; [simpl; lia|].
  intros line Hl Hne. simpl in Hl.
  destruct Hl as [<-|[<-|[<-|[]]]]; try contradiction;
    (split; [simpl; lia | repeat constructor]).
Defined.

(** X4.  Every unsupported-note error of [validateInput] points at a raw
    token that is not accepted: its line is the 1-based number of the
    token's line, its position the 1-based index of the token, and its
    message names the note made from the token.  Conversely every token
    that is not accepted gets exactly one such error. *)
Theorem unsupported_errors_point_at_tokens
        (cfg : NoteParser.ParseConfig) (input : string) :
  let ls := NoteParser.preprocessInput input in
  let v := NoteParser.validateInput cfg input in
  (forall e, In e (errors v) -> e_type e = UNSUPPORTED_NOTE ->
     exists k line i t,
       nth_error ls (S k) = Some line
       /\ nth_error (NoteParser.rawNotesOfValidate line) i = Some t
       /\ ParserFacts.acceptsToken cfg t = false
       /\ e_line e = Some (S k + 1) /\ e_position e = Some (i + 1)
       /\ e_message e
          = NoteParser.unsupportedNoteMessage (ParserFacts.parsedNote cfg t)
              (S k + 1) (i + 1))
  /\ (forall k line i t,
        nth_error ls (S k) = Some line ->
        nth_error (NoteParser.rawNotesOfValidate line) i = Some t ->
        ParserFacts.acceptsToken cfg t = false ->
        exists sg,
          filter (NoteParser.errorAt UNSUPPORTED_NOTE (S k + 1) (i + 1)) (errors v)
          = [mkError UNSUPPORTED_NOTE
               (NoteParser.unsupportedNoteMessage (ParserFacts.parsedNote cfg t)
                  (S k + 1) (i + 1))
               (Some (S k + 1)) (Some (i + 1)) (Some sg)]).
Proof.
  cbv zeta. split.
  - intros e He Hty.
    destruct (JS.isEmpty input || Nat.eqb (String.length (JS.trim input)) 0) eqn:Hgo.
    { unfold NoteParser.validateInput in He. rewrite Hgo in He.
      destruct He as [<-|[]]. discriminate Hty. }
    rewrite (proj2 (validateInput_not_empty cfg input Hgo)) in He.
    apply in_app_or in He as [He|He].
    { destruct (_ <? 2)%nat; [|destruct He]. destruct He as [<-|[]]. discriminate Hty. }
    apply in_app_or in He as [He|He].
    { destruct (_ >? _)%Z; [|destruct He]. destruct He as [<-|[]]. discriminate Hty. }
    destruct (proj1 (proj2 (proj2 (proj2 (lines_loop_spec cfg _ 1)))) e He)
      as (k & line & Hk & He').
    destruct (JS.isEmpty (JS.trim line)) eqn:Hnb.
    { unfold NoteParser.validateNoteLine in He'. rewrite Hnb in He'. destruct He'. }
    destruct (proj1 (line_errors_spec cfg line (1 + k + 1) Hnb) e He' Hty)
      as (i & t & Ht & Hrej & Hl & Hp & Hm).
    exists k, line, i, t.
    assert (Hk' : nth_error (NoteParser.preprocessInput input) (S k) = Some line).
    { destruct (NoteParser.preprocessInput input); [destruct k; discriminate Hk|exact Hk]. }
    repeat split; assumption.
  - intros k line i t Hk Ht Hrej.
    assert (Hne : line <> "") by (intros ->; destruct i; discriminate Ht).
    assert (Hnb := trimmed_nonblank line (preprocessed_line_trimmed input line (S k) Hk) Hne).
    rewrite (proj2 (validateInput_at_line cfg input line k Hk Hne)).
    rewrite (validateNoteLine_errors_at cfg line (S k + 1) i t Hnb Ht).
    destruct (parsed_note_verdict cfg t (S k + 1) (i + 1)) as [(Hok & _)|(_ & sg & Hone)];
      [congruence|].
    exists sg. exact Hone.
Qed.

Lemma unsupported_errors_point_at_tokens_witness :
  exists sg,
    filter (NoteParser.errorAt UNSUPPORTED_NOTE 2 3)
           (errors (NoteParser.validateInput NoteParser.DEFAULT_CONFIG
                      ("Test" ++ LF ++ "F G x A Y")))
    = [mkError UNSUPPORTED_NOTE "Unsupported note 'x' at line 2, position 3"
               (Some 2) (Some 3) (Some sg)].
Proof.
  exact (proj2 (unsupported_errors_point_at_tokens NoteParser.DEFAULT_CONFIG
                  ("Test" ++ LF ++ "F G x A Y"))
               0 "F G x A Y" 2 "x" eq_refl eq_refl eq_refl).
Defined.

(* ================================================================== *)
(** * Further properties of the fingering engine                       *)
(* ================================================================== *)

Lemma isSupported_normalized (n : string) :
  FingeringEngine.isSupported (FingeringEngine.normalizeNote n)
  = FingeringEngine.isSupported n.
Proof.
  unfold FingeringEngine.isSupported, FingeringEngine.normalizeNote.
  now rewrite trim_idempotent.
Qed.

(** The pattern found for a trimmed supported name. *)
Lemma lookup_supported (t : string) :
  In t SUPPORTED_NOTES ->
  exists p, FingeringEngine.lookup t FingeringEngine.FINGERING_PATTERNS = Some p
            /\ note p = t /\ List.length (holes p) = 4.
Proof.
  simpl. intros H.
  repeat (destruct H as [<- | H]; [eexists; repeat split; reflexivity|]).
  destruct H.
Qed.

(** X5.  [getPattern] finds a pattern exactly for the notes [isSupported]
    accepts; the pattern found is the one named by the trimmed note and
    has four holes; [getPatterns] answers position by position. *)
Theorem getPattern_defined_iff_supported (n : string) :
  (FingeringEngine.getPattern n = None <-> FingeringEngine.isSupported n = false)
  /\ (forall p, FingeringEngine.getPattern n = Some p ->
        FingeringEngine.isSupported n = true
        /\ note p = JS.trim n
        /\ In (JS.trim n) SUPPORTED_NOTES
        /\ List.length (holes p) = 4)
  /\ (forall notes i,
        nth_error (FingeringEngine.getPatterns notes) i
        = option_map FingeringEngine.getPattern (nth_error notes i)).
Proof.
  unfold FingeringEngine.getPattern. rewrite isSupported_normalized.
  destruct (FingeringEngine.isSupported n) eqn:E; cbn [negb].
  - assert (Hin : In (JS.trim n) SUPPORTED_NOTES) by (apply includes_In; exact E).
    destruct (lookup_supported _ Hin) as (p & Hp & Hnote & Hlen).
    unfold FingeringEngine.normalizeNote. rewrite Hp.
    split; [split; discriminate|]. split.
    + intros q Hq. injection Hq as <-. repeat split; assumption.
    + intros notes i. unfold FingeringEngine.getPatterns. apply nth_error_map.
  - split; [split; reflexivity|]. split.
    + discriminate.
    + intros notes i. unfold FingeringEngine.getPatterns. apply nth_error_map.
Qed.

Lemma getPattern_defined_iff_supported_witness :
  FingeringEngine.isSupported " toString " = false.
Proof.
  apply (proj1 (proj1 (getPattern_defined_iff_supported " toString "))).
  reflexivity.
Defined.


Lemma inherited_unsupported (n : string) :
  EngineFacts.isInherited n = true -> FingeringEngine.isSupported n = false.
Proof.
  unfold EngineFacts.isInherited, FingeringEngine.isSupported,
    FingeringEngine.normalizeNote.
  intros H. apply includes_In in H. simpl in H.
  repeat (destruct H as [<- | H]; [reflexivity|]). destruct H.
Qed.

Lemma getSuggestions_throws (t : string) :
  JS.includes FingeringEngine.objectPrototypeMembers t = true ->
  FingeringEngine.getSuggestions t = Thrown TypeError.
Proof.
  intros H. apply includes_In in H. simpl in H.
  repeat (destruct H as [<- | H]; [reflexivity|]). destruct H.
Qed.

Lemma getSuggestions_only_TypeError (t : string) (e : Exception) :
  FingeringEngine.getSuggestions t = Thrown e -> e = TypeError.
Proof.
  unfold FingeringEngine.getSuggestions.
  destruct (FingeringEngine.readNoteMap t); intros H; try discriminate H.
  now injection H.
Qed.

Lemma engine_loop_throws (notes : list string) :
  forall k,
    Exists (fun n => EngineFacts.isInherited n = true) notes ->
    FingeringEngine.validateNotesFrom k notes = Thrown TypeError.
Proof.
  induction notes as [|n0 rest IH]; intros k Hex; [inversion Hex|].
  cbn [FingeringEngine.validateNotesFrom]. rewrite isSupported_normalized.
  inversion Hex as [? ? H0|? ? Hrest]; subst.
  - rewrite (inherited_unsupported n0 H0). cbn [negb].
    now rewrite (getSuggestions_throws _ H0).
  - rewrite (IH (S k) Hrest).
    destruct (negb (FingeringEngine.isSupported n0)); [|reflexivity].
    destruct (FingeringEngine.getSuggestions _) as [sg|e] eqn:E; [reflexivity|].
    now rewrite (getSuggestions_only_TypeError _ e E).
Qed.

Lemma inherited_or_not (notes : list string) :
  Forall FingeringEngine.notInherited notes
  \/ Exists (fun n => EngineFacts.isInherited n = true) notes.
Proof.
  induction notes as [|n rest [IH|IH]].
  - left. constructor.
  - destruct (EngineFacts.isInherited n) eqn:E.
    + right. now left.
    + left. constructor; assumption.
  - right. now right.
Qed.

(** X6.  [validateNotes] throws exactly when some trimmed note names an
    inherited member of [Object.prototype], and then it throws a
    [TypeError]; when it returns, the result is valid exactly when every
    note is supported, and it has one error per unsupported note. *)
Theorem validateNotes_throws_or_counts (notes : list string) :
  (FingeringEngine.validateNotes notes = Thrown TypeError
   <-> Exists (fun n => EngineFacts.isInherited n = true) notes)
  /\ (forall e, FingeringEngine.validateNotes notes = Thrown e -> e = TypeError)
  /\ (forall r, FingeringEngine.validateNotes notes = Returned r ->
        (isValid r = true <-> Forall (fun n => FingeringEngine.isSupported n = true) notes)
        /\ List.length (errors r)
           = List.length (filter (fun n => negb (FingeringEngine.isSupported n)) notes)).
Proof.
  assert (Hcount : forall ns k es,
             FingeringEngine.validateNotesFrom k ns = Returned es ->
             List.length es
             = List.length (filter (fun n => negb (FingeringEngine.isSupported n)) ns)).
  { induction ns as [|n0 rest IH]; intros k es H.
    - injection H as <-. reflexivity.
    - cbn [FingeringEngine.validateNotesFrom filter] in *.
      rewrite isSupported_normalized in H.
      destruct (negb (FingeringEngine.isSupported n0)).
      + destruct (FingeringEngine.getSuggestions _); [|discriminate H].
        destruct (FingeringEngine.validateNotesFrom (S k) rest) as [es'|] eqn:E;
          [|discriminate H].
        injection H as <-. simpl. f_equal. exact (IH (S k) es' E).
      + exact (IH (S k) es H). }
  unfold FingeringEngine.validateNotes.
  destruct (inherited_or_not notes) as [Hall|Hex].
  - destruct (engine_loop_spec notes 0 Hall) as (es & Hes & _ & _).
    rewrite Hes. split; [|split].
    + split; [discriminate|]. intros Hex. exfalso.
      apply Exists_exists in Hex as (n & Hn & Hi).
      assert (Hni := proj1 (Forall_forall _ _) Hall n Hn).
      unfold FingeringEngine.notInherited, EngineFacts.isInherited in *. congruence.
    + discriminate.
    + intros r Hr. injection Hr as <-. cbn [isValid errors].
      rewrite (Hcount notes 0 es Hes). split; [|reflexivity].
      rewrite Nat.eqb_eq, length_zero_iff_nil. split.
      * intros Hnil. apply Forall_forall. intros n Hn.
        destruct (FingeringEngine.isSupported n) eqn:E; [reflexivity|].
        assert (Hf : In n (filter (fun n => negb (FingeringEngine.isSupported n)) notes))
          by (apply filter_In; split; [exact Hn | now rewrite E]).
        rewrite Hnil in Hf. destruct Hf.
      * intros Hsup. apply filter_none. intros n Hn.
        now rewrite (proj1 (Forall_forall _ _) Hsup n Hn).
  - rewrite (engine_loop_throws notes 0 Hex). split; [|split].
    + split; [intros _; exact Hex | reflexivity].
    + intros e He. now injection He.
    + discriminate.
Qed.

Lemma validateNotes_throws_or_counts_witness :
  FingeringEngine.validateNotes ["F"; " valueOf "; "G"] = Thrown TypeError.
Proof.
  apply (proj1 (validateNotes_throws_or_counts ["F"; " valueOf "; "G"])).
  right. left. reflexivity.
Defined.

(* ================================================================== *)
(** * From the parser to the fingering engine and the preview          *)
(* ================================================================== *)

Lemma parseSong_returned
      (cfg : NoteParser.ParseConfig) (now : Date) (input : string) (song : Song) :
  NoteParser.parseSong cfg now input = Returned song ->
  isValid (NoteParser.validateInput cfg input) = true
  /\ lines song
     = NoteParser.parseNoteLines cfg (tl (NoteParser.preprocessInput input))
  /\ title song = NoteParser.extractTitle (NoteParser.preprocessInput input)
  /\ metadata song
     = Some (mkMetadata input now (List.length (List.concat (lines song)))).
Proof.
  unfold NoteParser.parseSong.
  destruct (isValid (NoteParser.validateInput cfg input)); cbn [negb];
    [|discriminate].
  intros H. injection H as <-. repeat split.
Qed.

Lemma returned_song_notes_supported
      (cfg : NoteParser.ParseConfig) (now : Date) (input : string) (song : Song) :
  NoteParser.parseSong cfg now input = Returned song ->
  forall line n, In line (lines song) -> In n line -> In n SUPPORTED_NOTES.
Proof.
  intros Hsong line n Hline Hn.
  destruct (parseSong_returned cfg now input song Hsong) as (Hvalid & Hlines & _).
  assert (Hgo : JS.isEmpty input || Nat.eqb (String.length (JS.trim input)) 0 = false).
  { destruct (JS.isEmpty input || Nat.eqb (String.length (JS.trim input)) 0) eqn:E;
      [|reflexivity].
    unfold NoteParser.validateInput in Hvalid. rewrite E in Hvalid. discriminate. }
  rewrite validateInput_isValid in Hvalid.
  apply Nat.eqb_eq, length_zero_iff_nil in Hvalid.
  rewrite (proj2 (validateInput_not_empty cfg input Hgo)) in Hvalid.
  apply app_eq_nil in Hvalid as (_ & Hvalid). apply app_eq_nil in Hvalid as (_ & Herr).
  rewrite Hlines, parseNoteLines_filter in Hline.
  apply filter_In in Hline as (Hline & _).
  apply in_map_iff in Hline as (l & <- & Hl).
  apply filter_In in Hl as (Hl & Hnb). apply negb_true_iff in Hnb.
  exact (accepted_lines_supported cfg _ 1 Herr l n Hl Hnb Hn).
Qed.

Lemma supported_trimmed (n : string) : In n SUPPORTED_NOTES -> JS.trim n = n.
Proof.
  simpl. intros H.
  repeat (destruct H as [<- | H]; [reflexivity|]). destruct H.
Qed.

Lemma getPattern_supported (n : string) :
  In n SUPPORTED_NOTES ->
  exists p, FingeringEngine.getPattern n = Some p
            /\ note p = n /\ List.length (holes p) = 4.
Proof.
  simpl. intros H.
  repeat (destruct H as [<- | H]; [eexists; repeat split; reflexivity|]).
  destruct H.
Qed.

(** X7.  Every note of a song returned by [parseSong] has a fingering
    pattern: [getPattern] finds the pattern of that very name, with four
    holes, and [validateNotes] accepts every line of the song. *)
Theorem parsed_song_has_patterns
        (cfg : NoteParser.ParseConfig) (now : Date) (input : string) (song : Song) :
  NoteParser.parseSong cfg now input = Returned song ->
  (forall line n, In line (lines song) -> In n line ->
     exists p, FingeringEngine.getPattern n = Some p
               /\ note p = n /\ List.length (holes p) = 4)
  /\ (forall line, In line (lines song) ->
        FingeringEngine.validateNotes line = Returned (mkResult true [] [])).
Proof.
  intros Hsong.
  assert (Hsup := returned_song_notes_supported cfg now input song Hsong).
  split.
  - intros line n Hline Hn. apply getPattern_supported. exact (Hsup line n Hline Hn).
  - intros line Hline.
    assert (Hall : forall n, In n line -> FingeringEngine.isSupported n = true).
    { intros n Hn. assert (H := Hsup line n Hline Hn). simpl in H.
      repeat (destruct H as [<- | H]; [reflexivity|]). destruct H. }
    unfold FingeringEngine.validateNotes.
    assert (Hloop : forall k, FingeringEngine.validateNotesFrom k line = Returned []).
    { clear Hline. induction line as [|n0 rest IH]; intros k; [reflexivity|].
      cbn [FingeringEngine.validateNotesFrom].
      rewrite isSupported_normalized, (Hall n0 (or_introl eq_refl)). cbn [negb].
      apply IH. intros n Hn. apply Hall. now right. }
    rewrite Hloop. reflexivity.
Qed.

Lemma parsed_song_has_patterns_witness :
  FingeringEngine.validateNotes ["F"; "Bb"; "C"] = Returned (mkResult true [] []).
Proof.
  apply (proj2 (parsed_song_has_patterns NoteParser.DEFAULT_CONFIG sampleDate
                  ("T" ++ LF ++ "f b c")
                  (mkSong "T" [["F"; "Bb"; "C"]]
                          (Some (mkMetadata ("T" ++ LF ++ "f b c") sampleDate 3)))
                  eq_refl)).
  simpl. auto.
Defined.

(** ** The pattern map built by the preview *)

Lemma mapGet_mapSet {A : Type} (m : list (string * A)) (k n : string) (v : A) :
  PreviewController.mapGet (PreviewController.mapSet k v m) n
  = if String.eqb n k then Some v else PreviewController.mapGet m n.
Proof.
  unfold PreviewController.mapGet.
  induction m as [|[k' v'] rest IH]; simpl.
  - reflexivity.
  - destruct (String.eqb_spec k k') as [->|Hk]; simpl.
    + destruct (String.eqb n k'); reflexivity.
    + destruct (String.eqb_spec n k') as [->|Hn].
      * destruct (String.eqb_spec k' k); [congruence | reflexivity].
      * exact IH.
Qed.

Lemma setAdd_In (x y : string) (s : list string) :
  In y (PreviewController.setAdd x s) <-> y = x \/ In y s.
Proof.
  unfold PreviewController.setAdd.
  destruct (JS.includes s x) eqn:E.
  - split; [auto|]. intros [->|H]; [now apply includes_In | exact H].
  - rewrite in_app_iff. simpl. intuition.
Qed.

Lemma allNotes_line_In (line : list string) :
  forall acc y,
    In y (fold_left (fun acc' n => PreviewController.setAdd n acc') line acc)
    <-> In y line \/ In y acc.
Proof.
  induction line as [|n rest IH]; intros acc y; simpl.
  - intuition.
  - rewrite IH, setAdd_In. intuition.
Qed.

Lemma allNotes_In (ls : list (list string)) :
  forall acc y,
    In y (fold_left (fun acc line =>
                       fold_left (fun acc' n => PreviewController.setAdd n acc') line acc)
                    ls acc)
    <-> (exists line, In line ls /\ In y line) \/ In y acc.
Proof.
  induction ls as [|l rest IH]; intros acc y; simpl.
  - split; [auto|]. intros [(line & [] & _)|H]; exact H.
  - rewrite IH, allNotes_line_In. split.
    + intros [(line & Hl & Hy)|[Hy|Hy]]; [left; exists line|left; exists l|right]; auto.
    + intros [(line & [<-|Hl] & Hy)|Hy]; [right; left|left; exists line|right; right]; auto.
Qed.

Lemma patterns_fold_get (ks : list string) :
  forall m n,
    PreviewController.mapGet
      (fold_left (fun m n =>
                    match FingeringEngine.getPattern n with
                    | Some pattern => PreviewController.mapSet n pattern m
                    | None => m
                    end) ks m) n
    = if JS.includes ks n
      then match FingeringEngine.getPattern n with
           | Some p => Some p
           | None => PreviewController.mapGet m n
           end
      else PreviewController.mapGet m n.
Proof.
  induction ks as [|k rest IH]; intros m n; simpl; [reflexivity|].
  rewrite IH. unfold JS.includes at 1. cbn [existsb]. fold (JS.includes rest n).
  destruct (FingeringEngine.getPattern k) as [pk|] eqn:Ek.
  - rewrite mapGet_mapSet.
    destruct (String.eqb_spec n k) as [->|Hn]; simpl.
    + rewrite Ek. now destruct (JS.includes rest k).
    + reflexivity.
  - destruct (String.eqb_spec n k) as [->|Hn]; simpl.
    + rewrite Ek. now destruct (JS.includes rest k).
    + reflexivity.
Qed.

Lemma In_includes (xs : list string) (x : string) :
  In x xs -> JS.includes xs x = true.
Proof.
  intros H. unfold JS.includes. apply existsb_exists.
  exists x. split; [exact H | apply String.eqb_refl].
Qed.

(** X8.  The map the preview hands to the renderer answers, for every
    note of the song, what [getPattern] answers for it, and has no entry
    for any other name. *)
Theorem preview_map_agrees_with_engine (song : Song) (n : string) :
  ((exists line, In line (lines song) /\ In n line) ->
   PreviewController.mapGet (PreviewController.fingeringPatternsOf song) n
   = FingeringEngine.getPattern n)
  /\ ((forall line, In line (lines song) -> ~ In n line) ->
      PreviewController.mapGet (PreviewController.fingeringPatternsOf song) n = None).
Proof.
  unfold PreviewController.fingeringPatternsOf. rewrite patterns_fold_get.
  assert (Hall := allNotes_In (lines song) [] n).
  fold (PreviewController.allNotes song) in Hall.
  split.
  - intros Hex. rewrite (In_includes _ _ (proj2 Hall (or_introl Hex))).
    now destruct (FingeringEngine.getPattern n).
  - intros Hno.
    destruct (JS.includes (PreviewController.allNotes song) n) eqn:E; [|reflexivity].
    apply includes_In, Hall in E. destruct E as [(line & Hl & Hn)|[]].
    destruct (Hno line Hl Hn).
Qed.

Lemma preview_map_agrees_with_engine_witness :
  PreviewController.mapGet
    (PreviewController.fingeringPatternsOf (mkSong "T" [["F"; "X"]; ["F"; "Bb"]] None)) "Bb"
  = FingeringEngine.getPattern "Bb".
Proof.
  apply (proj1 (preview_map_agrees_with_engine
                  (mkSong "T" [["F"; "X"]; ["F"; "Bb"]] None) "Bb")).
  exists ["F"; "Bb"]. simpl. auto.
Defined.

(* ================================================================== *)
(** * What the renderer draws                                          *)
(* ================================================================== *)

Lemma getPattern_holes (n : string) (p : FingeringPattern) :
  FingeringEngine.getPattern n = Some p -> List.length (holes p) = 4.
Proof.
  unfold FingeringEngine.getPattern. rewrite isSupported_normalized.
  destruct (FingeringEngine.isSupported n) eqn:E; cbn [negb]; [|discriminate].
  destruct (lookup_supported _ (includes_In _ _ E)) as (q & Hq & _ & Hlen).
  rewrite Hq. intros H. now injection H as <-.
Qed.

Lemma preview_map_get (song : Song) (n : string) :
  PreviewController.mapGet (PreviewController.fingeringPatternsOf song) n
  = if JS.includes (PreviewController.allNotes song) n
    then FingeringEngine.getPattern n else None.
Proof.
  unfold PreviewController.fingeringPatternsOf. rewrite patterns_fold_get.
  destruct (JS.includes (PreviewController.allNotes song) n); [|reflexivity].
  now destruct (FingeringEngine.getPattern n).
Qed.

Lemma line_length_le_max (song : Song) (line : list string) :
  In line (lines song) ->
  (Z.of_nat (List.length line) <= ChartRenderer.maxNotesPerLine song)%Z.
Proof.
  intros Hl. rewrite maxNotesPerLine_stated.
  unfold ChartRenderer.stated_maxNotesPerLine.
  destruct (lines song) as [|l0 ls] eqn:E; [destruct Hl|]. rewrite <- E in *.
  apply inj_le.
  assert (Hall := proj1 (list_max_le (map (@List.length string) (lines song))
                           (list_max (map (@List.length string) (lines song))))
                        (Nat.le_refl _)).
  exact (proj1 (Forall_forall _ _) Hall _ (in_map _ _ _ Hl)).
Qed.

(** ** The calls of a drawing that is not interrupted *)

Section DrawingCounts.

Variable config : ChartConfig.
Variable layout : LayoutInfo.
Variable fingeringPatterns : list (string * FingeringPattern).

Local Abbreviation arcs calls := (List.length (filter ChartDrawing.isArc calls)).

Hypothesis radius_not_negative :
  Num.ltb (holeRadius config) (Num.ofZ 0) = false.

Hypothesis four_holes :
  forall n p, PreviewController.mapGet fingeringPatterns n = Some p ->
              List.length (holes p) = 4.

Lemma drawHole_one_arc (cx cy : Num.number) (b : bool) :
  snd (ChartDrawing.drawHole config cx cy b) = None
  /\ arcs (fst (ChartDrawing.drawHole config cx cy b)) = 1.
Proof.
  unfold ChartDrawing.drawHole, ChartDrawing.arcThrows.
  rewrite radius_not_negative, andb_false_r. destruct b; split; reflexivity.
Qed.

Lemma drawHoles_count (x y : Num.number) (holes : list bool) :
  forall index,
    index + List.length holes <= 4 ->
    snd (ChartDrawing.drawHolesFrom config (ChartDrawing.holePositions config x y)
           index holes) = None
    /\ arcs (fst (ChartDrawing.drawHolesFrom config
                    (ChartDrawing.holePositions config x y) index holes))
       = List.length holes.
Proof.
  induction holes as [|b rest IH]; intros index Hle; [split; reflexivity|].
  cbn [ChartDrawing.drawHolesFrom]. simpl List.length in Hle.
  destruct (nth_error (ChartDrawing.holePositions config x y) index)
    as [[px py]|] eqn:E.
  - destruct (drawHole_one_arc (Num.add px (holeRadius config))
                               (Num.add py (holeRadius config)) b) as (Hde & Hdc).
    destruct (ChartDrawing.drawHole config _ _ b) as [calls e].
    cbn [fst snd] in Hde, Hdc. subst e.
    destruct (IH (S index)) as (He & Hc); [lia|].
    destruct (ChartDrawing.drawHolesFrom config _ (S index) rest) as [calls' e'].
    cbn [fst snd] in *. split; [exact He|].
    rewrite filter_app, List.length_app, Hdc, Hc. reflexivity.
  - apply nth_error_None in E. simpl in E. lia.
Qed.

Lemma pattern_count (p : FingeringPattern) (x y : Num.number) :
  List.length (holes p) = 4 ->
  snd (ChartDrawing.renderFingeringPattern config p x y) = None
  /\ arcs (fst (ChartDrawing.renderFingeringPattern config p x y)) = 4.
Proof.
  intros H4. unfold ChartDrawing.renderFingeringPattern.
  destruct (drawHoles_count x y (holes p) 0) as (He & Hc); [lia|].
  destruct (ChartDrawing.drawHolesFrom config _ 0 (holes p)) as [calls e].
  cbn [fst snd] in *. split; [exact He|]. simpl. now rewrite Hc.
Qed.

Lemma notes_count (startY : Num.number) (notes : list string) :
  forall noteIndex,
    snd (ChartDrawing.renderNotesFrom config layout fingeringPatterns startY
           noteIndex notes) = None
    /\ arcs (fst (ChartDrawing.renderNotesFrom config layout fingeringPatterns
                    startY noteIndex notes))
       = 4 * ChartDrawing.drawnNotes fingeringPatterns [notes].
Proof.
  unfold ChartDrawing.drawnNotes. cbn [List.concat]. rewrite app_nil_r.
  induction notes as [|n rest IH]; intros noteIndex; [split; reflexivity|].
  cbn [ChartDrawing.renderNotesFrom filter].
  destruct (IH (S noteIndex)) as (He & Hc).
  destruct (PreviewController.mapGet fingeringPatterns n) as [p|] eqn:Ep.
  - match goal with
    | |- context [ChartDrawing.renderFingeringPattern config p ?x startY] =>
        destruct (pattern_count p x startY (four_holes n p Ep)) as (Hpe & Hpc);
        destruct (ChartDrawing.renderFingeringPattern config p x startY)
          as [calls e]
    end.
    cbn [fst snd] in Hpe, Hpc. subst e.
    destruct (ChartDrawing.renderNotesFrom config layout fingeringPatterns startY
                (S noteIndex) rest) as [calls' e'].
    cbn [fst snd] in *. split; [exact He|].
    rewrite filter_app, List.length_app, Hpc, Hc. simpl. lia.
  - split; [exact He | exact Hc].
Qed.

Lemma lines_count (ls : list (list string)) :
  forall lineIndex,
    snd (ChartDrawing.renderLinesFrom config layout fingeringPatterns lineIndex ls)
    = None
    /\ arcs (fst (ChartDrawing.renderLinesFrom config layout fingeringPatterns
                    lineIndex ls))
       = 4 * ChartDrawing.drawnNotes fingeringPatterns ls.
Proof.
  induction ls as [|line rest IH]; intros lineIndex; [split; reflexivity|].
  cbn [ChartDrawing.renderLinesFrom]. unfold ChartDrawing.renderLine.
  match goal with
  | |- context [ChartDrawing.renderNotesFrom config layout fingeringPatterns ?y 0 line] =>
      destruct (notes_count y line 0) as (Hle & Hlc);
      destruct (ChartDrawing.renderNotesFrom config layout fingeringPatterns y 0 line)
        as [calls e]
  end.
  cbn [fst snd] in Hle, Hlc. subst e.
  destruct (IH (S lineIndex)) as (He & Hc).
  destruct (ChartDrawing.renderLinesFrom config layout fingeringPatterns
              (S lineIndex) rest) as [calls' e'].
  cbn [fst snd] in *. split; [exact He|].
  rewrite filter_app, List.length_app, Hlc, Hc.
  unfold ChartDrawing.drawnNotes. cbn [List.concat].
  rewrite app_nil_r, filter_app, List.length_app. lia.
Qed.

End DrawingCounts.

(** ** Where the circles are *)

Section ArcsOnCanvas.

Local Open Scope Z_scope.

Variable config : ChartConfig.
Variable layout : LayoutInfo.
Variable fingeringPatterns : list (string * FingeringPattern).
Variables R Sp : Z.
Hypothesis radius_exact : holeRadius config = Num.ofZ R.
Hypothesis spacing_exact : spacing config = Num.ofZ Sp.
Hypothesis radius_nonneg : 0 <= R.
Hypothesis spacing_nonneg : 0 <= Sp.

Local Ltac small := change (2 ^ 53) with 9007199254740992 in *; lia.

Lemma drawHole_arc (cx cy : Num.number) (b : bool) (c : ChartDrawing.Call) :
  In c (fst (ChartDrawing.drawHole config cx cy b)) ->
  match c with
  | ChartDrawing.Arc x y radius => x = cx /\ y = cy /\ radius = Num.ofZ R
  | _ => True
  end.
Proof.
  unfold ChartDrawing.drawHole. rewrite radius_exact.
  destruct (ChartDrawing.arcThrows cx cy (Num.ofZ R)); [|destruct b];
    cbn [fst]; intros Hc;
    repeat (destruct Hc as [<-|Hc]; [cbv beta iota; auto|]); destruct Hc.
Qed.

Lemma drawHoles_arcs (P : Num.number -> Num.number -> Prop)
      (positions : list (Num.number * Num.number)) (holes : list bool) :
  (forall px py, In (px, py) positions ->
                 P (Num.add px (Num.ofZ R)) (Num.add py (Num.ofZ R))) ->
  forall index c,
    In c (fst (ChartDrawing.drawHolesFrom config positions index holes)) ->
    match c with
    | ChartDrawing.Arc x y radius => radius = Num.ofZ R /\ P x y
    | _ => True
    end.
Proof.
  intros HP. induction holes as [|b rest IH]; intros index c Hc; [destruct Hc|].
  cbn [ChartDrawing.drawHolesFrom] in Hc.
  destruct (nth_error positions index) as [[px py]|] eqn:E; [|destruct Hc].
  rewrite radius_exact in Hc.
  assert (Hhere : forall c',
             In c' (fst (ChartDrawing.drawHole config (Num.add px (Num.ofZ R))
                           (Num.add py (Num.ofZ R)) b)) ->
             match c' with
             | ChartDrawing.Arc x y radius => radius = Num.ofZ R /\ P x y
             | _ => True
             end).
  { intros c' Hc'. apply drawHole_arc in Hc'.
    destruct c'; try exact I. destruct Hc' as (-> & -> & ->).
    split; [reflexivity|]. apply HP. exact (nth_error_In _ _ E). }
  destruct (ChartDrawing.drawHole config _ _ b) as [calls [e|]]; cbn [fst] in *.
  - exact (Hhere c Hc).
  - destruct (ChartDrawing.drawHolesFrom config positions (S index) rest)
      as [calls' e'] eqn:Er.
    cbn [fst] in Hc. apply in_app_or in Hc as [Hc|Hc].
    + exact (Hhere c Hc).
    + apply (IH (S index)). now rewrite Er.
Qed.

(** The four positions of a pattern placed at an integer point, and the
    centres of its holes, are computed without rounding. *)
Lemma pattern_arcs (p : FingeringPattern) (X Y : Z) (c : ChartDrawing.Call) :
  0 <= X -> 0 <= Y ->
  2 * (X + 4 * R + Sp) < 2 ^ 53 -> 2 * (Y + 4 * R + 4 * Sp) < 2 ^ 53 ->
  In c (fst (ChartDrawing.renderFingeringPattern config p (Num.ofZ X) (Num.ofZ Y))) ->
  ChartDrawing.arcInBox R Sp X Y c.
Proof.
  intros HX HY HXb HYb. unfold ChartDrawing.renderFingeringPattern.
  destruct (ChartDrawing.drawHolesFrom config _ 0 (holes p)) as [calls e] eqn:E.
  cbn [fst]. intros [<-|Hc]; [exact I|].
  assert (Hc' : In c (fst (ChartDrawing.drawHolesFrom config
                             (ChartDrawing.holePositions config (Num.ofZ X) (Num.ofZ Y))
                             0 (holes p)))) by now rewrite E.
  cut (forall px py,
          In (px, py) (ChartDrawing.holePositions config (Num.ofZ X) (Num.ofZ Y)) ->
          exists kx ky : Z,
            Num.add px (Num.ofZ R) = Num.dyadic kx (-1)
            /\ Num.add py (Num.ofZ R) = Num.dyadic ky (-1)
            /\ 2 * X + 2 * R <= kx <= 2 * X + 6 * R + 2 * Sp
            /\ 2 * Y + 3 * Sp + 2 * R <= ky <= 2 * Y + 5 * Sp + 6 * R).
  { intros Hpos.
    assert (Harcs := drawHoles_arcs
              (fun x y => exists kx ky : Z,
                   x = Num.dyadic kx (-1) /\ y = Num.dyadic ky (-1)
                   /\ 2 * X + 2 * R <= kx <= 2 * X + 6 * R + 2 * Sp
                   /\ 2 * Y + 3 * Sp + 2 * R <= ky <= 2 * Y + 5 * Sp + 6 * R)
              _ (holes p) Hpos 0%nat c Hc').
    destruct c; exact Harcs. }
  clear Hc' Hc E calls e c.
  (* the coordinates, in halves *)
  assert (HxL : Num.add (Num.ofZ X) (Num.ofZ R) = Num.dyadic (2 * X + 2 * R) (-1)).
  { rewrite add_ofZ by small. rewrite ofZ_halves by small. f_equal. lia. }
  assert (HxR : Num.add (Num.add (Num.add (Num.ofZ X) (Num.mul (Num.ofZ R) (Num.ofZ 2)))
                                 (Num.ofZ Sp)) (Num.ofZ R)
                = Num.dyadic (2 * X + 6 * R + 2 * Sp) (-1)).
  { rewrite mul_ofZ by small. rewrite !add_ofZ by small.
    rewrite ofZ_halves by small. f_equal. lia. }
  assert (Hy0 : Num.add (Num.ofZ Y) (Num.mul (Num.ofZ Sp) (Num.dyadic 3 (-1)))
                = Num.dyadic (2 * Y + 3 * Sp) (-1)).
  { unfold Num.ofZ at 2. rewrite (mul_dyadic Sp 3 0 (-1)) by small.
    rewrite (ofZ_halves Y) by small.
    change (0 + -1) with (-1). rewrite add_dyadic by small. f_equal. lia. }
  assert (HyT : Num.add (Num.dyadic (2 * Y + 3 * Sp) (-1)) (Num.ofZ R)
                = Num.dyadic (2 * Y + 3 * Sp + 2 * R) (-1)).
  { rewrite (ofZ_halves R) by small. rewrite add_dyadic by small. reflexivity. }
  assert (HyB : Num.add (Num.add (Num.add (Num.dyadic (2 * Y + 3 * Sp) (-1))
                                          (Num.mul (Num.ofZ R) (Num.ofZ 2)))
                                 (Num.ofZ Sp)) (Num.ofZ R)
                = Num.dyadic (2 * Y + 5 * Sp + 6 * R) (-1)).
  { rewrite mul_ofZ by small.
    rewrite (ofZ_halves (R * 2)), (ofZ_halves Sp), (ofZ_halves R) by small.
    rewrite !add_dyadic by small. f_equal. lia. }
  unfold ChartDrawing.holePositions. rewrite radius_exact, spacing_exact.
  intros px py Hpos. cbv zeta in Hpos. cbn [In] in Hpos.
  destruct Hpos as [Hpos|[Hpos|[Hpos|[Hpos|[]]]]];
    apply pair_equal_spec in Hpos as [<- <-];
    rewrite ?Hy0, ?HxL, ?HxR, ?HyT, ?HyB;
    eexists _, _; (split; [reflexivity|split; [reflexivity|lia]]).
Qed.

(** A pattern placed on the canvas keeps its circles on the canvas. *)
Lemma box_on_canvas (W H X Y : Z) (c : ChartDrawing.Call) :
  0 <= X -> X + 4 * R + Sp <= W -> 0 <= Y -> Y + 4 * R + 4 * Sp <= H ->
  ChartDrawing.arcInBox R Sp X Y c -> ChartDrawing.arcInside R W H c.
Proof.
  intros HX0 HX1 HY0 HY1. destruct c; try exact (fun _ => I).
  intros (Hr & kx & ky & Hx & Hy & Hkx & Hky).
  split; [exact Hr|]. exists kx, ky. repeat split; try assumption; lia.
Qed.

Variables n l W H : Z.
Hypothesis left_exact : left (margins layout) = Num.ofZ (Sp * 2).
Hypothesis top_exact : top (margins layout) = Num.ofZ (Sp * 2).
Hypothesis pattern_exact : patternWidth layout = Num.ofZ (R * 4 + Sp).
Hypothesis line_exact : lineHeight layout = Num.ofZ (R * 4 + Sp + Sp * 3).
Hypothesis width_enough : n * (R * 4 + Sp * 3) + Sp * 4 <= W.
Hypothesis height_enough : l * (R * 4 + Sp * 4) + Sp * 6 <= H.
Hypothesis width_small : 2 * W < 2 ^ 53.
Hypothesis height_small : 2 * H < 2 ^ 53.
Hypothesis notes_small : n < 2 ^ 52.
Hypothesis lines_small : l < 2 ^ 52.

Lemma notes_on_canvas (Y : Z) (notes : list string) :
  0 <= Y -> Y + 4 * R + 4 * Sp <= H ->
  forall noteIndex,
    Z.of_nat noteIndex + Z.of_nat (List.length notes) <= n ->
    forall c,
      In c (fst (ChartDrawing.renderNotesFrom config layout fingeringPatterns
                   (Num.ofZ Y) noteIndex notes)) ->
      ChartDrawing.arcInside R W H c.
Proof.
  intros HY0 HY1. induction notes as [|note rest IH]; intros noteIndex Hle c Hc;
    [destruct Hc|].
  cbn [ChartDrawing.renderNotesFrom] in Hc. cbn [List.length] in Hle.
  assert (Hrest : Z.of_nat (S noteIndex) + Z.of_nat (List.length rest) <= n)
    by lia.
  destruct (PreviewController.mapGet fingeringPatterns note) as [p|];
    [|exact (IH (S noteIndex) Hrest c Hc)].
  rewrite left_exact, pattern_exact, spacing_exact in Hc.
  set (i := Z.of_nat noteIndex) in *.
  assert (Hi : 0 <= i /\ i + 1 <= n) by (unfold i; lia).
  assert (Hprod : 0 <= i * (R * 4 + Sp * 3) /\ (i + 1) * (R * 4 + Sp * 3) <= n * (R * 4 + Sp * 3))
    by (split; nia).
  assert (Hx : Num.add (Num.ofZ (Sp * 2))
                       (Num.mul (Num.ofNat noteIndex)
                                (Num.add (Num.ofZ (R * 4 + Sp))
                                         (Num.mul (Num.ofZ Sp) (Num.ofZ 2))))
               = Num.ofZ (Sp * 2 + i * (R * 4 + Sp * 3))).
  { unfold Num.ofNat. fold i.
    rewrite (mul_ofZ Sp 2) by small. rewrite add_ofZ by small.
    replace (R * 4 + Sp + Sp * 2) with (R * 4 + Sp * 3) by lia.
    rewrite mul_ofZ by (change (2 ^ 53) with 9007199254740992 in *;
                        change (2 ^ 52) with 4503599627370496 in *; lia).
    rewrite add_ofZ by small. reflexivity. }
  rewrite Hx in Hc.
  assert (Hhere : forall c',
             In c' (fst (ChartDrawing.renderFingeringPattern config p
                           (Num.ofZ (Sp * 2 + i * (R * 4 + Sp * 3))) (Num.ofZ Y))) ->
             ChartDrawing.arcInside R W H c').
  { intros c' Hc'.
    apply (box_on_canvas W H (Sp * 2 + i * (R * 4 + Sp * 3)) Y); try lia.
    apply (pattern_arcs p); try assumption; small. }
  destruct (ChartDrawing.renderFingeringPattern config p _ (Num.ofZ Y))
    as [calls [e|]]; cbn [fst] in *.
  - exact (Hhere c Hc).
  - destruct (ChartDrawing.renderNotesFrom config layout fingeringPatterns (Num.ofZ Y)
                (S noteIndex) rest) as [calls' e'] eqn:Er.
    cbn [fst] in Hc. apply in_app_or in Hc as [Hc|Hc].
    + exact (Hhere c Hc).
    + apply (IH (S noteIndex) Hrest). now rewrite Er.
Qed.

Lemma lines_on_canvas (ls : list (list string)) :
  (forall line, In line ls -> Z.of_nat (List.length line) <= n) ->
  forall lineIndex,
    Z.of_nat lineIndex + Z.of_nat (List.length ls) <= l ->
    forall c,
      In c (fst (ChartDrawing.renderLinesFrom config layout fingeringPatterns
                   lineIndex ls)) ->
      ChartDrawing.arcInside R W H c.
Proof.
  induction ls as [|line rest IH]; intros Hlen lineIndex Hle c Hc; [destruct Hc|].
  cbn [ChartDrawing.renderLinesFrom] in Hc. cbn [List.length] in Hle.
  set (j := Z.of_nat lineIndex) in *.
  assert (Hj : 0 <= j /\ j + 1 <= l) by (unfold j; lia).
  assert (Hprod : 0 <= j * (R * 4 + Sp * 4) /\ (j + 1) * (R * 4 + Sp * 4) <= l * (R * 4 + Sp * 4))
    by (split; nia).
  assert (Hy : Num.add (Num.add (top (margins layout))
                                (Num.mul (spacing config) (Num.ofZ 2)))
                       (Num.mul (Num.ofNat lineIndex) (lineHeight layout))
               = Num.ofZ (Sp * 4 + j * (R * 4 + Sp * 4))).
  { rewrite top_exact, spacing_exact, line_exact. unfold Num.ofNat. fold j.
    rewrite (mul_ofZ Sp 2) by small. rewrite add_ofZ by small.
    replace (R * 4 + Sp + Sp * 3) with (R * 4 + Sp * 4) by lia.
    rewrite mul_ofZ by (change (2 ^ 53) with 9007199254740992 in *;
                        change (2 ^ 52) with 4503599627370496 in *; lia).
    rewrite add_ofZ by small. f_equal. lia. }
  assert (Hline : forall c',
             In c' (fst (ChartDrawing.renderLine config layout fingeringPatterns
                           line lineIndex)) ->
             ChartDrawing.arcInside R W H c').
  { intros c' Hc'. unfold ChartDrawing.renderLine in Hc'. rewrite Hy in Hc'.
    apply (notes_on_canvas (Sp * 4 + j * (R * 4 + Sp * 4)) line) with (noteIndex := 0%nat)
      (c := c'); try lia; try assumption.
    specialize (Hlen line (or_introl eq_refl)). lia. }
  assert (HrestLen : forall line', In line' rest -> Z.of_nat (List.length line') <= n).
  { intros line' Hl'. apply Hlen. now right. }
  assert (Hrest : Z.of_nat (S lineIndex) + Z.of_nat (List.length rest) <= l)
    by lia.
  destruct (ChartDrawing.renderLine config layout fingeringPatterns line lineIndex)
    as [calls [e|]]; cbn [fst] in *.
  - exact (Hline c Hc).
  - destruct (ChartDrawing.renderLinesFrom config layout fingeringPatterns
                (S lineIndex) rest) as [calls' e'] eqn:Er.
    cbn [fst] in Hc. apply in_app_or in Hc as [Hc|Hc].
    + exact (Hline c Hc).
    + apply (IH HrestLen (S lineIndex) Hrest). now rewrite Er.
Qed.

End ArcsOnCanvas.

(** X9.  For an integer radius and spacing that are not negative, with
    the totals below [2^52], [renderChart] sets the display size of the
    canvas to the total width and height of the layout, assigns those
    times the device pixel ratio to [canvas.width] and [canvas.height],
    fills the background over the display size, and traces every circle
    on that area: the radius is the hole radius, the centre is computed
    without rounding and is at least a radius away from the four edges.
    This holds whatever the song, the pattern map and the device pixel
    ratio. *)
Theorem chart_stays_on_canvas
        (config : ChartConfig) (dpr : Num.number) (song : Song)
        (fingeringPatterns : list (string * FingeringPattern)) (R S : Z) :
  holeRadius config = Num.ofZ R -> spacing config = Num.ofZ S ->
  ChartRenderer.exactFor R S song ->
  let W := ChartRenderer.exactWidth R S (ChartRenderer.maxNotesPerLine song) in
  let H := ChartRenderer.exactHeight R S (Z.of_nat (List.length (lines song))) in
  let calls := fst (snd (ChartDrawing.renderChart config dpr song fingeringPatterns)) in
  In (ChartDrawing.SetCanvasSize (Num.mul (Num.ofZ W) dpr) (Num.mul (Num.ofZ H) dpr))
     calls
  /\ In (ChartDrawing.SetStyleSize (Num.ofZ W) (Num.ofZ H)) calls
  /\ In (ChartDrawing.FillRect (background (colors config)) (Num.ofZ 0) (Num.ofZ 0)
                               (Num.ofZ W) (Num.ofZ H)) calls
  /\ (forall c, In c calls -> ChartDrawing.arcInside R W H c).
Proof.
  intros Hr Hs Hin. cbv zeta.
  destruct (exactFor_bounds song R S Hin) as (HR & HS & Hn & Hl & Hp & HW & HH).
  unfold ChartDrawing.renderChart, ChartDrawing.updateCanvasSize.
  rewrite (layout_exact config song R S Hr Hs Hin).
  set (W := ChartRenderer.exactWidth R S (ChartRenderer.maxNotesPerLine song)).
  set (H := ChartRenderer.exactHeight R S (Z.of_nat (List.length (lines song)))).
  set (layout := mkLayout (Num.ofZ W) (Num.ofZ H) _ _ _ _).
  set (config' := ChartDrawing.resized config layout).
  assert (Hlines : forall c,
             In c (fst (ChartDrawing.renderLinesFrom config' layout fingeringPatterns
                          0 (lines song))) ->
             ChartDrawing.arcInside R W H c).
  { apply (lines_on_canvas config' layout fingeringPatterns R S Hr Hs HR HS
             (ChartRenderer.maxNotesPerLine song)
             (Z.of_nat (List.length (lines song))) W H);
      try reflexivity; try lia;
      unfold W, H, ChartRenderer.exactWidth, ChartRenderer.exactHeight,
        ChartRenderer.exactLineHeight, ChartRenderer.exactPattern in *;
      change (2 ^ 52)%Z with 4503599627370496%Z in *;
      change (2 ^ 53)%Z with 9007199254740992%Z in *;
      try lia; try nia.
    intros line Hline. exact (line_length_le_max song line Hline). }
  destruct (ChartDrawing.renderLinesFrom config' layout fingeringPatterns 0 (lines song))
    as [lineCalls e].
  cbn [fst snd] in *.
  split; [left; reflexivity|].
  split; [right; left; reflexivity|].
  split; [apply in_or_app; right; left; reflexivity|].
  intros c Hc. apply in_app_or in Hc as [Hc|Hc].
  - simpl in Hc. destruct Hc as [<-|[<-|[<-|[]]]]; exact I.
  - destruct Hc as [<-|Hc]; [exact I|].
    apply in_app_or in Hc as [Hc|Hc].
    + simpl in Hc. destruct Hc as [<-|[]]. exact I.
    + exact (Hlines c Hc).
Qed.

Lemma chart_stays_on_canvas_witness :
  ChartDrawing.arcInside 15 320 400
    (ChartDrawing.Arc (Num.ofZ 55) (Num.dyadic 250 (-1)) (Num.ofZ 15)).
Proof.
  assert (Hin : ChartRenderer.exactFor 15 20 (mkSong "T" [["F"; "G"]; ["E"]] None)).
  { vm_compute. repeat split; try discriminate; reflexivity. }
  apply (proj2 (proj2 (proj2 (chart_stays_on_canvas sampleChartConfig (Num.ofZ 2)
                                (mkSong "T" [["F"; "G"]; ["E"]] None)
                                (PreviewController.fingeringPatternsOf
                                   (mkSong "T" [["F"; "G"]; ["E"]] None))
                                15%Z 20%Z eq_refl eq_refl Hin)))).
  vm_compute. do 7 right. left. reflexivity.
Defined.

(** X10.  A song returned by [parseSong], drawn with the pattern map the
    preview builds for it by a renderer whose hole radius is not
    negative, is drawn in full: no exception stops the drawing, and the
    number of [arc] calls is four times the note count recorded in the
    song. *)
Theorem parsed_song_drawn_in_full
        (cfg : NoteParser.ParseConfig) (now : Date) (input : string) (song : Song)
        (config : ChartConfig) (dpr : Num.number) :
  NoteParser.parseSong cfg now input = Returned song ->
  Num.ltb (holeRadius config) (Num.ofZ 0) = false ->
  let result := ChartDrawing.renderChart config dpr song
                  (PreviewController.fingeringPatternsOf song) in
  snd (snd result) = None
  /\ exists k, option_map noteCount (metadata song) = Some k
               /\ List.length (filter ChartDrawing.isArc (fst (snd result))) = 4 * k.
Proof.
  intros Hsong Hradius. cbv zeta.
  assert (Hsup := returned_song_notes_supported cfg now input song Hsong).
  destruct (parseSong_returned cfg now input song Hsong) as (_ & _ & _ & Hmeta).
  assert (H4 : forall n p,
             PreviewController.mapGet (PreviewController.fingeringPatternsOf song) n
             = Some p -> List.length (holes p) = 4).
  { intros n p. rewrite preview_map_get.
    destruct (JS.includes _ n); [apply getPattern_holes | discriminate]. }
  assert (Hdrawn : ChartDrawing.drawnNotes (PreviewController.fingeringPatternsOf song)
                     (lines song)
                   = List.length (List.concat (lines song))).
  { unfold ChartDrawing.drawnNotes. f_equal. apply filter_all.
    intros n Hn. apply in_concat in Hn as (line & Hline & Hn).
    rewrite preview_map_get.
    assert (Hall : JS.includes (PreviewController.allNotes song) n = true).
    { apply In_includes. unfold PreviewController.allNotes.
      apply (allNotes_In (lines song) [] n). left. now exists line. }
    rewrite Hall.
    destruct (getPattern_supported n (Hsup line n Hline Hn)) as (p & -> & _).
    reflexivity. }
  unfold ChartDrawing.renderChart, ChartDrawing.updateCanvasSize.
  set (layout := ChartRenderer.calculateLayout config song).
  set (config' := ChartDrawing.resized config layout).
  destruct (lines_count config' layout _ Hradius H4 (lines song) 0) as (He & Hc).
  destruct (ChartDrawing.renderLinesFrom config' layout _ 0 (lines song))
    as [lineCalls e].
  cbn [fst snd] in *. split; [exact He|].
  exists (List.length (List.concat (lines song))). split.
  - rewrite Hmeta. reflexivity.
  - rewrite filter_app. simpl. rewrite Hc, Hdrawn. reflexivity.
Qed.

Lemma parsed_song_drawn_in_full_witness :
  List.length
    (filter ChartDrawing.isArc
       (fst (snd (ChartDrawing.renderChart sampleChartConfig (Num.ofZ 1)
                    (mkSong "T" [["F"; "Bb"; "C"]]
                       (Some (mkMetadata ("T" ++ LF ++ "f b c") sampleDate 3)))
                    (PreviewController.fingeringPatternsOf
                       (mkSong "T" [["F"; "Bb"; "C"]]
                          (Some (mkMetadata ("T" ++ LF ++ "f b c") sampleDate 3))))))))
  = 12.
Proof.
  destruct (parsed_song_drawn_in_full NoteParser.DEFAULT_CONFIG sampleDate
              ("T" ++ LF ++ "f b c")
              (mkSong "T" [["F"; "Bb"; "C"]]
                 (Some (mkMetadata ("T" ++ LF ++ "f b c") sampleDate 3)))
              sampleChartConfig (Num.ofZ 1) eq_refl eq_refl) as (_ & k & Hk & Hc).
  injection Hk as <-. exact Hc.
Defined.

(** With a negative radius the first [arc] call throws, and nothing is
    traced. *)
Lemma negative_radius_stops_drawing :
  let song := mkSong "T" [["F"; "G"]] None in
  let result :=
    ChartDrawing.renderChart
      (ChartRenderer.withHoleRadius sampleChartConfig (Num.ofZ (-3))) (Num.ofZ 1)
      song (PreviewController.fingeringPatternsOf song) in
  snd (snd result) = Some ChartDrawing.IndexSizeError
  /\ filter ChartDrawing.isArc (fst (snd result)) = [].
Proof. vm_compute. split; reflexivity. Qed.

(* ================================================================== *)
(** * Canvas content                                                   *)
(* ================================================================== *)

Section ContentFacts.

Local Ltac char_cases c :=
  destruct c as [[|] [|] [|] [|] [|] [|] [|] [|]]; vm_compute;
  intros; try discriminate; auto.

Lemma hexDigit_bound (c : ascii) (x : nat) :
  CanvasContent.hexDigit c = Some x -> x <= 15.
Proof.
  destruct c as [[|] [|] [|] [|] [|] [|] [|] [|]]; vm_compute;
    intros H; try discriminate H; injection H as <-; repeat constructor.
Qed.

Lemma hexDigit_upper (c : ascii) :
  CanvasContent.hexDigit (JS.upperChar c) = CanvasContent.hexDigit c.
Proof. char_cases c. Qed.

Lemma hexDigit_lower (c : ascii) :
  CanvasContent.hexDigit (JS.lowerChar c) = CanvasContent.hexDigit c.
Proof. char_cases c. Qed.

Lemma hash_upper (c : ascii) :
  Nat.eqb (JS.code (JS.upperChar c)) 35 = Nat.eqb (JS.code c) 35.
Proof. char_cases c. Qed.

Lemma hash_lower (c : ascii) :
  Nat.eqb (JS.code (JS.lowerChar c)) 35 = Nat.eqb (JS.code c) 35.
Proof. char_cases c. Qed.

Lemma hexPair_bound (a b : ascii) (v : nat) :
  CanvasContent.hexPair a b = Some v -> v <= 255.
Proof.
  unfold CanvasContent.hexPair.
  destruct (CanvasContent.hexDigit a) as [x|] eqn:Ea; [|discriminate].
  destruct (CanvasContent.hexDigit b) as [y|] eqn:Eb; [|discriminate].
  intros H. injection H as <-.
  apply hexDigit_bound in Ea. apply hexDigit_bound in Eb. lia.
Qed.

Lemma pixelAt_next (r g b a : nat) (rest : list nat) (k : nat) :
  CanvasContent.pixelAt (r :: g :: b :: a :: rest) (S k)
  = CanvasContent.pixelAt rest k.
Proof.
  unfold CanvasContent.pixelAt.
  replace (4 * S k) with (S (S (S (S (4 * k))))) by lia. reflexivity.
Qed.

Lemma pixelAt_short (data : list nat) (k : nat) :
  List.length data < 4 -> CanvasContent.pixelAt data k = None.
Proof.
  intros H. unfold CanvasContent.pixelAt.
  assert (E : nth_error data (4 * k + 3) = None) by (apply nth_error_None; lia).
  rewrite E.
  destruct (nth_error data (4 * k)); [|reflexivity].
  destruct (nth_error data (4 * k + 1)); [|reflexivity].
  destruct (nth_error data (4 * k + 2)); reflexivity.
Qed.

End ContentFacts.

Lemma hexDigit_is_digitValue (c : ascii) :
  CanvasContent.hexDigit c = CanvasContent.digitValue c.
Proof.
  destruct c as [[|] [|] [|] [|] [|] [|] [|] [|]]; reflexivity.
Qed.

Lemma digit_is_not_hash (c : ascii) (v : nat) :
  CanvasContent.digitValue c = Some v -> Nat.eqb (JS.code c) 35 = false.
Proof.
  destruct c as [[|] [|] [|] [|] [|] [|] [|] [|]]; vm_compute;
    intros; try discriminate; reflexivity.
Qed.

Lemma hexPair_digits (a b : ascii) (v : nat) :
  CanvasContent.hexPair a b = Some v
  <-> exists x y, CanvasContent.digitValue a = Some x
                  /\ CanvasContent.digitValue b = Some y /\ v = 16 * x + y.
Proof.
  unfold CanvasContent.hexPair. rewrite !hexDigit_is_digitValue. split.
  - destruct (CanvasContent.digitValue a) as [x|]; [|discriminate].
    destruct (CanvasContent.digitValue b) as [y|]; [|discriminate].
    intros H. injection H as <-. now exists x, y.
  - intros (x & y & -> & -> & ->). reflexivity.
Qed.

Lemma hexToRgb_six (a b c d e f : ascii) (rgb : CanvasContent.Rgb) :
  match CanvasContent.hexPair a b, CanvasContent.hexPair c d,
        CanvasContent.hexPair e f with
  | Some r, Some g, Some bl => Some (CanvasContent.mkRgb r g bl)
  | _, _, _ => None
  end = Some rgb
  <-> exists va vb vc vd ve vf,
        CanvasContent.digitValue a = Some va /\ CanvasContent.digitValue b = Some vb
        /\ CanvasContent.digitValue c = Some vc /\ CanvasContent.digitValue d = Some vd
        /\ CanvasContent.digitValue e = Some ve /\ CanvasContent.digitValue f = Some vf
        /\ rgb = CanvasContent.mkRgb (16 * va + vb) (16 * vc + vd) (16 * ve + vf).
Proof.
  split.
  - destruct (CanvasContent.hexPair a b) as [x|] eqn:E1; [|discriminate].
    destruct (CanvasContent.hexPair c d) as [y|] eqn:E2; [|discriminate].
    destruct (CanvasContent.hexPair e f) as [z|] eqn:E3; [|discriminate].
    intros H. injection H as <-.
    apply hexPair_digits in E1 as (va & vb & Ha & Hb & ->).
    apply hexPair_digits in E2 as (vc & vd & Hc & Hd & ->).
    apply hexPair_digits in E3 as (ve & vf & He & Hf & ->).
    exists va, vb, vc, vd, ve, vf. auto 10.
  - intros (va & vb & vc & vd & ve & vf & Ha & Hb & Hc & Hd & He & Hf & ->).
    rewrite (proj2 (hexPair_digits a b _)) by (exists va, vb; auto).
    rewrite (proj2 (hexPair_digits c d _)) by (exists vc, vd; auto).
    rewrite (proj2 (hexPair_digits e f _)) by (exists ve, vf; auto).
    reflexivity.
Qed.

(** X11.  [hexToRgb] answers exactly for six hexadecimal digits, with or
    without a leading [#], and nothing else in the string; each channel
    is sixteen times the value of its first digit plus the value of its
    second, so at most 255; the answer does not depend on the case of
    the digits. *)
Theorem hexToRgb_channels_and_case (hex : string) :
  (forall rgb,
     CanvasContent.hexToRgb hex = Some rgb
     <-> exists a b c d e f va vb vc vd ve vf,
           (hex = CanvasContent.sixChars a b c d e f
            \/ hex = String "#" (CanvasContent.sixChars a b c d e f))
           /\ CanvasContent.digitValue a = Some va
           /\ CanvasContent.digitValue b = Some vb
           /\ CanvasContent.digitValue c = Some vc
           /\ CanvasContent.digitValue d = Some vd
           /\ CanvasContent.digitValue e = Some ve
           /\ CanvasContent.digitValue f = Some vf
           /\ rgb = CanvasContent.mkRgb (16 * va + vb) (16 * vc + vd) (16 * ve + vf))
  /\ (forall c, CanvasContent.hexToRgb hex = Some c ->
        CanvasContent.red c <= 255 /\ CanvasContent.green c <= 255
        /\ CanvasContent.blue c <= 255
        /\ (String.length hex = 6 \/ String.length hex = 7))
  /\ CanvasContent.hexToRgb (JS.toUpperCase hex) = CanvasContent.hexToRgb hex
  /\ CanvasContent.hexToRgb (JS.toLowerCase hex) = CanvasContent.hexToRgb hex
  /\ (JS.startsWith (fun c => Nat.eqb (JS.code c) 35) hex = false ->
      CanvasContent.hexToRgb ("#" ++ hex) = CanvasContent.hexToRgb hex).
Proof.
  split; [|split; [|split; [|split]]].
  - intros rgb. split.
    + unfold CanvasContent.hexToRgb.
      destruct hex as [|c0 [|c1 [|c2 [|c3 [|c4 [|c5 [|c6 [|c7 r]]]]]]]];
        try discriminate;
        try (destruct (Nat.eqb (JS.code c0) 35); discriminate).
      * destruct (Nat.eqb (JS.code c0) 35); [discriminate|].
        intros H. apply hexToRgb_six in H
          as (va & vb & vc & vd & ve & vf & Ha & Hb & Hc & Hd & He & Hf & ->).
        exists c0, c1, c2, c3, c4, c5, va, vb, vc, vd, ve, vf. auto 10.
      * destruct (Nat.eqb (JS.code c0) 35) eqn:E0; [|discriminate].
        assert (c0 = "#"%char) as ->.
        { apply Nat.eqb_eq in E0. unfold JS.code in E0.
          rewrite <- (ascii_nat_embedding c0), E0. reflexivity. }
        intros H. apply hexToRgb_six in H
          as (va & vb & vc & vd & ve & vf & Ha & Hb & Hc & Hd & He & Hf & ->).
        exists c1, c2, c3, c4, c5, c6, va, vb, vc, vd, ve, vf. auto 10.
    + intros (a & b & c & d & e & f & va & vb & vc & vd & ve & vf
              & Hform & Ha & Hb & Hc & Hd & He & Hf & ->).
      assert (Hsix : CanvasContent.hexToRgb (CanvasContent.sixChars a b c d e f)
                     = Some (CanvasContent.mkRgb (16 * va + vb) (16 * vc + vd)
                                                 (16 * ve + vf))).
      { unfold CanvasContent.hexToRgb, CanvasContent.sixChars.
        rewrite (digit_is_not_hash a va Ha).
        apply hexToRgb_six. exists va, vb, vc, vd, ve, vf. auto 10. }
      destruct Hform as [-> | ->]; [exact Hsix|].
      unfold CanvasContent.hexToRgb, CanvasContent.sixChars.
      change (Nat.eqb (JS.code "#") 35) with true. cbv iota.
      apply hexToRgb_six. exists va, vb, vc, vd, ve, vf. auto 10.
  - intros c. unfold CanvasContent.hexToRgb.
    destruct hex as [|c0 [|c1 [|c2 [|c3 [|c4 [|c5 [|c6 [|c7 r]]]]]]]];
      try discriminate;
      try (destruct (Nat.eqb (JS.code c0) 35); discriminate).
    + destruct (Nat.eqb (JS.code c0) 35); [discriminate|].
      destruct (CanvasContent.hexPair c0 c1) as [x|] eqn:E1; [|discriminate].
      destruct (CanvasContent.hexPair c2 c3) as [y|] eqn:E2; [|discriminate].
      destruct (CanvasContent.hexPair c4 c5) as [z|] eqn:E3; [|discriminate].
      intros H. injection H as <-. simpl.
      apply hexPair_bound in E1, E2, E3. auto.
    + destruct (Nat.eqb (JS.code c0) 35); [|discriminate].
      destruct (CanvasContent.hexPair c1 c2) as [x|] eqn:E1; [|discriminate].
      destruct (CanvasContent.hexPair c3 c4) as [y|] eqn:E2; [|discriminate].
      destruct (CanvasContent.hexPair c5 c6) as [z|] eqn:E3; [|discriminate].
      intros H. injection H as <-. simpl.
      apply hexPair_bound in E1, E2, E3. auto.
  - unfold CanvasContent.hexToRgb, JS.toUpperCase.
    destruct hex as [|c0 [|c1 [|c2 [|c3 [|c4 [|c5 [|c6 [|c7 r]]]]]]]];
      cbn [JS.mapString]; try reflexivity;
      rewrite hash_upper; destruct (Nat.eqb (JS.code c0) 35);
      unfold CanvasContent.hexPair; rewrite ?hexDigit_upper; reflexivity.
  - unfold CanvasContent.hexToRgb, JS.toLowerCase.
    destruct hex as [|c0 [|c1 [|c2 [|c3 [|c4 [|c5 [|c6 [|c7 r]]]]]]]];
      cbn [JS.mapString]; try reflexivity;
      rewrite hash_lower; destruct (Nat.eqb (JS.code c0) 35);
      unfold CanvasContent.hexPair; rewrite ?hexDigit_lower; reflexivity.
  - intros H. unfold CanvasContent.hexToRgb.
    change ("#" ++ hex) with (String "#" hex).
    change (Nat.eqb (JS.code "#") 35) with true. cbv iota.
    destruct hex as [|c0 r]; [reflexivity|].
    simpl in H. rewrite H. reflexivity.
Qed.

Lemma hexToRgb_channels_and_case_witness :
  CanvasContent.hexToRgb "#FfA07a" = Some (CanvasContent.mkRgb 255 160 122)
  /\ CanvasContent.hexToRgb ("#" ++ "ffa07a") = CanvasContent.hexToRgb "ffa07a".
Proof.
  split; [reflexivity|].
  apply (proj2 (proj2 (proj2 (hexToRgb_channels_and_case "ffa07a")))).
  reflexivity.
Defined.

(** X12.  [hasContent] answers true exactly when the background colour
    is read by [hexToRgb] and some pixel that is not fully transparent
    differs from it in a channel; in particular it answers false on any
    data when the background is not six hexadecimal digits (a colour
    name, or the short form [#fff]).  Whenever [hasContent] answers true,
    so does [ExportManager.canvasHasContent] on the same data. *)
Theorem hasContent_characterised (background : string) (data : list nat) :
  (CanvasContent.hasContent background data = true
   <-> exists k r g b a bg,
         CanvasContent.pixelAt data k = Some (r, g, b, a)
         /\ 0 < a
         /\ CanvasContent.hexToRgb background = Some bg
         /\ (r <> CanvasContent.red bg \/ g <> CanvasContent.green bg
             \/ b <> CanvasContent.blue bg))
  /\ (CanvasContent.hexToRgb background = None ->
      CanvasContent.hasContent background data = false)
  /\ (CanvasContent.hasContent background data = true ->
      CanvasContent.canvasHasContent data = true).
Proof.
  split; [|split].
  - functional induction (CanvasContent.hasContent background data).
    + split; [discriminate|]. intros (k & r & g & b & a & bg & H & _).
      rewrite pixelAt_short in H; [discriminate | simpl; lia].
    + split; [discriminate|]. intros (k & r' & g & b & a & bg & H & _).
      rewrite pixelAt_short in H; [discriminate | simpl; lia].
    + split; [discriminate|]. intros (k & r' & g' & b & a & bg & H & _).
      rewrite pixelAt_short in H; [discriminate | simpl; lia].
    + split; [discriminate|]. intros (k & r' & g' & b' & a & bg & H & _).
      rewrite pixelAt_short in H; [discriminate | simpl; lia].
    + split; [intros _|reflexivity].
      exists 0, r, g, b, a, bg. split; [reflexivity|].
      split; [now apply Nat.ltb_lt|]. split; [assumption|].
      apply orb_prop in e5 as [e5|e5]; [apply orb_prop in e5 as [e5|e5]|];
        apply negb_true_iff, Nat.eqb_neq in e5; auto.
    + rewrite IHb. split.
      * intros (k & r' & g' & b' & a' & bg' & H & Hrest).
        exists (S k), r', g', b', a', bg'. now rewrite pixelAt_next.
      * intros (k & r' & g' & b' & a' & bg' & H & Ha & Hbg & Hne).
        destruct k as [|k].
        -- exfalso. injection H as <- <- <- <-.
           rewrite e4 in Hbg. injection Hbg as <-.
           apply orb_false_iff in e5 as (e5 & e7).
           apply orb_false_iff in e5 as (e5 & e6).
           apply negb_false_iff, Nat.eqb_eq in e5, e6, e7. intuition.
        -- rewrite pixelAt_next in H. exists k, r', g', b', a', bg'. auto.
    + rewrite IHb. split.
      * intros (k & r' & g' & b' & a' & bg' & H & Hrest).
        exists (S k), r', g', b', a', bg'. now rewrite pixelAt_next.
      * intros (k & r' & g' & b' & a' & bg' & H & Ha & Hbg & Hne).
        rewrite e4 in Hbg. discriminate Hbg.
    + rewrite IHb. split.
      * intros (k & r' & g' & b' & a' & bg' & H & Hrest).
        exists (S k), r', g', b', a', bg'. now rewrite pixelAt_next.
      * intros (k & r' & g' & b' & a' & bg' & H & Ha & Hbg & Hne).
        destruct k as [|k].
        -- exfalso. injection H as <- <- <- <-.
           apply Nat.ltb_ge in e3. lia.
        -- rewrite pixelAt_next in H. exists k, r', g', b', a', bg'. auto.
  - intros Hnone.
    functional induction (CanvasContent.hasContent background data);
      try reflexivity; try assumption; congruence.
  - functional induction (CanvasContent.hasContent background data);
      try discriminate; cbn [CanvasContent.canvasHasContent];
      rewrite ?e3; auto.
Qed.

Lemma hasContent_characterised_witness :
  CanvasContent.hasContent "#fff" [0; 0; 0; 255; 51; 51; 51; 255] = false.
Proof.
  apply (proj1 (proj2 (hasContent_characterised "#fff"
                         [0; 0; 0; 255; 51; 51; 51; 255]))).
  reflexivity.
Defined.

(* ================================================================== *)
(** * The slug of a title and the validity of generated names          *)
(* ================================================================== *)

Section SlugFacts.

Lemma allString_filterString (p : ascii -> bool) (s : string) :
  JS.allString p (JS.filterString p s) = true.
Proof.
  induction s as [|c r IH]; simpl; [reflexivity|].
  destruct (p c) eqn:E; simpl; [now rewrite E|exact IH].
Qed.

Lemma replaceRuns_all (cls P Q : ascii -> bool) (s : string) :
  (forall c, Q c = true -> cls c = false -> P c = true) ->
  P "-"%char = true ->
  JS.allString Q s = true ->
  JS.allString P (JS.replaceRuns cls "-" s) = true.
Proof.
  intros Hkeep Hrep. induction s as [|c r IH]; simpl; [reflexivity|].
  intros H. apply andb_prop in H as [Hc Hr].
  destruct (cls c) eqn:E.
  - destruct (JS.startsWith cls r); [now apply IH|].
    simpl. rewrite Hrep. now apply IH.
  - simpl. rewrite (Hkeep c Hc E). now apply IH.
Qed.

Lemma dropLeadingHyphen_all (P : ascii -> bool) (s : string) :
  JS.allString P s = true -> JS.allString P (FileName.dropLeadingHyphen s) = true.
Proof.
  destruct s as [|c r]; simpl; [auto|].
  intros H. destruct (FileName.isHyphen c); [|exact H].
  now apply andb_prop in H as [_ Hr].
Qed.

Lemma dropTrailingHyphen_all (P : ascii -> bool) (s : string) :
  JS.allString P s = true -> JS.allString P (FileName.dropTrailingHyphen s) = true.
Proof.
  induction s as [|c r IH]; [auto|].
  intros H. simpl in H. apply andb_prop in H as [Hc Hr].
  destruct r as [|d r'].
  - simpl. destruct (FileName.isHyphen c); simpl; [reflexivity | now rewrite Hc].
  - change (FileName.dropTrailingHyphen (String c (String d r')))
      with (String c (FileName.dropTrailingHyphen (String d r'))).
    simpl JS.allString at 1. rewrite Hc. now apply IH.
Qed.

Lemma lower_is_slug (c : ascii) :
  JS.isWordChar c || FileName.isHyphen c = true ->
  ExportNames.isSlugChar (JS.lowerChar c) = true.
Proof.
  destruct c as [[|] [|] [|] [|] [|] [|] [|] [|]]; vm_compute;
    intros; try discriminate; auto.
Qed.

Lemma toLowerCase_slug (s : string) :
  JS.allString (fun c => JS.isWordChar c || FileName.isHyphen c) s = true ->
  JS.allString ExportNames.isSlugChar (JS.toLowerCase s) = true.
Proof.
  unfold JS.toLowerCase.
  induction s as [|c r IH]; simpl; [auto|].
  intros H. apply andb_prop in H as [Hc Hr].
  now rewrite (lower_is_slug c Hc), IH.
Qed.

Lemma take_all (P : ascii -> bool) (s : string) :
  forall n, JS.allString P s = true -> JS.allString P (JS.take n s) = true.
Proof.
  induction s as [|c r IH]; intros [|n] H; simpl; try reflexivity.
  simpl in H. apply andb_prop in H as [Hc Hr]. now rewrite Hc, IH.
Qed.

Lemma take_length (s : string) :
  forall n, String.length (JS.take n s) <= n.
Proof.
  induction s as [|c r IH]; intros [|n]; simpl; try lia.
  specialize (IH n). lia.
Qed.

Lemma cleanTitle_slug (n : nat) (t : string) :
  JS.allString ExportNames.isSlugChar (FileName.cleanTitle n t) = true
  /\ String.length (FileName.cleanTitle n t) <= n.
Proof.
  unfold FileName.cleanTitle. split; [|apply take_length].
  apply take_all, toLowerCase_slug, dropTrailingHyphen_all, dropLeadingHyphen_all.
  apply (replaceRuns_all FileName.isHyphen _
           (fun c => JS.isWordChar c || FileName.isHyphen c)).
  { intros c Hc _. exact Hc. }
  { reflexivity. }
  apply (replaceRuns_all JS.isWhiteSpace _ FileName.keptInTitle).
  { intros c Hc Hws. unfold FileName.keptInTitle in Hc. rewrite Hws in Hc.
    now rewrite orb_false_r in Hc. }
  { reflexivity. }
  apply allString_filterString.
Qed.

Lemma slug_char_valid (c : ascii) :
  ExportNames.isSlugChar c = true -> ExportNames.isInvalidChar c = false.
Proof.
  destruct c as [[|] [|] [|] [|] [|] [|] [|] [|]]; vm_compute;
    intros; try discriminate; auto.
Qed.

Lemma slug_valid (s : string) :
  JS.allString ExportNames.isSlugChar s = true ->
  ExportNames.anyChar ExportNames.isInvalidChar s = false.
Proof.
  induction s as [|c r IH]; simpl; [auto|].
  intros H. apply andb_prop in H as [Hc Hr].
  now rewrite (slug_char_valid c Hc), IH.
Qed.

Lemma anyChar_app (p : ascii -> bool) (a b : string) :
  ExportNames.anyChar p (a ++ b) = ExportNames.anyChar p a || ExportNames.anyChar p b.
Proof.
  induction a as [|c r IH]; simpl; [reflexivity|]. now rewrite IH, orb_assoc.
Qed.

Lemma digit_slug (n : N) : ExportNames.isSlugChar (FileName.digit n) = true.
Proof.
  apply digit_cases. intros k Hk.
  assert (k = 0 \/ k = 1 \/ k = 2 \/ k = 3 \/ k = 4 \/ k = 5 \/ k = 6
          \/ k = 7 \/ k = 8 \/ k = 9)%N as Hc by lia.
  repeat (destruct Hc as [-> | Hc]; [reflexivity|]); subst; reflexivity.
Qed.

Lemma stampOf_slug (now : Date) :
  JS.allString ExportNames.isSlugChar (FileName.stampOf now) = true
  /\ String.length (FileName.stampOf now) = 15.
Proof.
  unfold FileName.stampOf, FileName.digits4, FileName.digits3, FileName.digits2.
  split; [|reflexivity].
  simpl. now rewrite !digit_slug.
Qed.

Lemma string_app_assoc (a b c : string) : (a ++ b) ++ c = a ++ b ++ c.
Proof.
  induction a as [|x r IH]; simpl; [reflexivity|]. now rewrite IH.
Qed.

Lemma ends_with_text_not_blank (a b : string) :
  JS.allString JS.isWhiteSpace b = false -> JS.isEmpty (JS.trim (a ++ b)) = false.
Proof.
  intros Hb. destruct (JS.isEmpty (JS.trim (a ++ b))) eqn:E; [|reflexivity].
  apply isEmpty_true, trim_empty_blank in E.
  rewrite allString_app, Hb, andb_false_r in E. discriminate E.
Qed.

End SlugFacts.

(** X13.  Whatever the title, the configuration and the clock, the name
    [ExportManager.generateFilename] builds starts with a non-empty slug
    made of lower-case letters, digits, underscores and hyphens only,
    never longer than the configured maximum (13 for the fallback
    [ocarina-chart]), followed by the stamp when configured and by the
    extension. *)
Theorem generated_name_shape
        (config : ExportManager.ExportConfig) (now : Date)
        (t : ExportManager.TitleArg) (format : string) :
  exists slug,
    ExportManager.generateFilename config now t format
    = slug
      ++ (if ExportManager.includeTimestamp config
          then "-" ++ FileName.timestamp now else "")
      ++ "." ++ format
    /\ slug <> ""
    /\ JS.allString ExportNames.isSlugChar slug = true
    /\ String.length slug <= Nat.max (ExportManager.maxFilenameLength config) 13.
Proof.
  unfold ExportManager.generateFilename.
  set (titleString := match t with
                      | ExportManager.OfString s => s
                      | ExportManager.OfSong song => title song
                      end).
  destruct (cleanTitle_slug (ExportManager.maxFilenameLength config) titleString)
    as (Hslug & Hlen).
  destruct (FileName.cleanTitle (ExportManager.maxFilenameLength config) titleString)
    as [|c r] eqn:E; cbn [JS.isEmpty negb].
  - exists "ocarina-chart". split; [|split; [discriminate|split; [reflexivity|]]].
    + destruct (ExportManager.includeTimestamp config); reflexivity.
    + simpl String.length. lia.
  - exists (String c r). split; [|split; [discriminate|split; [exact Hslug|lia]]].
    destruct (ExportManager.includeTimestamp config).
    + now rewrite string_app_assoc.
    + reflexivity.
Qed.

(** X14.  With the default export configuration and a clock reading with
    a four-digit year, [validateFilename] accepts the name that
    [generateFilename] builds exactly when the slug of the title has at
    most 40 characters: a longer slug (up to 50 are kept) makes a name
    longer than the 60 characters the check allows. *)
Theorem generated_name_validity (now : Date) (t : string) :
  FileName.plainDate now ->
  ExportNames.valid
    (ExportNames.validateFilename ExportManager.DEFAULT_EXPORT_CONFIG
       (ExportManager.generateFilename ExportManager.DEFAULT_EXPORT_CONFIG now
          (ExportManager.OfString t) "png"))
  = (String.length (FileName.cleanTitle 50 t) <=? 40)%nat.
Proof.
  intros Hd.
  unfold ExportManager.generateFilename.
  cbn [ExportManager.includeTimestamp ExportManager.maxFilenameLength
       ExportManager.DEFAULT_EXPORT_CONFIG].
  rewrite (timestamp_plain now Hd).
  destruct (cleanTitle_slug 50 t) as (Hslug & Hlen).
  destruct (stampOf_slug now) as (Hstamp & Hstamplen).
  set (base := if negb (JS.isEmpty (FileName.cleanTitle 50 t))
               then FileName.cleanTitle 50 t else "ocarina-chart").
  assert (Hbase : JS.allString ExportNames.isSlugChar base = true
                  /\ (String.length base <=? 40)%nat
                     = (String.length (FileName.cleanTitle 50 t) <=? 40)%nat).
  { subst base. destruct (FileName.cleanTitle 50 t); simpl; auto. }
  destruct Hbase as (Hbslug & Hblen).
  unfold ExportNames.validateFilename.
  cbn [ExportManager.maxFilenameLength ExportManager.DEFAULT_EXPORT_CONFIG].
  change ("." ++ "png") with ".png".
  rewrite (ends_with_text_not_blank _ ".png" eq_refl).
  rewrite !length_app, Hstamplen. simpl String.length.
  rewrite !anyChar_app, (slug_valid base Hbslug), (slug_valid _ Hstamp).
  simpl orb. rewrite <- Hblen.
  destruct (Nat.leb_spec (String.length base) 40) as [Hle|Hgt];
    match goal with
    | |- context [(?a <? ?b)%nat] => destruct (Nat.ltb_spec a b) as [Hlt|Hge]
    end; try reflexivity; exfalso; lia.
Qed.

Lemma generated_name_validity_witness :
  ExportNames.valid
    (ExportNames.validateFilename ExportManager.DEFAULT_EXPORT_CONFIG
       (ExportManager.generateFilename ExportManager.DEFAULT_EXPORT_CONFIG sampleDate
          (ExportManager.OfString "The Quite Exceptionally Long Ballad Of The Four Holes")
          "png"))
  = false.
Proof.
  rewrite (generated_name_validity sampleDate
             "The Quite Exceptionally Long Ballad Of The Four Holes").
  - reflexivity.
  - unfold FileName.plainDate, sampleDate; simpl. lia.
Defined.

(* ================================================================== *)
(** * The conversion of [B]                                            *)
(* ================================================================== *)

Lemma converted_not_B (cfg : NoteParser.ParseConfig) (n : string) :
  NoteParser.autoConvertB cfg = true ->
  ParserFacts.isB (NoteParser.convertedNote cfg n) = false.
Proof.
  intros Hon. unfold NoteParser.convertedNote, ParserFacts.isB.
  rewrite Hon, andb_true_r.
  destruct (String.eqb (JS.toUpperCase n) "B") eqn:E; [reflexivity | exact E].
Qed.

Lemma convertNotes_settled (cfg : NoteParser.ParseConfig) (notes : list string) :
  Forall (fun n => ParserFacts.isB n && NoteParser.autoConvertB cfg = false) notes ->
  NoteParser.convertNotes cfg notes = (notes, []).
Proof.
  induction 1 as [|n rest Hn _ IH]; simpl; [reflexivity|].
  rewrite IH. unfold ParserFacts.isB in Hn. now rewrite Hn.
Qed.

(** X15.  [convertNotes] keeps the number and the order of the notes:
    the note at each index is [Bb] where the input has [B] in either case
    and conversion is on, and the input note otherwise.  It gives one
    conversion warning per note replaced and no other warning, and a
    second pass over its result changes nothing and warns of nothing. *)
Theorem convertNotes_counts_and_settles
        (cfg : NoteParser.ParseConfig) (notes : list string) :
  let result := NoteParser.convertNotes cfg notes in
  List.length (fst result) = List.length notes
  /\ (forall i n, nth_error notes i = Some n ->
        nth_error (fst result) i
        = Some (if ParserFacts.isB n && NoteParser.autoConvertB cfg then "Bb" else n))
  /\ snd result
     = repeat NoteParser.conversionWarning
         (List.length
            (filter (fun n => ParserFacts.isB n && NoteParser.autoConvertB cfg) notes))
  /\ NoteParser.convertNotes cfg (fst result) = (fst result, []).
Proof.
  cbv zeta. split; [|split; [|split]].
  - rewrite convertNotes_map. apply length_map.
  - intros i n Hn. rewrite convertNotes_map, nth_error_map, Hn. reflexivity.
  - induction notes as [|n rest IH]; simpl; [reflexivity|].
    destruct (NoteParser.convertNotes cfg rest) as [ns ws]; simpl in IH.
    unfold ParserFacts.isB at 1.
    destruct (String.eqb (JS.toUpperCase n) "B" && NoteParser.autoConvertB cfg);
      simpl; now rewrite IH.
  - apply convertNotes_settled. rewrite convertNotes_map.
    apply Forall_map, Forall_forall. intros n _.
    destruct (NoteParser.autoConvertB cfg) eqn:Hon.
    + now rewrite (converted_not_B cfg n Hon).
    + apply andb_false_r.
Qed.

Lemma convertNotes_counts_and_settles_witness :
  nth_error (fst (NoteParser.convertNotes NoteParser.DEFAULT_CONFIG ["F"; "b"; "G"; "B"])) 1
  = Some "Bb".
Proof.
  exact (proj1 (proj2 (convertNotes_counts_and_settles
                         NoteParser.DEFAULT_CONFIG ["F"; "b"; "G"; "B"]))
               1 "b" eq_refl).
Defined.
